(** * automatic-barnacle: the fetch / parse / normalize / cache pipeline of [src/main.py]

    A shallow embedding of [main.py] and the properties of its pipeline.

    Modelling conventions.
    - Python [str] is [string].  [\d] is [0-9], [\w] is [A-Za-z0-9_] and
      [.] is every character but the line feed, as Python's [re] has them
      on ASCII text.  On other text [\d] and [\w] also accept the digits
      and letters of Unicode, and [float] reads such digits: a property
      that depends on what the patterns find in a text is stated for texts
      that are ASCII ([ascii_text]).
    - Python [float] is IEEE-754 binary64: the primitive [float] of Rocq,
      with the same rounding (to nearest, ties to even).
    - A raised exception is a value of [exn] carried by the [outcome] monad;
      [try ... except] is a [match] on it.
    - The globals [cached_data] and [last_update] are a record threaded
      through [get_vps_data]; the clock, the configuration files and the
      upstream server are an [env] the call reads from; the upstream
      requests a call performs are returned as a trace. *)

From Stdlib Require Import String Ascii List ZArith Bool Lia Floats.
From Stdlib Require Uint63.
Import ListNotations.
Local Open Scope string_scope.

(* ===================================================================== *)
(** ** Exceptions and the outcome monad *)

Inductive exn_class :=
| RequestException | RuntimeError | AttributeError | ValueError
| KeyError | IndexError | ZeroDivisionError | TypeError | OverflowError.

(** An exception object: its class and [str(e)]. *)
Record exn := mkExn { exn_type : exn_class; exn_str : string }.

Inductive outcome (A : Type) :=
| Ok (a : A)
| Raise (e : exn).
Arguments Ok {A} a.
Arguments Raise {A} e.

Definition bind {A B} (r : outcome A) (k : A -> outcome B) : outcome B :=
  match r with
  | Ok a => k a
  | Raise e => Raise e
  end.

Declare Scope py_scope.
Delimit Scope py_scope with py.
Notation "x <- r ;; k" := (bind r (fun x => k))
  (at level 61, r at next level, right associativity) : py_scope.
Local Open Scope py_scope.

Definition is_ok {A} (r : outcome A) : bool :=
  match r with Ok _ => true | Raise _ => false end.

(** [try: body  except cls as e: raise handler(e)] for a handler that
    re-raises. *)
Definition try_except {A} (body : outcome A) (caught : exn_class -> bool)
    (handler : exn -> exn) : outcome A :=
  match body with
  | Ok a => Ok a
  | Raise e => if caught (exn_type e) then Raise (handler e) else Raise e
  end.

(** [except requests.exceptions.RequestException] *)
Definition is_RequestException (c : exn_class) : bool :=
  match c with RequestException => true | _ => false end.

(** [except Exception]: every class above derives from [Exception]. *)
Definition is_Exception (c : exn_class) : bool := true.

(* ===================================================================== *)
(** ** Python values: str, int, float and dict (insertion ordered) *)

#[local] Set Warnings "-register-all".
Inductive pyval :=
| PStr (s : string)
| PInt (z : Z)
| PFloat (f : float)
| PDict (items : list (string * pyval)).

Definition dict := list (string * pyval).

Fixpoint dict_get (d : dict) (k : string) : option pyval :=
  match d with
  | [] => None
  | (k', v) :: d' => if String.eqb k k' then Some v else dict_get d' k
  end.

(** [d[k] = v]: replaces the value of an existing key in place, appends a
    new key. *)
Fixpoint dict_set (d : dict) (k : string) (v : pyval) : dict :=
  match d with
  | [] => [(k, v)]
  | (k', v') :: d' =>
      if String.eqb k k' then (k', v) :: d' else (k', v') :: dict_set d' k v
  end.

Definition dict_keys (d : dict) : list string := map fst d.

(** [repr] of a key as [KeyError] prints it (keys here hold no quote). *)
Definition key_repr (k : string) : string := "'" ++ k ++ "'".

(** [v[k]] *)
Definition getitem (v : pyval) (k : string) : outcome pyval :=
  match v with
  | PDict d =>
      match dict_get d k with
      | Some x => Ok x
      | None => Raise (mkExn KeyError (key_repr k))
      end
  | PStr _ => Raise (mkExn TypeError "string indices must be integers")
  | PInt _ => Raise (mkExn TypeError "'int' object is not subscriptable")
  | PFloat _ => Raise (mkExn TypeError "'float' object is not subscriptable")
  end.

(** Truth value of an object: an empty container and zero are false. *)
Definition truthy (v : pyval) : bool :=
  match v with
  | PStr s => negb (String.eqb s "")
  | PInt z => negb (Z.eqb z 0)
  | PFloat f => negb (PrimFloat.eqb f 0)
  | PDict d => match d with [] => false | _ => true end
  end.

(** [v == s] for a string literal [s] *)
Definition eq_str (v : pyval) (s : string) : bool :=
  match v with
  | PStr s' => String.eqb s' s
  | _ => false
  end.

(** [x in l] on a list of strings *)
Definition str_in (x : string) (l : list string) : bool :=
  existsb (String.eqb x) l.

(* ===================================================================== *)
(** ** Floating point *)

(** The float nearest to an integer (overflowing to infinity): how Python
    converts an [int] operand of a float operation and the integer a
    decimal literal denotes. *)
Definition float_of_Z (z : Z) : float :=
  SF2Prim (binary_normalize prec emax z 0 false).

(** [x / y] on floats: Python raises on a zero divisor. *)
Definition py_div (x y : float) : outcome float :=
  if PrimFloat.eqb y 0 then Raise (mkExn ZeroDivisionError "float division by zero")
  else Ok (PrimFloat.div x y).

(** [int(x)] on a float: truncation toward zero. *)
Definition py_int (x : float) : outcome Z :=
  match Prim2SF x with
  | S754_zero _ => Ok 0%Z
  | S754_finite s m e =>
      let a := match e with
               | Z0 => Zpos m
               | Zpos p => Z.mul (Zpos m) (Z.pow 2 (Zpos p))
               | Zneg p => Z.div (Zpos m) (Z.pow 2 (Zpos p))
               end in
      Ok (if s then Z.opp a else a)
  | S754_infinity _ =>
      Raise (mkExn OverflowError "cannot convert float infinity to integer")
  | S754_nan => Raise (mkExn ValueError "cannot convert float NaN to integer")
  end.

(** Characters of the three classes the patterns use, on ASCII text. *)
Definition is_digit (c : ascii) : bool :=
  let n := nat_of_ascii c in (48 <=? n)%nat && (n <=? 57)%nat.

Definition is_word (c : ascii) : bool :=
  let n := nat_of_ascii c in
  ((48 <=? n)%nat && (n <=? 57)%nat) || ((65 <=? n)%nat && (n <=? 90)%nat)
  || ((97 <=? n)%nat && (n <=? 122)%nat) || (n =? 95)%nat.

Definition is_dot (c : ascii) : bool := negb (nat_of_ascii c =? 10)%nat.

Fixpoint all_chars (p : ascii -> bool) (s : string) : bool :=
  match s with
  | EmptyString => true
  | String c s' => p c && all_chars p s'
  end.

(** ASCII text: every character is below 128. *)
Definition is_ascii (c : ascii) : bool := (nat_of_ascii c <? 128)%nat.

Definition ascii_text (s : string) : bool := all_chars is_ascii s.

(** The integer a run of decimal digits denotes, most significant first. *)
Fixpoint digits_value (acc : Z) (s : string) : Z :=
  match s with
  | EmptyString => acc
  | String c s' => digits_value (10 * acc + (Z.of_nat (nat_of_ascii c) - 48)) s'
  end.

(** [float(s)] on a string, for the text [s] of a group of [INNER_PATTERN]: the empty
    string is refused; a run of digits is the float nearest to the integer
    it denotes.  Python's [float] also reads signs, fractions, exponents,
    blanks and the digits of other scripts; in ASCII text no such text is
    captured by [\d*?] (see [INNER_PATTERN_match]) and the model refuses
    it. *)
Definition float_of_str (s : string) : outcome float :=
  match s with
  | EmptyString =>
      Raise (mkExn ValueError "could not convert string to float: ''")
  | _ =>
      if all_chars is_digit s then Ok (float_of_Z (digits_value 0 s))
      else Raise (mkExn ValueError
                    ("could not convert string to float: " ++ key_repr s))
  end.


(* ===================================================================== *)
(** ** Regular expressions: the fragment of [re] the three patterns use

    A literal character, a lazy repetition [c*?] of a character class,
    concatenation and a numbered capturing group.  The matcher backtracks
    as [re] does: a lazy repetition first tries to go on with what it has
    and takes one more character only when the rest of the pattern fails. *)

Inductive regex :=
| Chr (c : ascii)
| Lazy (cls : ascii -> bool)
| Cat (r1 r2 : regex)
| Grp (n : nat) (r : regex).

Declare Scope re_scope.
Delimit Scope re_scope with re.
Notation "r1 '~>' r2" := (Cat r1 r2) (at level 60, right associativity) : re_scope.

Definition captures := list (nat * string).

(** The continuation of a match gets the text consumed so far by the
    enclosing pattern, the text left and the groups closed so far. *)
Definition cont (A : Type) := string -> string -> captures -> option A.

Fixpoint lazy_star {A} (cls : ascii -> bool) (acc rest : string)
    (k : string -> string -> option A) : option A :=
  match k acc rest with
  | Some a => Some a
  | None =>
      match rest with
      | String c rest' =>
          if cls c then lazy_star cls (acc ++ String c EmptyString) rest' k
          else None
      | EmptyString => None
      end
  end.

Fixpoint rmatch {A} (r : regex) (rest : string) (cs : captures)
    (k : cont A) : option A :=
  match r with
  | Chr c =>
      match rest with
      | String c' rest' =>
          if Ascii.eqb c' c then k (String c' EmptyString) rest' cs else None
      | EmptyString => None
      end
  | Lazy cls => lazy_star cls EmptyString rest (fun u rest' => k u rest' cs)
  | Cat r1 r2 =>
      rmatch r1 rest cs (fun u1 rest1 cs1 =>
        rmatch r2 rest1 cs1 (fun u2 rest2 cs2 => k (u1 ++ u2) rest2 cs2))
  | Grp n r =>
      rmatch r rest cs (fun u rest' cs' => k u rest' ((n, u) :: cs'))
  end.

(** A compiled pattern: the expression, its number of groups and the
    numbers of its named groups ([pattern.groupindex]). *)
Record pattern := mkPattern {
  pat_re : regex;
  pat_groups : nat;
  pat_groupindex : list (string * nat)
}.

(** A match object: the text matched ([m.group()]) and the groups. *)
Record match_obj := mkMatch {
  m_pattern : pattern;
  m_group0 : string;
  m_caps : captures
}.

(** [pattern.match(s)]: a match anchored at the start of [s]. *)
Definition re_match (p : pattern) (s : string) : option match_obj :=
  rmatch (pat_re p) s [] (fun u _ cs => Some (mkMatch p u cs)).

Fixpoint cap_get (cs : captures) (n : nat) : string :=
  match cs with
  | [] => EmptyString
  | (n', u) :: cs' => if Nat.eqb n n' then u else cap_get cs' n
  end.

(** [m.group()] *)
Definition group (m : match_obj) : string := m_group0 m.

(** [m.groups()]: groups 1, 2, ... in order. *)
Definition groups (m : match_obj) : list string :=
  map (cap_get (m_caps m)) (seq 1 (pat_groups (m_pattern m))).

(** [m.groupdict()]: the named groups. *)
Definition groupdict (m : match_obj) : dict :=
  map (fun '(name, n) => (name, PStr (cap_get (m_caps m) n)))
      (pat_groupindex (m_pattern m)).

(** [pattern.finditer(s)]: the matches found scanning left to right, each
    search resuming where the previous match ended.  [skip] counts the
    characters of the last match still to pass.  (An empty match would
    resume one character on; the outer pattern matches no empty text.) *)
Fixpoint finditer_from (p : pattern) (s : string) (skip : nat) : list match_obj :=
  match s with
  | EmptyString => []
  | String _ s' =>
      match skip with
      | S n => finditer_from p s' n
      | O =>
          match re_match p s with
          | Some m => m :: finditer_from p s' (String.length (group m) - 1)
          | None => finditer_from p s' 0
          end
      end
  end.

Definition finditer (p : pattern) (s : string) : list match_obj :=
  finditer_from p s 0.

Local Open Scope re_scope.

(** [OUTER_PATTERN = re.compile(r'(<(?P<type>\w*?)>.*?</\w*?>)')] *)
Definition OUTER_PATTERN : pattern :=
  mkPattern
    (Grp 1 (Chr "<" ~> Grp 2 (Lazy is_word) ~> Chr ">" ~> Lazy is_dot ~>
            Chr "<" ~> Chr "/" ~> Lazy is_word ~> Chr ">"))
    2 [("type", 2%nat)].

(** [INNER_PATTERN = re.compile(
      r'<.*?>(?P<total>\d*?),(?P<used>\d*?),(?P<free>\d*?),(?P<per>\d*?)</.*?>')] *)
Definition INNER_PATTERN : pattern :=
  mkPattern
    (Chr "<" ~> Lazy is_dot ~> Chr ">" ~>
     Grp 1 (Lazy is_digit) ~> Chr "," ~> Grp 2 (Lazy is_digit) ~> Chr "," ~>
     Grp 3 (Lazy is_digit) ~> Chr "," ~> Grp 4 (Lazy is_digit) ~>
     Chr "<" ~> Chr "/" ~> Lazy is_dot ~> Chr ">")
    4 [("total", 1%nat); ("used", 2%nat); ("free", 3%nat); ("per", 4%nat)].

(** [SIMPLE_PATTERN = re.compile(r'<.*?>(?P<string>.*?)</.*?>')] *)
Definition SIMPLE_PATTERN : pattern :=
  mkPattern
    (Chr "<" ~> Lazy is_dot ~> Chr ">" ~> Grp 1 (Lazy is_dot) ~>
     Chr "<" ~> Chr "/" ~> Lazy is_dot ~> Chr ">")
    1 [("string", 1%nat)].

Local Close Scope re_scope.

(* ===================================================================== *)
(** ** Builtins on values *)

(** [float(v)] *)
Definition py_float (v : pyval) : outcome float :=
  match v with
  | PStr s => float_of_str s
  | PInt z => Ok (float_of_Z z)
  | PFloat f => Ok f
  | PDict _ =>
      Raise (mkExn TypeError
        "float() argument must be a string or a real number, not 'dict'")
  end.

Fixpoint str_repeat (s : string) (n : nat) : string :=
  match n with
  | O => EmptyString
  | S n' => s ++ str_repeat s n'
  end.

(** [v * n] for an [int] [n]: the int is converted for a float operand. *)
Definition py_mul_int (v : pyval) (n : Z) : outcome pyval :=
  match v with
  | PFloat f => Ok (PFloat (PrimFloat.mul f (float_of_Z n)))
  | PInt z => Ok (PInt (z * n))
  | PStr s => Ok (PStr (str_repeat s (Z.to_nat n)))
  | PDict _ =>
      Raise (mkExn TypeError "unsupported operand type(s) for *: 'dict' and 'int'")
  end.

(** [for x in l: s = body(x, s)], the first exception ending the loop. *)
Fixpoint for_in {A S} (l : list A) (s : S) (body : A -> S -> outcome S) : outcome S :=
  match l with
  | [] => Ok s
  | x :: l' => s' <- body x s ;; for_in l' s' body
  end.

(* ===================================================================== *)
(** ** Constants of [main.py] *)

Definition CACHE_DURATION : Z := 60.
Definition API_URL : string := "https://nerdvm.racknerd.com/api/client/command.php".
Definition RESOURCE_TYPES : list string := ["hdd"; "bw"; "mem"].
Definition INFO_TYPES : list string := ["hostname"; "ipaddress"].
Definition BYTES_TO_GB : Z := 1024 ^ 3.
Definition GB_TO_TB : Z := 1024.

Record ServerConfig := mkServerConfig {
  key : string;
  hash_value : string;
  should_loop : bool;
  sleep_minutes : Z
}.

(* ===================================================================== *)
(** ** The environment of one call *)

(** An upstream request: the URL and the form fields posted. *)
Definition request := (string * dict)%type.

Record env := mkEnv {
  (** [time.time()] on entry to [get_vps_data] *)
  env_time : float;
  (** what the body of [load_config]'s [try] does: reading the variables
      and files gives a configuration or raises *)
  env_config : outcome ServerConfig;
  (** [requests.post(url, data=flags, timeout=30)] followed by
      [raise_for_status()]: the text of the response, or the exception
      raised (a [RequestException] for a transport failure, a timeout or an
      error status) *)
  env_post : string -> dict -> outcome string;
  (** [time.time()] when the output is assembled *)
  env_time_assembly : float
}.

(** The module globals. *)
Record globals := mkGlobals {
  cached_data : option pyval;
  last_update : float
}.

(** The globals when the module is loaded: [cached_data = None],
    [last_update = 0]. *)
Definition initial_globals : globals := mkGlobals None 0%float.

(* ===================================================================== *)
(** ** [load_config] *)

Definition load_config (w : env) : outcome ServerConfig :=
  try_except (env_config w) is_Exception
    (fun e => mkExn RuntimeError ("Failed to load configuration: " ++ exn_str e)).

(* ===================================================================== *)
(** ** [convert_bytes_to_readable]

    Both divisors are non-zero constants, so the divisions never raise. *)
Definition convert_bytes_to_readable (value : float) : float * string :=
  let gb_value := PrimFloat.div value (float_of_Z BYTES_TO_GB) in
  if PrimFloat.leb 1000 gb_value
  then (PrimFloat.div gb_value (float_of_Z GB_TO_TB), "TB")
  else (gb_value, "GB").

(* ===================================================================== *)
(** ** [process_resource_data] *)

Definition process_resource_data (data : pyval) : outcome pyval :=
  let result : dict := [] in
  used_s <- getitem data "used" ;;
  used <- py_float used_s ;;
  total_s <- getitem data "total" ;;
  total <- py_float total_s ;;
  (* Calculate percentage *)
  result <-
    (if negb (PrimFloat.eqb used 0) || negb (PrimFloat.eqb total 0)
     then q <- py_div used total ;;
          Ok (dict_set result "per" (PFloat (PrimFloat.mul q 100)))
     else Ok (dict_set result "per" (PFloat 0))) ;;
  (* Convert values *)
  result <-
    for_in ["total"; "used"; "free"] result (fun key result =>
      value_s <- getitem data key ;;
      value <- py_float value_s ;;
      let '(display_value, unit) := convert_bytes_to_readable value in
      let result := dict_set result (key ++ "_display") (PFloat display_value) in
      let result := dict_set result (key ++ "_mag") (PStr unit) in
      let result := dict_set result key (PFloat value) in
      Ok result) ;;
  Ok (PDict result).

(* ===================================================================== *)
(** ** [api_response] *)

(** [m.groups()[i]] *)
Definition tuple_get (t : list string) (i : nat) : outcome string :=
  match nth_error t i with
  | Some x => Ok x
  | None => Raise (mkExn IndexError "tuple index out of range")
  end.

(** Calling a method on what [pattern.match] returned: [None] has none. *)
Definition on_match {A} (m : option match_obj) (method : string)
    (f : match_obj -> A) : outcome A :=
  match m with
  | Some m => Ok (f m)
  | None =>
      Raise (mkExn AttributeError
        ("'NoneType' object has no attribute " ++ key_repr method))
  end.

(** The body of the [for match in OUTER_PATTERN.finditer(...)] loop. *)
Definition api_response_block (m : match_obj) (result : dict) : outcome dict :=
  type_name <- tuple_get (groups m) 1 ;;
  if str_in type_name RESOURCE_TYPES then
    data <- on_match (re_match INNER_PATTERN (group m)) "groupdict" groupdict ;;
    processed_data <- process_resource_data (PDict data) ;;
    Ok (dict_set result type_name processed_data)
  else if str_in type_name INFO_TYPES then
    gs <- on_match (re_match SIMPLE_PATTERN (group m)) "groups" groups ;;
    s <- tuple_get gs 0 ;;
    Ok (dict_set result type_name (PStr s))
  else Ok result.

(** What [api_response] does with the text of the response. *)
Definition parse_response (text : string) : outcome dict :=
  for_in (finditer OUTER_PATTERN text) [] api_response_block.

Definition api_response (w : env) (flags : dict) (api_url : string)
    : outcome dict * list request :=
  (try_except
     (text <- env_post w api_url flags ;;
      parse_response text)
     is_RequestException
     (fun e => mkExn RuntimeError ("API request failed: " ++ exn_str e)),
   [(api_url, flags)]).

(* ===================================================================== *)
(** ** [get_vps_data] *)

Definition post_flags_of (config : ServerConfig) : dict :=
  [("key", PStr (key config)); ("hash", PStr (hash_value config));
   ("action", PStr "info"); ("bw", PStr "true"); ("hdd", PStr "true");
   ("mem", PStr "true")].

Definition resource_names : dict :=
  [("hdd", PStr "storage"); ("bw", PStr "bandwidth"); ("mem", PStr "memory")].

(** The key a value that is a string names. *)
Definition as_key (v : pyval) : outcome string :=
  match v with
  | PStr s => Ok s
  | _ => Raise (mkExn TypeError "unhashable type")
  end.

(** The body of the [for resource_type in RESOURCE_TYPES] loop. *)
Definition add_resource (post_flags response : dict) (resource_type : string)
    (output : dict) : outcome dict :=
  flag <- getitem (PDict post_flags) resource_type ;;
  if eq_str flag "true" then
    resource_data <- getitem (PDict response) resource_type ;;
    (* Convert to common unit (GB) *)
    mag <- getitem resource_data "total_mag" ;;
    let multiplier := if eq_str mag "TB" then 1024%Z else 1%Z in
    total_display <- getitem resource_data "total_display" ;;
    total_gb <- py_mul_int total_display multiplier ;;
    used_display <- getitem resource_data "used_display" ;;
    used_gb <- py_mul_int used_display multiplier ;;
    free_display <- getitem resource_data "free_display" ;;
    free_gb <- py_mul_int free_display multiplier ;;
    name_v <- getitem (PDict resource_names) resource_type ;;
    name <- as_key name_v ;;
    per <- getitem resource_data "per" ;;
    Ok (dict_set output name
          (PDict [("total", total_gb); ("used", used_gb); ("free", free_gb);
                  ("usage", per)]))
  else Ok output.

(** From the response to the output: the statements of the [try] after
    the call of [api_response]. *)
Definition assemble (w : env) (post_flags response : dict) : outcome pyval :=
  if negb (truthy (PDict response))
  then Raise (mkExn RuntimeError "Empty response from the server")
  else
    hostname <- getitem (PDict response) "hostname" ;;
    ip <- getitem (PDict response) "ipaddress" ;;
    now <- py_int (env_time_assembly w) ;;
    let output := [("hostname", hostname); ("ip", ip); ("last_update", PInt now)] in
    output <- for_in RESOURCE_TYPES output (add_resource post_flags response) ;;
    Ok (PDict output).

(** The body of the [try] of [get_vps_data], up to the assignment of the
    globals: the output, or the exception raised, and the requests made. *)
Definition fetch (w : env) : outcome pyval * list request :=
  match load_config w with
  | Raise e => (Raise e, [])
  | Ok config =>
      let post_flags := post_flags_of config in
      let '(response, trace) := api_response w post_flags API_URL in
      (response <- response ;; assemble w post_flags response, trace)
  end.

(** The [try] of [get_vps_data]: the globals are assigned when the body
    ends without an exception; an exception is wrapped and raised again. *)
Definition refresh (w : env) (g : globals) (current_time : float)
    : outcome pyval * globals * list request :=
  let '(r, trace) := fetch w in
  match try_except r is_Exception
          (fun e => mkExn RuntimeError ("Failed to fetch VPS data: " ++ exn_str e))
  with
  | Ok output => (Ok output, mkGlobals (Some output) current_time, trace)
  | Raise e => (Raise e, g, trace)
  end.

(** [current_time - last_update < CACHE_DURATION] *)
Definition within_window (g : globals) (current_time : float) : bool :=
  PrimFloat.ltb (PrimFloat.sub current_time (last_update g))
                (float_of_Z CACHE_DURATION).

(** [get_vps_data()]: what is returned or raised, the globals afterwards
    and the upstream requests made.  The body runs with [cache_lock] held. *)
Definition get_vps_data (w : env) (g : globals)
    : outcome pyval * globals * list request :=
  let current_time := env_time w in
  match cached_data g with
  | Some c =>
      if truthy c && within_window g current_time
      then (Ok c, g, [])
      else refresh w g current_time
  | None => refresh w g current_time
  end.

(** [cached_data and current_time - last_update < CACHE_DURATION] *)
Definition cache_fresh (g : globals) (current_time : float) : bool :=
  match cached_data g with
  | None => false
  | Some c => truthy c && within_window g current_time
  end.

(* ===================================================================== *)
(** ** The two endpoints *)

Inductive payload :=
| Json (v : pyval)
| Text (s : string).

(** What a view returns: the body and the status code. *)
Definition response := (payload * Z)%type.

(** [status()] *)
Definition status (w : env) (g : globals) : response * globals * list request :=
  let '(r, g', trace) := get_vps_data w g in
  match r with
  | Ok data => ((Json data, 200%Z), g', trace)
  | Raise e => ((Json (PDict [("error", PStr (exn_str e))]), 500%Z), g', trace)
  end.

Definition newline : string := String (ascii_of_nat 10) EmptyString.

(** ['\n'.join(lines)] *)
Definition join_lines (lines : list string) : string := String.concat newline lines.

(** [v.items()] *)
Definition items (v : pyval) : outcome dict :=
  match v with
  | PDict d => Ok d
  | _ => Raise (mkExn AttributeError "object has no attribute 'items'")
  end.

Section Metrics.

(** How an f-string prints a value ([format(v, '')]); the digits a float
    prints with are the interpreter's. *)
Variable format : pyval -> string.

(** The body of the [for resource_type, resource_data in ...] loop. *)
Definition metrics_resource (item : string * pyval) (prometheus_lines : list string)
    : outcome (list string) :=
  let '(resource_type, resource_data) := item in
  let base_name := "vps_" ++ resource_type in
  (* Total *)
  total <- getitem resource_data "total" ;;
  total_value <- getitem total "value" ;;
  let prometheus_lines := (List.app prometheus_lines
    ["# HELP " ++ base_name ++ "_total Total " ++ resource_type ++ " in bytes";
     "# TYPE " ++ base_name ++ "_total gauge";
     base_name ++ "_total " ++ format total_value]) in
  (* Used *)
  used <- getitem resource_data "used" ;;
  used_value <- getitem used "value" ;;
  let prometheus_lines := (List.app prometheus_lines
    ["# HELP " ++ base_name ++ "_used Used " ++ resource_type ++ " in bytes";
     "# TYPE " ++ base_name ++ "_used gauge";
     base_name ++ "_used " ++ format used_value]) in
  (* Percentage *)
  percentage_used <- getitem resource_data "percentage_used" ;;
  Ok (List.app prometheus_lines
    ["# HELP " ++ base_name ++ "_percentage_used Percentage of " ++ resource_type ++ " used";
     "# TYPE " ++ base_name ++ "_percentage_used gauge";
     base_name ++ "_percentage_used " ++ format percentage_used]).

(** The body of the [try] of [metrics], given the data. *)
Definition metrics_lines (data : pyval) : outcome (list string) :=
  resources <- getitem data "resources" ;;
  its <- items resources ;;
  for_in its [] metrics_resource.

(** [metrics()] *)
Definition metrics (w : env) (g : globals) : response * globals * list request :=
  let '(r, g', trace) := get_vps_data w g in
  match (data <- r ;; metrics_lines data) with
  | Ok prometheus_lines => ((Text (join_lines prometheus_lines), 200%Z), g', trace)
  | Raise e => ((Text ("# ERROR: " ++ exn_str e), 500%Z), g', trace)
  end.

End Metrics.

(* ===================================================================== *)
(** ** A sample run *)

Definition body1 : string :=
  "<hdd>1073741824,536870912,536870912,50</hdd><hostname>h1</hostname><ipaddress>1.2.3.4</ipaddress><bw>2199023255552,1073741824,2197949513728,0</bw><mem>0,0,0,0</mem>".

Definition config1 : ServerConfig := mkServerConfig "k" "h" false 5.

Definition env1 (t : float) (body : string) : env :=
  mkEnv t (Ok config1) (fun _ _ => Ok body) t.

(** The globals after a first call that fetched the sample body at time
    1000. *)
Definition cached_globals : globals :=
  snd (fst (get_vps_data (env1 1000%float body1) initial_globals)).

(** A call 100 seconds later whose request times out. *)
Definition timeout_env : env :=
  mkEnv 1100%float (Ok config1)
    (fun _ _ => Raise (mkExn RequestException "timed out")) 1100%float.

(* ===================================================================== *)
(** * Notions the properties are stated with *)

(* ===================================================================== *)
(** ** The cache gate *)

(** The exception [get_vps_data] raises for an exception of its [try]. *)
Definition fetch_error (e : exn) : exn :=
  mkExn RuntimeError ("Failed to fetch VPS data: " ++ exn_str e).

(* ===================================================================== *)
(** ** The resource processor *)

(** The percentage [process_resource_data] computes from the two floats. *)
Definition usage_of (used total : float) : outcome float :=
  if negb (PrimFloat.eqb used 0) || negb (PrimFloat.eqb total 0)
  then q <- py_div used total ;; Ok (PrimFloat.mul q 100)
  else Ok 0%float.

(** The dictionary [process_resource_data] builds from the three floats
    and the percentage. *)
Definition resource_record (total used free per : float) : pyval :=
  PDict
    [("per", PFloat per);
     ("total_display", PFloat (fst (convert_bytes_to_readable total)));
     ("total_mag", PStr (snd (convert_bytes_to_readable total)));
     ("total", PFloat total);
     ("used_display", PFloat (fst (convert_bytes_to_readable used)));
     ("used_mag", PStr (snd (convert_bytes_to_readable used)));
     ("used", PFloat used);
     ("free_display", PFloat (fst (convert_bytes_to_readable free)));
     ("free_mag", PStr (snd (convert_bytes_to_readable free)));
     ("free", PFloat free)].

(** [float(data[k])] *)
Definition field (data : pyval) (k : string) : outcome float :=
  v <- getitem data k ;; py_float v.

(* ===================================================================== *)
(** ** What the parsed response holds *)

(** Under a resource tag the response holds a record of
    [process_resource_data], under an info tag a string. *)
Definition response_wf (d : dict) : Prop :=
  forall k v, dict_get d k = Some v ->
    (str_in k RESOURCE_TYPES = true ->
       exists total used free per, v = resource_record total used free per)
    /\ (str_in k INFO_TYPES = true -> exists s, v = PStr s).

(* ===================================================================== *)
(** ** The output [get_vps_data] assembles *)

(** [display * multiplier], the multiplier chosen by the unit of the total. *)
Definition to_gb (total_mag : string) (display : float) : float :=
  PrimFloat.mul display
    (float_of_Z (if String.eqb total_mag "TB" then 1024 else 1)).

(** The entry of the output for one resource. *)
Definition output_record (total used free per : float) : pyval :=
  let mag := snd (convert_bytes_to_readable total) in
  PDict
    [("total", PFloat (to_gb mag (fst (convert_bytes_to_readable total))));
     ("used", PFloat (to_gb mag (fst (convert_bytes_to_readable used))));
     ("free", PFloat (to_gb mag (fst (convert_bytes_to_readable free))));
     ("usage", PFloat per)].

(** The name in the output of each resource type. *)
Definition output_name (resource_type : string) : string :=
  if String.eqb resource_type "hdd" then "storage"
  else if String.eqb resource_type "bw" then "bandwidth"
  else "memory".

(** The output for a host, an address, a time stamp and the three entries. *)
Definition snapshot (hostname ip : string) (now : Z) (storage bandwidth memory : pyval)
    : pyval :=
  PDict
    [("hostname", PStr hostname); ("ip", PStr ip); ("last_update", PInt now);
     ("storage", storage); ("bandwidth", bandwidth); ("memory", memory)].

(** The four floats of a resource: total, used, free and percentage. *)
Record sample := mkSample {
  s_total : float; s_used : float; s_free : float; s_per : float
}.

Definition record_of (s : sample) : pyval :=
  resource_record (s_total s) (s_used s) (s_free s) (s_per s).

Definition entry_of (s : sample) : pyval :=
  output_record (s_total s) (s_used s) (s_free s) (s_per s).

(* ===================================================================== *)
(** ** The shape of a snapshot *)

(** An entry of the output: the four floats under [total], [used], [free]
    and [usage]. *)
Definition is_entry (v : pyval) : Prop :=
  exists total used free usage,
    v = PDict [("total", PFloat total); ("used", PFloat used);
               ("free", PFloat free); ("usage", PFloat usage)].

(** The output as [get_vps_data] builds it: six keys side by side. *)
Definition flat_snapshot (v : pyval) : Prop :=
  exists hostname ip now storage bandwidth memory,
    v = PDict [("hostname", PStr hostname); ("ip", PStr ip);
               ("last_update", PInt now); ("storage", storage);
               ("bandwidth", bandwidth); ("memory", memory)]
    /\ is_entry storage /\ is_entry bandwidth /\ is_entry memory.

(** The snapshot in the words of the specification: the three records
    under a [resources] mapping, each with the fields [total_gb],
    [used_gb], [free_gb] and [usage_percent]. *)
Definition is_resource_record_spec (v : pyval) : Prop :=
  exists total used free usage,
    v = PDict [("total_gb", PFloat total); ("used_gb", PFloat used);
               ("free_gb", PFloat free); ("usage_percent", PFloat usage)].

Definition nested_snapshot_spec (v : pyval) : Prop :=
  exists hostname ip now storage bandwidth memory,
    v = PDict [("hostname", PStr hostname); ("ip", PStr ip);
               ("last_update", PInt now);
               ("resources", PDict [("storage", storage);
                                    ("bandwidth", bandwidth);
                                    ("memory", memory)])]
    /\ is_resource_record_spec storage /\ is_resource_record_spec bandwidth
    /\ is_resource_record_spec memory.

(** The globals the program can be in: the initial ones, and the ones a
    call of [get_vps_data] leaves. *)
Inductive reachable : globals -> Prop :=
| reachable_initial : reachable initial_globals
| reachable_call (w : env) (g : globals) :
    reachable g -> reachable (snd (fst (get_vps_data w g))).

(** The cache holds nothing or a snapshot of a successful fetch. *)
Definition cache_holds_snapshot (g : globals) : Prop :=
  forall c, cached_data g = Some c ->
    exists h ip now a b m, c = snapshot h ip now (entry_of a) (entry_of b) (entry_of m).

(* ===================================================================== *)
(** ** How errors reach the caller *)

(** The exception [load_config] raises for an exception of its [try]. *)
Definition config_error (e : exn) : exn :=
  mkExn RuntimeError ("Failed to load configuration: " ++ exn_str e).

(** The exception [api_response] raises for an exception of its [try]: a
    [RequestException] is wrapped, any other goes through. *)
Definition api_error (e : exn) : exn :=
  if is_RequestException (exn_type e)
  then mkExn RuntimeError ("API request failed: " ++ exn_str e)
  else e.

(* ===================================================================== *)
(** ** What a match of a pattern looks like *)

(** The text a pattern consumes, with the groups it closes on the way. *)
Fixpoint den (r : regex) (u : string) (cs cs' : captures) : Prop :=
  match r with
  | Chr c => u = String c EmptyString /\ cs' = cs
  | Lazy cls => all_chars cls u = true /\ cs' = cs
  | Cat r1 r2 =>
      exists u1 u2 cs1, u = u1 ++ u2 /\ den r1 u1 cs cs1 /\ den r2 u2 cs1 cs'
  | Grp n r1 => exists cs1, den r1 u cs cs1 /\ cs' = (n, u) :: cs1
  end.

(** A block of the four groups [INNER_PATTERN] is after: a tag, the four
    runs of digits between commas, and a closing tag. *)
Definition inner_shape (block a total used free per b rest : string) : Prop :=
  block = "<" ++ a ++ ">" ++ total ++ "," ++ used ++ "," ++ free ++ "," ++ per
          ++ "</" ++ b ++ ">" ++ rest
  /\ all_chars is_dot a = true /\ all_chars is_dot b = true
  /\ all_chars is_digit total = true /\ all_chars is_digit used = true
  /\ all_chars is_digit free = true /\ all_chars is_digit per = true.

(* ===================================================================== *)
(** ** Malformed resource blocks *)

(** The tag of a block found by [OUTER_PATTERN]: [m.groups()[1]]. *)
Definition type_of (m : match_obj) : string := cap_get (m_caps m) 2.




(* ===================================================================== *)
(** ** Signs of binary64 results *)

(** A float that is not a NaN and has the sign bit [s]. *)
Definition signed (s : bool) (x : spec_float) : Prop :=
  match x with
  | S754_zero s' | S754_infinity s' | S754_finite s' _ _ => s' = s
  | S754_nan => False
  end.

(** A float that is a number. *)
Definition not_nan (x : spec_float) : Prop := x <> S754_nan.

(* ===================================================================== *)
(** ** Groups that are not runs of digits *)

(** No character of [s] is [c]. *)
Definition free_of (c : ascii) (s : string) : bool :=
  all_chars (fun x => negb (Ascii.eqb x c)) s.

(** The text of a block whose four groups hold no comma and no angle
    bracket. *)
Definition block_of (name g1 g2 g3 g4 name' : string) : string :=
  "<" ++ name ++ ">" ++ g1 ++ "," ++ g2 ++ "," ++ g3 ++ "," ++ g4
  ++ "</" ++ name' ++ ">".

Definition plain_group (g : string) : bool :=
  free_of "," g && free_of "<" g && free_of ">" g.



(* ===================================================================== *)
(** ** The values that reach the resource processor *)

(** The integer the text of a group denotes. *)
Definition group_value (s : string) : Z := digits_value 0 s.




(* ===================================================================== *)
(** ** Concurrent callers

    Each caller runs [get_vps_data] in a thread of its own: it reads the
    clock, takes [cache_lock], runs the body and releases the lock as it
    returns or raises.  The globals are read and written with the lock
    held only, so the body of a caller is one step of the system.  Caller
    [i] has the environment [nth i callers]: the clock reading it makes
    and what the configuration and the upstream answer while it holds the
    lock.  The scheduler picks the next step. *)

Inductive pc :=
| Idle                        (* before [time.time()] *)
| Waiting                     (* at [with cache_lock] *)
| Holding                     (* in the body, the lock held *)
| Done (r : outcome pyval).   (* returned or raised *)

Record system := mkSystem {
  sys_pcs : list pc;
  sys_globals : globals;
  sys_lock : bool;
  sys_trace : list request
}.

Definition init_system (n : nat) (g : globals) : system :=
  mkSystem (repeat Idle n) g false [].

Fixpoint set_nth {A} (l : list A) (i : nat) (x : A) : list A :=
  match l, i with
  | [], _ => []
  | _ :: l', O => x :: l'
  | y :: l', S i' => y :: set_nth l' i' x
  end.

Inductive step (callers : list env) : system -> system -> Prop :=
| step_clock (s : system) (i : nat) :
    nth_error (sys_pcs s) i = Some Idle ->
    step callers s
      (mkSystem (set_nth (sys_pcs s) i Waiting) (sys_globals s) (sys_lock s)
         (sys_trace s))
| step_acquire (s : system) (i : nat) :
    nth_error (sys_pcs s) i = Some Waiting ->
    sys_lock s = false ->
    step callers s
      (mkSystem (set_nth (sys_pcs s) i Holding) (sys_globals s) true (sys_trace s))
| step_body (s : system) (i : nat) (w : env) (r : outcome pyval) (g' : globals)
    (tr : list request) :
    nth_error (sys_pcs s) i = Some Holding ->
    nth_error callers i = Some w ->
    get_vps_data w (sys_globals s) = (r, g', tr) ->
    step callers s
      (mkSystem (set_nth (sys_pcs s) i (Done r)) g' false (sys_trace s ++ tr)).

Inductive steps (callers : list env) : system -> system -> Prop :=
| steps_refl (s : system) : steps callers s s
| steps_step (s1 s2 s3 : system) :
    steps callers s1 s2 -> step callers s2 s3 -> steps callers s1 s3.

(** The callers that raised. *)
Definition failed (p : pc) : bool :=
  match p with Done (Raise _) => true | _ => false end.

Fixpoint failures (pcs : list pc) : nat :=
  match pcs with
  | [] => 0
  | p :: pcs' => (if failed p then 1 else 0) + failures pcs'
  end.

(** Mutual exclusion: at most one caller is inside the body, and none when
    the lock is free. *)
Definition exclusive (s : system) : Prop :=
  (forall i j, nth_error (sys_pcs s) i = Some Holding ->
               nth_error (sys_pcs s) j = Some Holding -> i = j)
  /\ (sys_lock s = false -> forall i, nth_error (sys_pcs s) i <> Some Holding).

(** The state of the cache while callers that found it empty or stale run:
    as it was, every caller done so far having failed after at most one
    request; or refreshed by the successful fetch of one caller, with the
    time that caller read, every caller that returned holding that
    snapshot. *)
Definition cache_inv (ws : list env) (g0 : globals) (s : system) : Prop :=
  (sys_globals s = g0
   /\ (forall i v, nth_error (sys_pcs s) i <> Some (Done (Ok v)))
   /\ List.length (sys_trace s) <= failures (sys_pcs s))%nat
  \/ (exists w0 out tr,
        In w0 ws /\ fetch w0 = (Ok out, tr)
        /\ sys_globals s = mkGlobals (Some out) (env_time w0)
        /\ (forall i v, nth_error (sys_pcs s) i = Some (Done (Ok v)) -> v = out)
        /\ 1 <= List.length (sys_trace s) <= failures (sys_pcs s) + 1)%nat.

(** A float that is neither an infinity nor a NaN ([math.isfinite]). *)
Definition finite_float (x : float) : bool :=
  match Prim2SF x with
  | S754_zero _ | S754_finite _ _ _ => true
  | S754_infinity _ | S754_nan => false
  end.

(** A resource whose total and used amount have 400 digits each. *)
Definition overflowing_data : pyval :=
  PDict [("total", PStr (str_repeat "9" 400)); ("used", PStr (str_repeat "9" 400));
         ("free", PStr "0"); ("per", PStr "100")].





(** Two callers whose requests fail, one after the other. *)
Definition failing_callers : list env :=
  [mkEnv 1000%float (Ok config1)
     (fun _ _ => Raise (mkExn RequestException "timed out")) 1000%float;
   mkEnv 1001%float (Ok config1)
     (fun _ _ => Raise (mkExn RequestException "connection refused")) 1001%float].

(** Two callers that get the sample body, a second apart. *)
Definition sample_callers : list env :=
  [env1 1000%float body1; env1 1001%float body1].

(* ===================================================================== *)
(** * [load_config], from the variables and the files

    The body of the [try] of [load_config] reads two environment variables
    and the files [tokens.txt] and [settings.txt].  The text of a file is a
    string of characters below 256; [s.splitlines()], [s.strip()] and
    [int(s)] are modelled on such text.  CPython refuses to read an integer
    of more than 4300 digits unless told otherwise; [int_of_str] has no
    such limit, and the properties of [load_config] are stated for lines
    within it. *)

(** What the process sees: [os.getenv(name)] and [Path(name).read_text()],
    which returns the text of the file or raises. *)
Record os_env := mkOs {
  os_getenv : string -> option string;
  os_read_text : string -> outcome string
}.

(** The characters at which [splitlines] ends a line: LF, VT, FF, CR, FS, GS,
    RS and NEL. *)
Definition is_linebreak (c : ascii) : bool :=
  let n := nat_of_ascii c in
  ((10 <=? n)%nat && (n <=? 13)%nat) || ((28 <=? n)%nat && (n <=? 30)%nat)
  || (n =? 133)%nat.

(** The characters [strip] removes, those for which [isspace] holds: TAB to
    CR, FS to US, the space, NEL and the no-break space. *)
Definition is_space (c : ascii) : bool :=
  let n := nat_of_ascii c in
  ((9 <=? n)%nat && (n <=? 13)%nat) || ((28 <=? n)%nat && (n <=? 32)%nat)
  || (n =? 133)%nat || (n =? 160)%nat.

(** [s.splitlines()], [cur] being the line in progress: a CR LF pair ends
    one line, and no empty line follows a final line break. *)
Fixpoint splitlines_from (cur s : string) : list string :=
  match s with
  | EmptyString => match cur with EmptyString => [] | _ => [cur] end
  | String c s' =>
      if is_linebreak c then
        cur :: match s' with
               | String c' s'' =>
                   if (nat_of_ascii c =? 13)%nat && (nat_of_ascii c' =? 10)%nat
                   then splitlines_from EmptyString s''
                   else splitlines_from EmptyString s'
               | EmptyString => []
               end
      else splitlines_from (cur ++ String c EmptyString) s'
  end.

Definition splitlines (s : string) : list string := splitlines_from EmptyString s.

Fixpoint lstrip (s : string) : string :=
  match s with
  | EmptyString => EmptyString
  | String c s' => if is_space c then lstrip s' else s
  end.

Fixpoint rstrip (s : string) : string :=
  match s with
  | EmptyString => EmptyString
  | String c s' =>
      match rstrip s' with
      | EmptyString => if is_space c then EmptyString else String c EmptyString
      | r => String c r
      end
  end.

(** [s.strip()] *)
Definition strip (s : string) : string := rstrip (lstrip s).

(** The digits of a decimal literal, a single underscore allowed between
    two digits. *)
Fixpoint int_digits (acc : Z) (s : string) (after_digit : bool) : option Z :=
  match s with
  | EmptyString => if after_digit then Some acc else None
  | String c s' =>
      if is_digit c
      then int_digits (10 * acc + (Z.of_nat (nat_of_ascii c) - 48)) s' true
      else if (nat_of_ascii c =? 95)%nat && after_digit
           then int_digits acc s' false
           else None
  end.

(** The length from which [int] may refuse a text for its number of digits. *)
Definition int_max_str_digits : nat := 4300.

Definition hex_digit (n : nat) : ascii :=
  ascii_of_nat (if (n <? 10)%nat then 48 + n else 87 + n).

(** [repr] of one character of a string quoted with [quote]: the quote and
    the backslash are escaped, TAB, LF and CR have their letter, the other
    characters that do not print are written in hexadecimal. *)
Definition repr_char (quote c : ascii) : string :=
  let n := nat_of_ascii c in
  if Ascii.eqb c quote || (n =? 92)%nat then String "\" (String c EmptyString)
  else if (n =? 9)%nat then "\t"
  else if (n =? 10)%nat then "\n"
  else if (n =? 13)%nat then "\r"
  else if (n <? 32)%nat || (n =? 127)%nat
          || ((128 <=? n)%nat && (n <=? 160)%nat) || (n =? 173)%nat
       then "\x" ++ String (hex_digit (n / 16))
                      (String (hex_digit (n mod 16)) EmptyString)
       else String c EmptyString.

Fixpoint repr_body (quote : ascii) (s : string) : string :=
  match s with
  | EmptyString => EmptyString
  | String c s' => repr_char quote c ++ repr_body quote s'
  end.

(** [repr(s)]: between apostrophes, or between double quotes when the
    string holds an apostrophe and no double quote. *)
Definition py_repr (s : string) : string :=
  let quote :=
    if negb (free_of "'" s) && free_of "034" s then "034"%char else "'"%char in
  String quote (repr_body quote s ++ String quote EmptyString).

(** [int(s)] on a string: blanks around, a sign, decimal digits.  The
    message of the error shows the first 200 characters of [repr(s)]. *)
Definition int_of_str (s : string) : outcome Z :=
  let invalid :=
    Raise (mkExn ValueError
             ("invalid literal for int() with base 10: "
              ++ substring 0 200 (py_repr s))) in
  match strip s with
  | String c r =>
      if (nat_of_ascii c =? 43)%nat then
        match int_digits 0 r false with Some z => Ok z | None => invalid end
      else if (nat_of_ascii c =? 45)%nat then
        match int_digits 0 r false with Some z => Ok (- z)%Z | None => invalid end
      else
        match int_digits 0 (String c r) false with
        | Some z => Ok z
        | None => invalid
        end
  | EmptyString => invalid
  end.

(** [lines[i]] *)
Definition list_get (lines : list string) (i : nat) : outcome string :=
  match nth_error lines i with
  | Some l => Ok l
  | None => Raise (mkExn IndexError "list index out of range")
  end.

(** [os.getenv(name) or alt]: [alt] is evaluated when the variable is unset
    or empty. *)
Definition getenv_or (os : os_env) (name : string) (alt : outcome string)
    : outcome string :=
  match os_getenv os name with
  | Some v => if String.eqb v "" then alt else Ok v
  | None => alt
  end.

(** [Path("tokens.txt").read_text().splitlines()[i].strip()] *)
Definition token_line (os : os_env) (i : nat) : outcome string :=
  text <- os_read_text os "tokens.txt" ;;
  l <- list_get (splitlines text) i ;;
  Ok (strip l).

(** Where a credential comes from: the value [v] of the variable [name]
    when it is set and not empty, and otherwise line [i] of [tokens.txt],
    stripped. *)
Definition credential (os : os_env) (name : string) (i : nat) (v : string) : Prop :=
  (os_getenv os name = Some v /\ v <> "")
  \/ ((os_getenv os name = None \/ os_getenv os name = Some "")
      /\ exists tokens l,
           os_read_text os "tokens.txt" = Ok tokens
           /\ nth_error (splitlines tokens) i = Some l /\ v = strip l).

(** The body of the [try] of [load_config]. *)
Definition read_config (os : os_env) : outcome ServerConfig :=
  key <- getenv_or os "RACKNERD_KEY" (token_line os 0) ;;
  hash_value <- getenv_or os "RACKNERD_HASH" (token_line os 1) ;;
  text <- os_read_text os "settings.txt" ;;
  let settings := splitlines text in
  l0 <- list_get settings 0 ;;
  let should_loop := String.eqb (strip l0) "True" in
  l1 <- list_get settings 1 ;;
  sleep_minutes <- int_of_str (strip l1) ;;
  Ok (mkServerConfig key hash_value should_loop sleep_minutes).

(** An environment of [get_vps_data] whose configuration is read from the
    variables and files of [os]. *)
Definition env_of (os : os_env) (t : float) (post : string -> dict -> outcome string)
    (t' : float) : env :=
  mkEnv t (read_config os) post t'.

(** [load_config()] in the process [os]. *)
Definition load_config_in (os : os_env) : outcome ServerConfig :=
  load_config (env_of os 0%float (fun _ _ => Ok EmptyString) 0%float).

(** A process with the two variables and the two files as given. *)
Definition sample_os (key hash : option string) (tokens settings : outcome string)
    : os_env :=
  mkOs (fun name => if String.eqb name "RACKNERD_KEY" then key
                    else if String.eqb name "RACKNERD_HASH" then hash
                    else None)
       (fun file => if String.eqb file "tokens.txt" then tokens
                    else if String.eqb file "settings.txt" then settings
                    else Raise (mkExn ValueError "no such file")).

(** What [read_text] raises for a file that is not UTF-8 text
    ([UnicodeDecodeError] derives from [ValueError]). *)
Definition undecodable : exn :=
  mkExn ValueError
    "'utf-8' codec can't decode byte 0xff in position 0: invalid start byte".

(* ===================================================================== *)
(** * Further notions *)

(* ===================================================================== *)
(** ** Blocks of the response *)

(** The text of a block with one value: an opening tag, the value and a
    closing tag. *)
Definition info_block (name v name' : string) : string :=
  "<" ++ name ++ ">" ++ v ++ "</" ++ name' ++ ">".

(** The float [float] gives for the text of a group. *)
Definition float_of_group (g : string) : float := float_of_Z (group_value g).

(** A resource block closed by the tag of another resource. *)
Definition mismatched_block : string := "<hdd>2048,1024,1024,50</bw>".

Definition mismatched_match : match_obj :=
  mkMatch OUTER_PATTERN mismatched_block [(1%nat, mismatched_block); (2%nat, "hdd")].

(** A body with two blocks under one tag. *)
Definition body_two_hosts : string :=
  "<hostname>old</hostname><ipaddress>1.2.3.4</ipaddress><hostname>new</hostname>".

Definition old_host_match : match_obj :=
  mkMatch OUTER_PATTERN "<hostname>old</hostname>"
    [(1%nat, "<hostname>old</hostname>"); (2%nat, "hostname")].

Definition address_match : match_obj :=
  mkMatch OUTER_PATTERN "<ipaddress>1.2.3.4</ipaddress>"
    [(1%nat, "<ipaddress>1.2.3.4</ipaddress>"); (2%nat, "ipaddress")].

Definition new_host_match : match_obj :=
  mkMatch OUTER_PATTERN "<hostname>new</hostname>"
    [(1%nat, "<hostname>new</hostname>"); (2%nat, "hostname")].

(** A body that is a page of markup, with none of the five tags. *)
Definition body_error_page : string :=
  "<html><b>Service unavailable</b></html>".

(** A body without the address of the host. *)
Definition body_no_address : string :=
  "<hostname>h1</hostname><hdd>1073741824,536870912,536870912,50</hdd>".

(* ===================================================================== *)
(** ** The keys [get_vps_data] reads *)

(** The keys of the response, in the order [get_vps_data] reads them. *)
Definition required_keys : list string :=
  ["hostname"; "ipaddress"; "hdd"; "bw"; "mem"].

(** The first of them the response lacks. *)
Definition first_missing (response : dict) : option string :=
  find (fun k => match dict_get response k with None => true | Some _ => false end)
       required_keys.

(* ===================================================================== *)
(** ** The history of the cache *)

(** The globals are the initial ones, or hold the output of a successful
    fetch together with the time the fetching call read on entry. *)
Definition cache_of_fetch (g : globals) : Prop :=
  g = initial_globals
  \/ exists w out tr, fetch w = (Ok out, tr) /\ g = mkGlobals (Some out) (env_time w).

(* ===================================================================== *)
(** ** The data [metrics] reads *)

(** A resource as [metrics] reads it: [total] and [used] hold a [value],
    beside a [percentage_used]. *)
Definition nested_resource (total used percentage : pyval) : pyval :=
  PDict [("total", PDict [("value", total)]); ("used", PDict [("value", used)]);
         ("percentage_used", percentage)].

(** A name with the three values of its gauges. *)
Definition gauge_row := (string * (pyval * pyval * pyval))%type.

Definition nested_item (row : gauge_row) : string * pyval :=
  let '(name, (total, used, percentage)) := row in
  (name, nested_resource total used percentage).

(** The nine lines of a resource. *)
Definition gauge_lines (format : pyval -> string) (row : gauge_row) : list string :=
  let '(name, (total, used, percentage)) := row in
  ["# HELP vps_" ++ name ++ "_total Total " ++ name ++ " in bytes";
   "# TYPE vps_" ++ name ++ "_total gauge";
   "vps_" ++ name ++ "_total " ++ format total;
   "# HELP vps_" ++ name ++ "_used Used " ++ name ++ " in bytes";
   "# TYPE vps_" ++ name ++ "_used gauge";
   "vps_" ++ name ++ "_used " ++ format used;
   "# HELP vps_" ++ name ++ "_percentage_used Percentage of " ++ name ++ " used";
   "# TYPE vps_" ++ name ++ "_percentage_used gauge";
   "vps_" ++ name ++ "_percentage_used " ++ format percentage].

(* ===================================================================== *)
(** * Properties *)

Example float_of_digits : float_of_str "1073741824" = Ok 1073741824%float.
Proof. vm_compute. reflexivity. Qed.

(* ===================================================================== *)
(** ** The cache gate *)

Lemma get_vps_data_fresh (w : env) (g : globals) (c : pyval) :
  cached_data g = Some c ->
  cache_fresh g (env_time w) = true ->
  get_vps_data w g = (Ok c, g, []).
Proof.
  unfold cache_fresh, get_vps_data. intros Hc Hf.
  rewrite Hc in *. rewrite Hf. reflexivity.
Qed.

Lemma get_vps_data_stale (w : env) (g : globals) :
  cache_fresh g (env_time w) = false ->
  get_vps_data w g = refresh w g (env_time w).
Proof.
  unfold cache_fresh, get_vps_data. intros Hf.
  destruct (cached_data g); [rewrite Hf|]; reflexivity.
Qed.

Lemma refresh_raise (w : env) (g : globals) (t : float) (e : exn) (tr : list request) :
  fetch w = (Raise e, tr) ->
  refresh w g t = (Raise (fetch_error e), g, tr).
Proof. unfold refresh. intros ->. reflexivity. Qed.

Lemma refresh_ok (w : env) (g : globals) (t : float) (out : pyval) (tr : list request) :
  fetch w = (Ok out, tr) ->
  refresh w g t = (Ok out, mkGlobals (Some out) t, tr).
Proof. unfold refresh. intros ->. reflexivity. Qed.

Lemma failed_refresh_keeps_cache_aux (w : env) (g : globals) (e : exn)
    (tr : list request) :
  cache_fresh g (env_time w) = false ->
  fetch w = (Raise e, tr) ->
  get_vps_data w g = (Raise (fetch_error e), g, tr).
Proof.
  intros Hstale Hfail.
  rewrite get_vps_data_stale by exact Hstale.
  now apply refresh_raise.
Qed.

(** C4. When the cache is not fresh and the refresh fails, whatever raised
    in it (the configuration, the upstream request, the parsing or the
    assembly of the output), [get_vps_data] raises an error that carries
    the message of the failure, and the globals [cached_data] and
    [last_update] are the ones it was called with. *)
Theorem failed_refresh_keeps_cache (w : env) (g : globals) (e : exn) (tr : list request) :
  cache_fresh g (env_time w) = false ->
  fetch w = (Raise e, tr) ->
  get_vps_data w g = (Raise (fetch_error e), g, tr).
Proof.
  intros Hstale Hfail.
  rewrite get_vps_data_stale by exact Hstale.
  unfold refresh. rewrite Hfail. reflexivity.
Qed.

Lemma cached_globals_hold_a_snapshot :
  exists out, cached_globals = mkGlobals (Some out) 1000%float
              /\ fst (fst (get_vps_data (env1 1000%float body1) initial_globals))
                 = Ok out.
Proof.
  unfold cached_globals.
  destruct (get_vps_data (env1 1000%float body1) initial_globals)
    as [[[out|e] g] tr] eqn:Hcall.
  - exists out. vm_compute in Hcall. inversion Hcall. split; reflexivity.
  - vm_compute in Hcall. discriminate Hcall.
Qed.

Lemma failed_refresh_keeps_cache_witness :
  (exists out, cached_globals = mkGlobals (Some out) 1000%float)
  /\ get_vps_data timeout_env cached_globals
     = (Raise (mkExn RuntimeError
          "Failed to fetch VPS data: API request failed: timed out"),
        cached_globals, [(API_URL, post_flags_of config1)])
  /\ get_vps_data (env1 1100%float "<hdd>1,2,3</hdd>") cached_globals
     = (Raise (mkExn RuntimeError
          "Failed to fetch VPS data: 'NoneType' object has no attribute 'groupdict'"),
        cached_globals, [(API_URL, post_flags_of config1)])
  /\ get_vps_data
       (mkEnv 1100%float (Raise (mkExn IndexError "list index out of range"))
          (fun _ _ => Ok body1) 1100%float)
       cached_globals
     = (Raise (mkExn RuntimeError
          "Failed to fetch VPS data: Failed to load configuration: list index out of range"),
        cached_globals, []).
Proof.
  split; [|split; [|split]].
  - destruct cached_globals_hold_a_snapshot as (out & H & _). now exists out.
  - apply (failed_refresh_keeps_cache timeout_env cached_globals
             (mkExn RuntimeError "API request failed: timed out")
             [(API_URL, post_flags_of config1)]); vm_compute; reflexivity.
  - apply (failed_refresh_keeps_cache (env1 1100%float "<hdd>1,2,3</hdd>")
             cached_globals
             (mkExn AttributeError "'NoneType' object has no attribute 'groupdict'")
             [(API_URL, post_flags_of config1)]); vm_compute; reflexivity.
  - apply (failed_refresh_keeps_cache
             (mkEnv 1100%float (Raise (mkExn IndexError "list index out of range"))
                (fun _ _ => Ok body1) 1100%float)
             cached_globals
             (mkExn RuntimeError "Failed to load configuration: list index out of range")
             []); vm_compute; reflexivity.
Defined.

(* ===================================================================== *)
(** ** Dictionaries and the outcome monad *)

Lemma bind_ok {A B} (r : outcome A) (k : A -> outcome B) (b : B) :
  bind r k = Ok b -> exists a, r = Ok a /\ k a = Ok b.
Proof. destruct r as [a|e]; simpl; [eauto | discriminate]. Qed.

Lemma bind_raise {A B} (r : outcome A) (k : A -> outcome B) (e : exn) :
  r = Raise e -> bind r k = Raise e.
Proof. intros ->. reflexivity. Qed.

Lemma dict_get_set (d : dict) (k k' : string) (v : pyval) :
  dict_get (dict_set d k v) k' = if String.eqb k' k then Some v else dict_get d k'.
Proof.
  induction d as [|[k0 v0] d IH]; simpl.
  - destruct (String.eqb_spec k' k); reflexivity.
  - destruct (String.eqb_spec k k0) as [->|Hk]; simpl.
    + destruct (String.eqb_spec k' k0); reflexivity.
    + destruct (String.eqb_spec k' k0) as [->|Hk'].
      * destruct (String.eqb_spec k0 k); [congruence | reflexivity].
      * exact IH.
Qed.

Lemma for_in_app {A S} (l1 l2 : list A) (s : S) (body : A -> S -> outcome S) :
  for_in (l1 ++ l2) s body = (s' <- for_in l1 s body ;; for_in l2 s' body).
Proof.
  revert s. induction l1 as [|x l1 IH]; intros s; simpl; [reflexivity|].
  destruct (body x s); simpl; [apply IH | reflexivity].
Qed.

(** An invariant of the state that every successful round of a loop keeps
    holds when the loop ends without an exception. *)
Lemma for_in_invariant {A S} (P : S -> Prop) (l : list A) (body : A -> S -> outcome S) :
  (forall x s s', In x l -> P s -> body x s = Ok s' -> P s') ->
  forall s s', P s -> for_in l s body = Ok s' -> P s'.
Proof.
  induction l as [|x l IH]; intros Hstep s s' Hs Hrun; simpl in Hrun.
  - now inversion Hrun; subst.
  - apply bind_ok in Hrun as (s1 & H1 & H2).
    apply IH with (s := s1); auto.
    + intros y t t' Hy. apply Hstep. now right.
    + apply (Hstep x s); auto. now left.
Qed.


(* ===================================================================== *)
(** ** The resource processor *)

Lemma process_resource_data_eq (data : pyval) :
  process_resource_data data =
  (used <- field data "used" ;;
   total <- field data "total" ;;
   per <- usage_of used total ;;
   free <- field data "free" ;;
   Ok (resource_record total used free per)).
Proof.
  unfold process_resource_data, field, usage_of, resource_record.
  cbn [for_in].
  destruct (getitem data "used") as [us|e]; [cbn [bind]|reflexivity].
  destruct (py_float us) as [used|e]; [cbn [bind]|reflexivity].
  destruct (getitem data "total") as [ts|e]; [cbn [bind]|reflexivity].
  destruct (py_float ts) as [total|e]; [cbn [bind]|reflexivity].
  destruct (negb (PrimFloat.eqb used 0) || negb (PrimFloat.eqb total 0));
    [destruct (py_div used total) as [q|e]; [|reflexivity]|];
    cbn [bind];
    destruct (convert_bytes_to_readable total) as [td tm];
    destruct (convert_bytes_to_readable used) as [ud um];
    (destruct (getitem data "free") as [fs|e]; [cbn [bind]|reflexivity]);
    (destruct (py_float fs) as [free|e]; [cbn [bind]|reflexivity]);
    destruct (convert_bytes_to_readable free) as [fd fm];
    reflexivity.
Qed.

(* ===================================================================== *)
(** ** What the parsed response holds *)

Lemma str_in_RESOURCE_TYPES (k : string) :
  str_in k RESOURCE_TYPES = true -> k = "hdd" \/ k = "bw" \/ k = "mem".
Proof.
  unfold str_in, RESOURCE_TYPES. simpl.
  destruct (String.eqb_spec k "hdd"); [auto|].
  destruct (String.eqb_spec k "bw"); [auto|].
  destruct (String.eqb_spec k "mem"); [auto|discriminate].
Qed.

Lemma str_in_INFO_TYPES (k : string) :
  str_in k INFO_TYPES = true -> k = "hostname" \/ k = "ipaddress".
Proof.
  unfold str_in, INFO_TYPES. simpl.
  destruct (String.eqb_spec k "hostname"); [auto|].
  destruct (String.eqb_spec k "ipaddress"); [auto|discriminate].
Qed.

Lemma process_resource_data_record (data v : pyval) :
  process_resource_data data = Ok v ->
  exists total used free per,
    field data "total" = Ok total /\ field data "used" = Ok used
    /\ field data "free" = Ok free /\ usage_of used total = Ok per
    /\ v = resource_record total used free per.
Proof.
  rewrite process_resource_data_eq. intros H.
  apply bind_ok in H as (used & Hu & H).
  apply bind_ok in H as (total & Ht & H).
  apply bind_ok in H as (per & Hp & H).
  apply bind_ok in H as (free & Hf & H).
  inversion H; subst. exists total, used, free, per. auto.
Qed.

Lemma api_response_block_wf (m : match_obj) (d d' : dict) :
  response_wf d -> api_response_block m d = Ok d' -> response_wf d'.
Proof.
  unfold api_response_block. intros Hwf H.
  apply bind_ok in H as (type_name & _ & H).
  destruct (str_in type_name RESOURCE_TYPES) eqn:Hres.
  - apply bind_ok in H as (data & _ & H).
    apply bind_ok in H as (pd & Hpd & H). inversion H; subst; clear H.
    apply process_resource_data_record in Hpd as (t & u & f & p & _ & _ & _ & _ & ->).
    intros k v. rewrite dict_get_set.
    destruct (String.eqb_spec k type_name) as [->|_]; [|apply Hwf].
    intros Hv. inversion Hv; subst. split; [eauto|].
    intros Hinfo. apply str_in_RESOURCE_TYPES in Hres.
    destruct Hres as [->|[->| ->]]; discriminate Hinfo.
  - destruct (str_in type_name INFO_TYPES) eqn:Hinfo.
    + apply bind_ok in H as (gs & _ & H).
      apply bind_ok in H as (s & _ & H). inversion H; subst; clear H.
      intros k v. rewrite dict_get_set.
      destruct (String.eqb_spec k type_name) as [->|_]; [|apply Hwf].
      intros Hv. inversion Hv; subst. split; [|eauto].
      rewrite Hres. discriminate.
    + now inversion H; subst.
Qed.

Lemma parse_response_wf (text : string) (d : dict) :
  parse_response text = Ok d -> response_wf d.
Proof.
  unfold parse_response.
  apply (for_in_invariant response_wf).
  - intros m s s' _. apply api_response_block_wf.
  - intros k v Hk. discriminate Hk.
Qed.

(* ===================================================================== *)
(** ** The output [get_vps_data] assembles *)

Lemma add_resource_record (c : ServerConfig) (response output : dict)
    (rt : string) (total used free per : float) :
  str_in rt RESOURCE_TYPES = true ->
  dict_get response rt = Some (resource_record total used free per) ->
  add_resource (post_flags_of c) response rt output
  = Ok (dict_set output (output_name rt) (output_record total used free per)).
Proof.
  intros Hrt Hget. apply str_in_RESOURCE_TYPES in Hrt.
  unfold add_resource, output_record, to_gb.
  destruct Hrt as [->|[->| ->]]; cbn [getitem post_flags_of dict_get String.eqb
    Ascii.eqb Bool.eqb bind eq_str]; rewrite Hget; cbn [bind];
    unfold resource_record;
    destruct (convert_bytes_to_readable total) as [td tm];
    destruct (convert_bytes_to_readable used) as [ud um];
    destruct (convert_bytes_to_readable free) as [fd fm];
    cbn [getitem dict_get String.eqb Ascii.eqb Bool.eqb bind eq_str fst snd
         py_mul_int resource_names as_key output_name];
    reflexivity.
Qed.

Lemma add_resource_missing (c : ServerConfig) (response output : dict) (rt : string) :
  str_in rt RESOURCE_TYPES = true ->
  dict_get response rt = None ->
  add_resource (post_flags_of c) response rt output
  = Raise (mkExn KeyError (key_repr rt)).
Proof.
  intros Hrt Hget. apply str_in_RESOURCE_TYPES in Hrt.
  unfold add_resource.
  destruct Hrt as [->|[->| ->]]; cbn [getitem post_flags_of dict_get String.eqb
    Ascii.eqb Bool.eqb bind eq_str]; rewrite Hget; reflexivity.
Qed.

Lemma wf_resource (d : dict) (k : string) (v : pyval) :
  response_wf d -> str_in k RESOURCE_TYPES = true -> dict_get d k = Some v ->
  exists s, v = record_of s.
Proof.
  intros Hwf Hk Hget. destruct (Hwf k v Hget) as [H _].
  destruct (H Hk) as (t & u & f & p & ->). now exists (mkSample t u f p).
Qed.

Lemma add_resource_ok (c : ServerConfig) (response output output' : dict) (rt : string) :
  response_wf response ->
  str_in rt RESOURCE_TYPES = true ->
  add_resource (post_flags_of c) response rt output = Ok output' ->
  exists s, dict_get response rt = Some (record_of s)
            /\ output' = dict_set output (output_name rt) (entry_of s).
Proof.
  intros Hwf Hrt H.
  destruct (dict_get response rt) as [v|] eqn:Hget.
  - destruct (wf_resource _ _ _ Hwf Hrt Hget) as (s & ->).
    unfold record_of in Hget.
    rewrite (add_resource_record _ _ _ _ _ _ _ _ Hrt Hget) in H.
    inversion H; subst. now exists s.
  - rewrite (add_resource_missing _ _ _ _ Hrt Hget) in H. discriminate.
Qed.

(** What a successful assembly returns, and from what. *)
Lemma assemble_ok (w : env) (c : ServerConfig) (response : dict) (out : pyval) :
  response_wf response ->
  assemble w (post_flags_of c) response = Ok out ->
  exists hostname ip now hdd bw mem,
    dict_get response "hostname" = Some (PStr hostname)
    /\ dict_get response "ipaddress" = Some (PStr ip)
    /\ py_int (env_time_assembly w) = Ok now
    /\ dict_get response "hdd" = Some (record_of hdd)
    /\ dict_get response "bw" = Some (record_of bw)
    /\ dict_get response "mem" = Some (record_of mem)
    /\ out = snapshot hostname ip now (entry_of hdd) (entry_of bw) (entry_of mem).
Proof.
  intros Hwf. unfold assemble.
  destruct (negb (truthy (PDict response))); [discriminate|].
  intros H.
  apply bind_ok in H as (hv & Hh & H).
  apply bind_ok in H as (iv & Hi & H).
  apply bind_ok in H as (now & Hnow & H).
  apply bind_ok in H as (output & Hloop & H).
  inversion H; subst; clear H.
  unfold getitem in Hh, Hi.
  destruct (dict_get response "hostname") as [hv'|] eqn:Hh'; [|discriminate].
  destruct (dict_get response "ipaddress") as [iv'|] eqn:Hi'; [|discriminate].
  inversion Hh; inversion Hi; subst; clear Hh Hi.
  destruct (Hwf _ _ Hh') as [_ Hs]. destruct (Hs eq_refl) as (hostname & ->).
  destruct (Hwf _ _ Hi') as [_ Hs']. destruct (Hs' eq_refl) as (ip & ->).
  unfold RESOURCE_TYPES in Hloop. cbn [for_in] in Hloop.
  apply bind_ok in Hloop as (o1 & H1 & Hloop).
  apply bind_ok in Hloop as (o2 & H2 & Hloop).
  apply bind_ok in Hloop as (o3 & H3 & Hloop).
  inversion Hloop; subst; clear Hloop.
  apply add_resource_ok in H1 as (hdd & Ghdd & ->); [|assumption|reflexivity].
  apply add_resource_ok in H2 as (bw & Gbw & ->); [|assumption|reflexivity].
  apply add_resource_ok in H3 as (mem & Gmem & ->); [|assumption|reflexivity].
  exists hostname, ip, now, hdd, bw, mem. repeat split; auto.
Qed.

(** A successful run of the [try] of [get_vps_data]: the configuration
    loaded, one request was made, its text parsed and the output was
    assembled from the parsed response. *)
Lemma fetch_ok (w : env) (out : pyval) (tr : list request) :
  fetch w = (Ok out, tr) ->
  exists c text response,
    env_config w = Ok c
    /\ env_post w API_URL (post_flags_of c) = Ok text
    /\ parse_response text = Ok response
    /\ assemble w (post_flags_of c) response = Ok out
    /\ tr = [(API_URL, post_flags_of c)].
Proof.
  unfold fetch, load_config, try_except.
  destruct (env_config w) as [c|e]; [|simpl; intros H; inversion H].
  unfold api_response, try_except.
  destruct (env_post w API_URL (post_flags_of c)) as [text|e] eqn:Hpost; cbn [bind].
  - destruct (parse_response text) as [response|e] eqn:Hparse.
    + cbn [bind]. intros H. inversion H; subst.
      exists c, text, response. repeat split; auto.
    + destruct (is_RequestException (exn_type e)); intros H; inversion H.
  - destruct (is_RequestException (exn_type e)); intros H; inversion H.
Qed.

(** The snapshot a successful fetch returns. *)
Lemma fetch_snapshot (w : env) (out : pyval) (tr : list request) :
  fetch w = (Ok out, tr) ->
  exists hostname ip now hdd bw mem,
    out = snapshot hostname ip now (entry_of hdd) (entry_of bw) (entry_of mem).
Proof.
  intros H. apply fetch_ok in H as (c & text & response & _ & _ & Hp & Ha & _).
  apply parse_response_wf in Hp.
  apply (assemble_ok _ _ _ _ Hp) in Ha
    as (h & ip & now & hdd & bw & mem & _ & _ & _ & _ & _ & _ & ->).
  now exists h, ip, now, hdd, bw, mem.
Qed.

(* ===================================================================== *)
(** ** Facts on binary64 comparisons *)

Lemma float_of_Z_60 : float_of_Z CACHE_DURATION = 60%float.
Proof. vm_compute. reflexivity. Qed.

(** Two positive floats of one exponent bound no float from both sides
    the wrong way round. *)
Lemma SFleb_SFltb_same_exponent (m1 m2 : positive) (e0 : Z) (x : spec_float) :
  (m2 < m1)%positive ->
  SFleb (S754_finite false m1 e0) x = true ->
  SFltb x (S754_finite false m2 e0) = false.
Proof.
  intros Hm. unfold SFleb, SFltb, SFcompare.
  destruct x as [s|s| |s m e]; try destruct s; cbv beta iota; intros H;
    try discriminate H; try reflexivity.
  fold (Pos.compare m1 m) in H. fold (Pos.compare m m2).
  destruct (Z.compare_spec e0 e); destruct (Z.compare_spec e e0);
    try lia; try discriminate H; try reflexivity.
  destruct (Pos.compare_spec m1 m); destruct (Pos.compare_spec m m2);
    try discriminate H; try reflexivity; lia.
Qed.

(** No float is both at least 61 and less than 60. *)
Lemma leb_61_not_ltb_60 (d : float) :
  PrimFloat.leb 61 d = true -> PrimFloat.ltb d 60 = false.
Proof.
  rewrite leb_spec, ltb_spec.
  replace (Prim2SF 61) with (S754_finite false 8584986789675008 (-47))
    by (vm_compute; reflexivity).
  replace (Prim2SF 60) with (S754_finite false 8444249301319680 (-47))
    by (vm_compute; reflexivity).
  apply SFleb_SFltb_same_exponent. reflexivity.
Qed.

(* ===================================================================== *)
(** ** The freshness window *)

Lemma snapshot_truthy (h ip : string) (now : Z) (a b c : pyval) :
  truthy (snapshot h ip now a b c) = true.
Proof. reflexivity. Qed.

(** A call that finds a stale or empty cache and returns has stored what it
    returns, stamped with the time it read on entry, after one request. *)
Lemma refresh_success (w : env) (g g1 : globals) (out : pyval) (tr : list request) :
  cache_fresh g (env_time w) = false ->
  get_vps_data w g = (Ok out, g1, tr) ->
  fetch w = (Ok out, tr) /\ g1 = mkGlobals (Some out) (env_time w).
Proof.
  intros Hstale. rewrite get_vps_data_stale by exact Hstale.
  unfold refresh. destruct (fetch w) as [[o|e] tr'] eqn:Hf; simpl.
  - intros H. inversion H; subst. auto.
  - discriminate.
Qed.

(** A refresh makes one request when the configuration loads, and none
    when it does not. *)
Lemma fetch_trace (w : env) :
  snd (fetch w) =
  match env_config w with
  | Ok c => [(API_URL, post_flags_of c)]
  | Raise _ => []
  end.
Proof.
  unfold fetch, load_config, try_except.
  destruct (env_config w) as [c|e]; reflexivity.
Qed.

Lemma refresh_trace (w : env) (g : globals) (t : float) :
  snd (refresh w g t) = snd (fetch w).
Proof.
  unfold refresh. destruct (fetch w) as [[o|e] tr]; reflexivity.
Qed.

(** C3 (amended). Let a call find the cache stale or empty, refresh it and
    return [out].  It made one upstream request.  A second call whose entry
    time is less than 60 seconds after the entry time of the first returns
    [out] again, leaves the globals as they are and makes no request, so
    the two calls make one request together.  A call whose entry time is 61
    seconds or more after it attempts a refresh: it makes exactly one
    request when the configuration loads. *)
Theorem cache_window (w1 w2 w3 : env) (g g1 : globals) (out : pyval)
    (tr1 : list request) :
  cache_fresh g (env_time w1) = false ->
  get_vps_data w1 g = (Ok out, g1, tr1) ->
  List.length tr1 = 1%nat
  /\ (PrimFloat.ltb (PrimFloat.sub (env_time w2) (env_time w1)) 60 = true ->
      get_vps_data w2 g1 = (Ok out, g1, [])
      /\ List.length (tr1 ++ snd (get_vps_data w2 g1)) = 1%nat)
  /\ (PrimFloat.leb 61 (PrimFloat.sub (env_time w3) (env_time w1)) = true ->
      forall c, env_config w3 = Ok c ->
      snd (get_vps_data w3 g1) = [(API_URL, post_flags_of c)]).
Proof.
  intros Hstale Hcall.
  destruct (refresh_success _ _ _ _ _ Hstale Hcall) as [Hfetch ->].
  assert (Hlen : List.length tr1 = 1%nat).
  { apply fetch_ok in Hfetch as (c & text & response & _ & _ & _ & _ & ->).
    reflexivity. }
  destruct (fetch_snapshot _ _ _ Hfetch) as (h & ip & now & a & b & c & ->).
  split; [exact Hlen|]. split.
  - intros Hlt.
    assert (Hhit : get_vps_data w2
              (mkGlobals (Some (snapshot h ip now (entry_of a) (entry_of b) (entry_of c)))
                 (env_time w1))
            = (Ok (snapshot h ip now (entry_of a) (entry_of b) (entry_of c)),
               mkGlobals (Some (snapshot h ip now (entry_of a) (entry_of b) (entry_of c)))
                 (env_time w1), [])).
    { apply get_vps_data_fresh; [reflexivity|].
      unfold cache_fresh, within_window. cbn [cached_data last_update].
      rewrite snapshot_truthy, float_of_Z_60, Hlt. reflexivity. }
    rewrite Hhit. split; [reflexivity|].
    cbn [snd]. rewrite app_nil_r. exact Hlen.
  - intros Hge c0 Hc.
    rewrite get_vps_data_stale.
    + rewrite refresh_trace, fetch_trace, Hc. reflexivity.
    + unfold cache_fresh, within_window. cbn [cached_data last_update].
      rewrite float_of_Z_60, (leb_61_not_ltb_60 _ Hge). apply andb_false_r.
Qed.

Lemma cache_window_witness :
  get_vps_data (env1 1059.5%float body1)
    (snd (fst (get_vps_data (env1 1000%float body1) initial_globals)))
  = (fst (fst (get_vps_data (env1 1000%float body1) initial_globals)),
     snd (fst (get_vps_data (env1 1000%float body1) initial_globals)), []).
Proof.
  destruct (get_vps_data (env1 1000%float body1) initial_globals) as [[r g1] tr1] eqn:H.
  assert (Hr : exists out, r = Ok out) by (revert H; vm_compute; intros H; inversion H; eauto).
  destruct Hr as (out & ->).
  refine (proj1 (proj1 (proj2 (cache_window (env1 1000%float body1)
            (env1 1059.5%float body1) (env1 1061%float body1)
            initial_globals g1 out tr1 eq_refl H)) _)).
  vm_compute. reflexivity.
Defined.

(** C3, as stated, fails when the configuration cannot be loaded: a call
    61 seconds after a successful fetch attempts a refresh and makes no
    upstream request. *)
Lemma stale_call_without_config :
  let first := get_vps_data (env1 1000%float body1) initial_globals in
  let w3 := mkEnv 1061%float (Raise (mkExn IndexError "list index out of range"))
              (fun _ _ => Ok body1) 1061%float in
  is_ok (fst (fst first)) = true
  /\ PrimFloat.leb 61 (PrimFloat.sub (env_time w3) 1000) = true
  /\ snd (get_vps_data w3 (snd (fst first))) = [].
Proof. vm_compute. auto. Qed.

(* ===================================================================== *)
(** ** The shape of a snapshot *)

Lemma entry_of_is_entry (s : sample) : is_entry (entry_of s).
Proof. unfold is_entry, entry_of, output_record. eauto. Qed.

(** C2 (amended). The snapshot of a successful fetch is a mapping with the
    six keys [hostname], [ip], [last_update], [storage], [bandwidth] and
    [memory] in this order: two strings, an integer time stamp and, side
    by side with them, the three records, each holding four floats under
    [total], [used], [free] and [usage]. *)
Theorem snapshot_is_flat (w : env) (out : pyval) (tr : list request) :
  fetch w = (Ok out, tr) -> flat_snapshot out.
Proof.
  intros H. destruct (fetch_snapshot _ _ _ H) as (h & ip & now & a & b & c & ->).
  exists h, ip, now, (entry_of a), (entry_of b), (entry_of c).
  repeat split; auto using entry_of_is_entry.
Qed.

Lemma snapshot_flat (h ip : string) (now : Z) (a b c : sample) :
  flat_snapshot (snapshot h ip now (entry_of a) (entry_of b) (entry_of c)).
Proof.
  exists h, ip, now, (entry_of a), (entry_of b), (entry_of c).
  repeat split; auto using entry_of_is_entry.
Qed.

Lemma get_vps_data_cache (w : env) (g : globals) :
  cache_holds_snapshot g ->
  cache_holds_snapshot (snd (fst (get_vps_data w g)))
  /\ forall out, fst (fst (get_vps_data w g)) = Ok out ->
       exists h ip now a b m,
         out = snapshot h ip now (entry_of a) (entry_of b) (entry_of m).
Proof.
  intros Hg.
  assert (Hrefresh :
    cache_holds_snapshot (snd (fst (refresh w g (env_time w))))
    /\ forall out, fst (fst (refresh w g (env_time w))) = Ok out ->
         exists h ip now a b m,
           out = snapshot h ip now (entry_of a) (entry_of b) (entry_of m)).
  { unfold refresh. destruct (fetch w) as [[out|e] tr] eqn:Hf; cbn.
    - pose proof (fetch_snapshot _ _ _ Hf) as Hs. split.
      + intros c Hc. inversion Hc; subst. exact Hs.
      + intros o Ho. inversion Ho; subst. exact Hs.
    - split; [exact Hg | discriminate]. }
  unfold get_vps_data. destruct (cached_data g) as [c|] eqn:Hc; [|exact Hrefresh].
  destruct (truthy c && within_window g (env_time w)); [|exact Hrefresh].
  cbn. split; [exact Hg|]. intros out Ho. inversion Ho; subst. now apply Hg.
Qed.

Lemma reachable_cache (g : globals) : reachable g -> cache_holds_snapshot g.
Proof.
  induction 1 as [|w g _ IH].
  - intros c Hc. discriminate Hc.
  - now apply get_vps_data_cache.
Qed.

Lemma snapshot_is_flat_witness :
  flat_snapshot
    (match fst (fetch (env1 1000.5%float body1)) with
     | Ok out => out
     | Raise _ => PInt 0
     end).
Proof.
  destruct (fetch (env1 1000.5%float body1)) as [r tr] eqn:H.
  assert (Hr : exists out, r = Ok out)
    by (revert H; vm_compute; intros H; inversion H; eauto).
  destruct Hr as (out & ->).
  exact (snapshot_is_flat _ _ _ H).
Defined.

(** C2, as stated, fails: the snapshot of the sample run has no
    [resources] key, and is not of the nested shape. *)
Lemma snapshot_not_nested :
  exists out tr,
    fetch (env1 1000.5%float body1) = (Ok out, tr)
    /\ getitem out "resources" = Raise (mkExn KeyError "'resources'")
    /\ ~ nested_snapshot_spec out.
Proof.
  destruct (fetch (env1 1000.5%float body1)) as [r tr] eqn:H.
  assert (Hr : exists out, r = Ok out
                 /\ getitem out "resources" = Raise (mkExn KeyError "'resources'")).
  { revert H. vm_compute. intros H. inversion H. eauto. }
  destruct Hr as (out & -> & Hk).
  exists out, tr. repeat split; auto.
  intros (h & ip & now & a & b & c & -> & _). discriminate Hk.
Qed.

(* ===================================================================== *)
(** ** The metrics endpoint *)

Lemma metrics_lines_flat (format : pyval -> string) (out : pyval) :
  flat_snapshot out ->
  metrics_lines format out = Raise (mkExn KeyError "'resources'").
Proof.
  intros (h & ip & now & a & b & c & -> & _). reflexivity.
Qed.

(** C1 (what the code does). Whenever the pipeline succeeds, from the cache
    or by a fetch, [metrics] finds no [resources] key in the data and
    answers with the single line [# ERROR: 'resources'] and status 500: no
    gauge line is ever sent. *)
Theorem metrics_of_success (format : pyval -> string) (w : env) (g g' : globals)
    (out : pyval) (tr : list request) :
  reachable g ->
  get_vps_data w g = (Ok out, g', tr) ->
  metrics format w g = ((Text "# ERROR: 'resources'", 500%Z), g', tr).
Proof.
  intros Hg Hcall.
  destruct (get_vps_data_cache w g (reachable_cache g Hg)) as [_ Hout].
  rewrite Hcall in Hout.
  destruct (Hout out eq_refl) as (h & ip & now & a & b & m & ->).
  unfold metrics. rewrite Hcall. cbn [bind].
  rewrite (metrics_lines_flat _ _ (snapshot_flat h ip now a b m)). reflexivity.
Qed.

(** On a pipeline error, [metrics] answers with the line
    [# ERROR: <message>] and status 500. *)
Lemma metrics_of_failure (format : pyval -> string) (w : env) (g g' : globals)
    (e : exn) (tr : list request) :
  get_vps_data w g = (Raise e, g', tr) ->
  metrics format w g = ((Text ("# ERROR: " ++ exn_str e), 500%Z), g', tr).
Proof. intros Hcall. unfold metrics. rewrite Hcall. reflexivity. Qed.

(** [status] answers a pipeline error with [{"error": <message>}] and
    status 500. *)
Lemma status_of_failure (w : env) (g g' : globals) (e : exn) (tr : list request) :
  get_vps_data w g = (Raise e, g', tr) ->
  status w g = ((Json (PDict [("error", PStr (exn_str e))]), 500%Z), g', tr).
Proof. intros Hcall. unfold status. rewrite Hcall. reflexivity. Qed.

Lemma metrics_of_success_witness :
  fst (fst (metrics (fun _ => EmptyString) (env1 1000.5%float body1) initial_globals))
  = (Text "# ERROR: 'resources'", 500%Z).
Proof.
  destruct (get_vps_data (env1 1000.5%float body1) initial_globals)
    as [[r g'] tr] eqn:Hcall.
  assert (Hr : exists out, r = Ok out)
    by (revert Hcall; vm_compute; intros H; inversion H; eauto).
  destruct Hr as (out & ->).
  rewrite (metrics_of_success (fun _ => EmptyString) _ _ _ _ _
             reachable_initial Hcall).
  reflexivity.
Defined.

(* ===================================================================== *)
(** ** How errors reach the caller *)

Lemma fetch_config_raise (w : env) (e : exn) :
  env_config w = Raise e -> fetch w = (Raise (config_error e), []).
Proof. unfold fetch, load_config, try_except. intros ->. reflexivity. Qed.

Lemma fetch_post_raise (w : env) (c : ServerConfig) (e : exn) :
  env_config w = Ok c ->
  env_post w API_URL (post_flags_of c) = Raise e ->
  fetch w = (Raise (api_error e), [(API_URL, post_flags_of c)]).
Proof.
  intros Hc Hpost. unfold fetch, load_config, api_response, api_error.
  rewrite Hc. cbn [try_except]. rewrite Hpost. cbn [bind try_except].
  destruct (is_RequestException (exn_type e)); reflexivity.
Qed.

Lemma fetch_parse_raise (w : env) (c : ServerConfig) (text : string) (e : exn) :
  env_config w = Ok c ->
  env_post w API_URL (post_flags_of c) = Ok text ->
  parse_response text = Raise e ->
  fetch w = (Raise (api_error e), [(API_URL, post_flags_of c)]).
Proof.
  intros Hc Hpost Hp. unfold fetch, load_config, api_response, api_error.
  rewrite Hc. cbn [try_except]. rewrite Hpost. cbn [bind]. rewrite Hp.
  cbn [try_except].
  destruct (is_RequestException (exn_type e)); reflexivity.
Qed.

Lemma fetch_assemble_raise (w : env) (c : ServerConfig) (text : string)
    (response : dict) (e : exn) :
  env_config w = Ok c ->
  env_post w API_URL (post_flags_of c) = Ok text ->
  parse_response text = Ok response ->
  assemble w (post_flags_of c) response = Raise e ->
  fetch w = (Raise e, [(API_URL, post_flags_of c)]).
Proof.
  intros Hc Hpost Hp Ha. unfold fetch, load_config, api_response.
  rewrite Hc. cbn [try_except]. rewrite Hpost. cbn [bind]. rewrite Hp.
  cbn [try_except bind]. rewrite Ha. reflexivity.
Qed.

(** C8 (amended). No error of a fetch reaches the request handler as it was
    raised: [get_vps_data] raises a [RuntimeError] whose message is
    [Failed to fetch VPS data: ] followed by the message of the error, which
    for a configuration failure is itself [Failed to load configuration: ]
    and the cause, and for a failed request [API request failed: ] and the
    cause.  Nothing is recovered and nothing retried: the call raises, the
    globals are unchanged, and at most one request was made. *)
Theorem errors_reach_caller_wrapped (w : env) (g : globals) :
  cache_fresh g (env_time w) = false ->
  (forall e, env_config w = Raise e ->
     get_vps_data w g = (Raise (fetch_error (config_error e)), g, []))
  /\ (forall c e, env_config w = Ok c ->
        env_post w API_URL (post_flags_of c) = Raise e ->
        get_vps_data w g
        = (Raise (fetch_error (api_error e)), g, [(API_URL, post_flags_of c)]))
  /\ (forall c text e, env_config w = Ok c ->
        env_post w API_URL (post_flags_of c) = Ok text ->
        parse_response text = Raise e ->
        get_vps_data w g
        = (Raise (fetch_error (api_error e)), g, [(API_URL, post_flags_of c)]))
  /\ (forall c text response e, env_config w = Ok c ->
        env_post w API_URL (post_flags_of c) = Ok text ->
        parse_response text = Ok response ->
        assemble w (post_flags_of c) response = Raise e ->
        get_vps_data w g
        = (Raise (fetch_error e), g, [(API_URL, post_flags_of c)])).
Proof.
  intros Hstale. repeat split; intros.
  - apply failed_refresh_keeps_cache_aux; auto using fetch_config_raise.
  - apply failed_refresh_keeps_cache_aux; auto using fetch_post_raise.
  - apply failed_refresh_keeps_cache_aux; eauto using fetch_parse_raise.
  - apply failed_refresh_keeps_cache_aux; eauto using fetch_assemble_raise.
Qed.

Lemma errors_reach_caller_wrapped_witness :
  get_vps_data
    (mkEnv 1000.5%float (Ok config1)
       (fun _ _ => Raise (mkExn RequestException "timed out")) 1000.5%float)
    initial_globals
  = (Raise (mkExn RuntimeError
       "Failed to fetch VPS data: API request failed: timed out"),
     initial_globals, [(API_URL, post_flags_of config1)]).
Proof.
  exact (proj1 (proj2 (errors_reach_caller_wrapped
    (mkEnv 1000.5%float (Ok config1)
       (fun _ _ => Raise (mkExn RequestException "timed out")) 1000.5%float)
    initial_globals eq_refl)) config1 _ eq_refl eq_refl).
Defined.

(** C8, as stated, fails: the exception of a request that timed out does
    not reach the caller unchanged, but as a [RuntimeError] with a longer
    message. *)
Lemma upstream_error_is_rewrapped :
  let e := mkExn RequestException "timed out" in
  let w := mkEnv 1000.5%float (Ok config1) (fun _ _ => Raise e) 1000.5%float in
  env_post w API_URL (post_flags_of config1) = Raise e
  /\ fst (fst (get_vps_data w initial_globals))
     = Raise (mkExn RuntimeError
                "Failed to fetch VPS data: API request failed: timed out")
  /\ fst (fst (get_vps_data w initial_globals)) <> Raise e.
Proof. repeat split. vm_compute. discriminate. Qed.

(* ===================================================================== *)
(** ** What a match of a pattern looks like *)

Lemma append_nil_r (s : string) : s ++ "" = s.
Proof. induction s as [|c s IH]; simpl; [reflexivity | now rewrite IH]. Qed.

Lemma append_assoc (s1 s2 s3 : string) : (s1 ++ s2) ++ s3 = s1 ++ (s2 ++ s3).
Proof. induction s1 as [|c s1 IH]; simpl; [reflexivity | now rewrite IH]. Qed.

Lemma all_chars_app (p : ascii -> bool) (u v : string) :
  all_chars p (u ++ v) = all_chars p u && all_chars p v.
Proof.
  induction u as [|c u IH]; simpl; [reflexivity|].
  rewrite IH. apply andb_assoc.
Qed.

Lemma lazy_star_sound {A} (cls : ascii -> bool) (rest acc : string)
    (k : string -> string -> option A) (a : A) :
  lazy_star cls acc rest k = Some a ->
  exists u rest', rest = u ++ rest' /\ all_chars cls u = true
                  /\ k (acc ++ u) rest' = Some a.
Proof.
  revert acc. induction rest as [|c rest IH]; intros acc; simpl.
  - destruct (k acc "") eqn:Hk; [|discriminate].
    intros H; inversion H; subst.
    exists "", "". rewrite (append_nil_r acc). auto.
  - destruct (k acc (String c rest)) eqn:Hk.
    + intros H; inversion H; subst.
      exists "", (String c rest). rewrite (append_nil_r acc). auto.
    + destruct (cls c) eqn:Hc; [|discriminate].
      intros H. apply IH in H as (u & rest' & -> & Hu & Hk').
      exists (String c u), rest'. simpl. rewrite Hc, Hu.
      rewrite append_assoc in Hk'. auto.
Qed.

(** Soundness of the matcher: a match splits the text into what the
    pattern consumed, as [den] has it, and the rest. *)
Lemma rmatch_sound {A} (r : regex) :
  forall (rest : string) (cs : captures) (k : cont A) (a : A),
    rmatch r rest cs k = Some a ->
    exists u rest' cs', rest = u ++ rest' /\ den r u cs cs'
                        /\ k u rest' cs' = Some a.
Proof.
  induction r as [c|cls|r1 IH1 r2 IH2|n r IH]; intros rest cs k a; simpl.
  - destruct rest as [|c' rest]; [discriminate|].
    destruct (Ascii.eqb_spec c' c) as [->|]; [|discriminate].
    intros H. exists (String c ""), rest, cs. auto.
  - intros H. apply lazy_star_sound in H as (u & rest' & -> & Hu & Hk).
    exists u, rest', cs. auto.
  - intros H. apply IH1 in H as (u1 & rest1 & cs1 & -> & H1 & H).
    apply IH2 in H as (u2 & rest2 & cs2 & -> & H2 & H).
    exists (u1 ++ u2), rest2, cs2. rewrite append_assoc. eauto 10.
  - intros H. apply IH in H as (u & rest' & cs' & -> & Hd & H).
    exists u, rest', ((n, u) :: cs'). eauto.
Qed.

Lemma re_match_sound (p : pattern) (s : string) (m : match_obj) :
  re_match p s = Some m ->
  exists rest, s = group m ++ rest /\ m_pattern m = p
               /\ den (pat_re p) (group m) [] (m_caps m).
Proof.
  unfold re_match. intros H.
  apply rmatch_sound in H as (u & rest & cs & -> & Hd & H).
  inversion H; subst. exists rest. auto.
Qed.

Lemma INNER_PATTERN_match (block : string) (m : match_obj) :
  re_match INNER_PATTERN block = Some m ->
  exists a total used free per b rest,
    inner_shape block a total used free per b rest
    /\ groupdict m = [("total", PStr total); ("used", PStr used);
                      ("free", PStr free); ("per", PStr per)].
Proof.
  intros H. apply re_match_sound in H as (rest & Hs & Hp & Hd).
  unfold INNER_PATTERN in Hd. cbn [pat_re den] in Hd.
  destruct Hd as (u1 & v1 & c1 & E1 & [-> ->] & Hd).
  destruct Hd as (a & v2 & c2 & -> & [Ha ->] & Hd).
  destruct Hd as (u3 & v3 & c3 & -> & [-> ->] & Hd).
  destruct Hd as (total & v4 & c4 & -> & (c4' & [Ht ->] & ->) & Hd).
  destruct Hd as (u5 & v5 & c5 & -> & [-> ->] & Hd).
  destruct Hd as (used & v6 & c6 & -> & (c6' & [Hu ->] & ->) & Hd).
  destruct Hd as (u7 & v7 & c7 & -> & [-> ->] & Hd).
  destruct Hd as (free & v8 & c8 & -> & (c8' & [Hf ->] & ->) & Hd).
  destruct Hd as (u9 & v9 & c9 & -> & [-> ->] & Hd).
  destruct Hd as (per & v10 & c10 & -> & (c10' & [Hpe ->] & ->) & Hd).
  destruct Hd as (u11 & v11 & c11 & -> & [-> ->] & Hd).
  destruct Hd as (u12 & v12 & c12 & -> & [-> ->] & Hd).
  destruct Hd as (b & v13 & c13 & -> & [Hb ->] & [-> Hc]).
  exists a, total, used, free, per, b, rest. split.
  - unfold inner_shape. repeat split; auto.
    rewrite Hs, E1. cbn [append]. f_equal.
    repeat (rewrite ?append_assoc; cbn [append]). reflexivity.
  - unfold groupdict. rewrite Hp, Hc. reflexivity.
Qed.

(* ===================================================================== *)
(** ** Malformed resource blocks *)

Lemma finditer_from_pattern (p : pattern) (s : string) (skip : nat) (m : match_obj) :
  In m (finditer_from p s skip) -> m_pattern m = p.
Proof.
  revert skip. induction s as [|c s IH]; intros skip; simpl; [tauto|].
  destruct skip as [|n]; [|apply IH].
  destruct (re_match p (String c s)) as [m'|] eqn:Hm; [|apply IH].
  intros [<-|Hin]; [|now apply IH in Hin].
  now apply re_match_sound in Hm as (_ & _ & Hp & _).
Qed.

Lemma finditer_pattern (p : pattern) (s : string) (m : match_obj) :
  In m (finditer p s) -> m_pattern m = p.
Proof. apply finditer_from_pattern. Qed.

Lemma groups_OUTER_PATTERN (m : match_obj) :
  m_pattern m = OUTER_PATTERN -> tuple_get (groups m) 1 = Ok (type_of m).
Proof. unfold groups. intros ->. reflexivity. Qed.





(* ===================================================================== *)
(** ** Signs of binary64 results *)

Lemma iter_pos_invariant {A} (P : A -> Prop) (f : A -> A) :
  (forall x, P x -> P (f x)) -> forall n x, P x -> P (iter_pos f n x).
Proof.
  intros Hf. induction n as [n IH|n IH|]; intros x Hx; simpl; auto.
Qed.

Lemma shr_1_nonneg (mrs : shr_record) :
  (0 <= shr_m mrs)%Z -> (0 <= shr_m (shr_1 mrs))%Z.
Proof.
  destruct mrs as [m r s]. simpl.
  destruct m as [|p|p]; simpl; [lia| |lia].
  destruct p; simpl; lia.
Qed.

Lemma shr_nonneg (mrs : shr_record) (e n : Z) :
  (0 <= shr_m mrs)%Z -> (0 <= shr_m (fst (shr mrs e n)))%Z.
Proof.
  intros H. unfold shr. destruct n; simpl; auto.
  apply (iter_pos_invariant (fun x => (0 <= shr_m x)%Z)); auto using shr_1_nonneg.
Qed.

Lemma shr_record_of_loc_m (m : Z) (l : location) : shr_m (shr_record_of_loc m l) = m.
Proof. destruct l as [|[]]; reflexivity. Qed.

Lemma shr_fexp_nonneg (m e : Z) (l : location) :
  (0 <= m)%Z -> (0 <= shr_m (fst (shr_fexp prec emax m e l)))%Z.
Proof.
  intros H. unfold shr_fexp. apply shr_nonneg. now rewrite shr_record_of_loc_m.
Qed.

Lemma round_nearest_even_nonneg (m : Z) (l : location) :
  (0 <= m)%Z -> (0 <= round_nearest_even m l)%Z.
Proof.
  intros H. unfold round_nearest_even.
  destruct l as [|[]]; try destruct (Z.even m); lia.
Qed.

Lemma binary_round_aux_signed (sx : bool) (mx ex : Z) (lx : location) :
  (0 <= mx)%Z -> signed sx (binary_round_aux prec emax sx mx ex lx).
Proof.
  intros H. unfold binary_round_aux.
  pose proof (shr_fexp_nonneg mx ex lx H) as H1.
  destruct (shr_fexp prec emax mx ex lx) as [mrs' e'].
  pose proof (shr_fexp_nonneg
    (round_nearest_even (shr_m mrs') (loc_of_shr_record mrs')) e' loc_Exact
    (round_nearest_even_nonneg _ _ H1)) as H2.
  destruct (shr_fexp prec emax _ e' loc_Exact) as [mrs'' e''].
  cbn [fst] in H2.
  destruct (shr_m mrs'') as [|m|m]; [reflexivity| |lia].
  destruct (Z.leb e'' (emax - prec)); reflexivity.
Qed.






(** A float above zero is not equal to zero. *)
Lemma ltb_0_not_eqb_0 (x : float) :
  PrimFloat.ltb 0 x = true -> PrimFloat.eqb x 0 = false.
Proof.
  rewrite ltb_spec, eqb_spec.
  replace (Prim2SF 0) with (S754_zero false) by reflexivity.
  destruct (Prim2SF x) as [s|s| |s m e]; try destruct s; simpl;
    intros H; try discriminate H; reflexivity.
Qed.

(* ===================================================================== *)
(** ** Completeness of the matcher *)

Lemma lazy_star_complete {A} (cls : ascii -> bool) (u acc rest' : string)
    (k : string -> string -> option A) (a : A) :
  all_chars cls u = true ->
  k (acc ++ u) rest' = Some a ->
  exists a', lazy_star cls acc (u ++ rest') k = Some a'.
Proof.
  revert acc. induction u as [|c u IH]; intros acc Hu Hk.
  - rewrite append_nil_r in Hk. cbn [append].
    destruct rest'; simpl; rewrite Hk; eauto.
  - simpl in Hu. apply andb_prop in Hu as [Hc Hu]. simpl.
    destruct (k acc (String c (u ++ rest'))); [eauto|].
    rewrite Hc. apply IH; [exact Hu|].
    now rewrite append_assoc.
Qed.

(** Whenever the text starts with something the pattern denotes, after
    which the continuation succeeds, the matcher finds a match (the first
    one in its order, not always this one). *)
Lemma rmatch_complete {A} (r : regex) :
  forall (u rest' : string) (cs cs' : captures) (k : cont A) (a : A),
    den r u cs cs' ->
    k u rest' cs' = Some a ->
    exists a', rmatch r (u ++ rest') cs k = Some a'.
Proof.
  induction r as [c|cls|r1 IH1 r2 IH2|n r IH]; intros u rest' cs cs' k a; simpl.
  - intros [-> ->] Hk. simpl. rewrite Ascii.eqb_refl. eauto.
  - intros [Hu ->] Hk. now apply lazy_star_complete with (a := a).
  - intros (u1 & u2 & cs1 & -> & H1 & H2) Hk.
    destruct (IH2 u2 rest' cs1 cs' (fun u2' rest2 cs2 => k (u1 ++ u2') rest2 cs2) a
                H2 Hk) as (a2 & Ha2).
    rewrite append_assoc.
    exact (IH1 u1 (u2 ++ rest') cs cs1 _ a2 H1 Ha2).
  - intros (cs1 & Hd & ->) Hk.
    exact (IH u rest' cs cs1 (fun u0 rest0 cs0 => k u0 rest0 ((n, u0) :: cs0)) a Hd Hk).
Qed.

Lemma re_match_none (p : pattern) (s u rest : string) (cs : captures) :
  re_match p s = None -> s = u ++ rest -> ~ den (pat_re p) u [] cs.
Proof.
  unfold re_match. intros Hnone -> Hd.
  destruct (rmatch_complete (pat_re p) u rest [] cs
              (fun u0 _ cs0 => Some (mkMatch p u0 cs0)) _ Hd eq_refl) as (a' & Ha).
  congruence.
Qed.

Lemma inner_shape_den (block a total used free per b rest : string) :
  inner_shape block a total used free per b rest ->
  exists u cs, block = u ++ rest /\ den (pat_re INNER_PATTERN) u [] cs.
Proof.
  intros (-> & Ha & Hb & Ht & Hu & Hf & Hp).
  exists ("<" ++ a ++ ">" ++ total ++ "," ++ used ++ "," ++ free ++ "," ++ per
          ++ "</" ++ b ++ ">"),
         [(4%nat, per); (3%nat, free); (2%nat, used); (1%nat, total)].
  split.
  - repeat (rewrite ?append_assoc; cbn [append]). reflexivity.
  - unfold INNER_PATTERN. cbn [pat_re den].
    exists "<", (a ++ ">" ++ total ++ "," ++ used ++ "," ++ free ++ "," ++ per
                 ++ "</" ++ b ++ ">"), []. repeat split.
    exists a, (">" ++ total ++ "," ++ used ++ "," ++ free ++ "," ++ per
               ++ "</" ++ b ++ ">"), []. repeat split; [exact Ha|].
    exists ">", (total ++ "," ++ used ++ "," ++ free ++ "," ++ per
                 ++ "</" ++ b ++ ">"), []. repeat split.
    exists total, ("," ++ used ++ "," ++ free ++ "," ++ per ++ "</" ++ b ++ ">"),
           [(1%nat, total)]. repeat split; [eexists; eauto|].
    exists ",", (used ++ "," ++ free ++ "," ++ per ++ "</" ++ b ++ ">"),
           [(1%nat, total)]. repeat split.
    exists used, ("," ++ free ++ "," ++ per ++ "</" ++ b ++ ">"),
           [(2%nat, used); (1%nat, total)]. repeat split; [eexists; eauto|].
    exists ",", (free ++ "," ++ per ++ "</" ++ b ++ ">"),
           [(2%nat, used); (1%nat, total)]. repeat split.
    exists free, ("," ++ per ++ "</" ++ b ++ ">"),
           [(3%nat, free); (2%nat, used); (1%nat, total)].
    repeat split; [eexists; eauto|].
    exists ",", (per ++ "</" ++ b ++ ">"),
           [(3%nat, free); (2%nat, used); (1%nat, total)]. repeat split.
    exists per, ("</" ++ b ++ ">"),
           [(4%nat, per); (3%nat, free); (2%nat, used); (1%nat, total)].
    repeat split; [eexists; eauto|].
    exists "<", ("/" ++ b ++ ">"),
           [(4%nat, per); (3%nat, free); (2%nat, used); (1%nat, total)].
    repeat split.
    exists "/", (b ++ ">"),
           [(4%nat, per); (3%nat, free); (2%nat, used); (1%nat, total)].
    repeat split.
    exists b, ">",
           [(4%nat, per); (3%nat, free); (2%nat, used); (1%nat, total)].
    repeat split. exact Hb.
Qed.

(** [INNER_PATTERN] matches exactly the blocks of its shape. *)
Lemma INNER_PATTERN_matches_iff (block : string) :
  (exists m, re_match INNER_PATTERN block = Some m)
  <-> (exists a total used free per b rest,
         inner_shape block a total used free per b rest).
Proof.
  split.
  - intros (m & Hm).
    apply INNER_PATTERN_match in Hm as (a & t & u & f & p & b & rest & H & _).
    eauto 10.
  - intros (a & t & u & f & p & b & rest & H).
    destruct (re_match INNER_PATTERN block) as [m|] eqn:Hm; [eauto|].
    exfalso. apply inner_shape_den in H as (u0 & cs & Hs & Hd).
    exact (re_match_none _ _ _ _ _ Hm Hs Hd).
Qed.





(* ===================================================================== *)
(** ** Groups that are not runs of digits *)

(** Two ways of cutting a text at an occurrence of [c], the first being its
    first occurrence: the cuts are the same, or the second is further on. *)
Lemma split_first (c : ascii) (u v u' v' : string) :
  free_of c u = true ->
  u ++ String c v = u' ++ String c v' ->
  (u' = u /\ v' = v) \/ (exists w, u' = u ++ String c w /\ v = w ++ String c v').
Proof.
  revert u'. induction u as [|x u IH]; intros u' Hfree Heq.
  - destruct u' as [|y w]; simpl in Heq; inversion Heq; subst; [auto|].
    right. exists w. auto.
  - simpl in Hfree. apply andb_prop in Hfree as [Hx Hfree].
    destruct u' as [|y w]; simpl in Heq; inversion Heq; subst.
    + rewrite Ascii.eqb_refl in Hx. discriminate Hx.
    + destruct (IH w Hfree H1) as [[-> ->]|(w' & -> & ->)]; [auto|].
      right. exists w'. auto.
Qed.

Lemma all_chars_weaken (p q : ascii -> bool) (s : string) :
  (forall c, p c = true -> q c = true) ->
  all_chars p s = true -> all_chars q s = true.
Proof.
  intros Hpq. induction s as [|c s IH]; simpl; [auto|].
  intros H. apply andb_prop in H as [Hc Hs]. now rewrite (Hpq c Hc), IH.
Qed.

Lemma digits_free_of (c : ascii) (s : string) :
  is_digit c = false -> all_chars is_digit s = true -> free_of c s = true.
Proof.
  intros Hc. apply all_chars_weaken. intros x Hx.
  destruct (Ascii.eqb_spec x c) as [->|]; [congruence | reflexivity].
Qed.

Lemma is_word_is_dot (c : ascii) : is_word c = true -> is_dot c = true.
Proof.
  unfold is_word, is_dot. intros H.
  destruct (Nat.eqb_spec (nat_of_ascii c) 10) as [E|]; [|reflexivity].
  rewrite E in H. discriminate H.
Qed.

Lemma is_word_free_of (x : ascii) (s : string) :
  is_word x = false -> all_chars is_word s = true -> free_of x s = true.
Proof.
  intros Hx. apply all_chars_weaken. intros c Hc.
  destruct (Ascii.eqb_spec c x) as [->|]; [congruence | reflexivity].
Qed.

(** A run of digits is cut by a non-digit exactly where a text free of that
    character is cut by it. *)
Lemma digits_cut (c : ascii) (g d v v' : string) :
  is_digit c = false ->
  free_of c g = true ->
  all_chars is_digit d = true ->
  g ++ String c v = d ++ String c v' ->
  d = g /\ v' = v.
Proof.
  intros Hc Hg Hd Heq.
  destruct (split_first c g v d v' Hg Heq) as [H|(w & -> & _)]; [exact H|].
  rewrite all_chars_app in Hd. simpl in Hd. rewrite Hc in Hd.
  rewrite andb_false_r in Hd. discriminate Hd.
Qed.

Lemma free_of_app (c : ascii) (u v : string) :
  free_of c (u ++ v) = free_of c u && free_of c v.
Proof. apply all_chars_app. Qed.

(** [INNER_PATTERN] matches such a block only when the four groups are runs
    of digits. *)
Lemma block_of_inner_shape (name g1 g2 g3 g4 name' a t u f p b rest : string) :
  free_of ">" name = true -> free_of ">" name' = true ->
  plain_group g1 = true -> plain_group g2 = true ->
  plain_group g3 = true -> plain_group g4 = true ->
  inner_shape (block_of name g1 g2 g3 g4 name') a t u f p b rest ->
  t = g1 /\ u = g2 /\ f = g3 /\ p = g4.
Proof.
  unfold plain_group. intros Hn Hn' H1 H2 H3 H4.
  apply andb_prop in H1 as [H1 H1g]. apply andb_prop in H1 as [H1c H1l].
  apply andb_prop in H2 as [H2 H2g]. apply andb_prop in H2 as [H2c H2l].
  apply andb_prop in H3 as [H3 H3g]. apply andb_prop in H3 as [H3c H3l].
  apply andb_prop in H4 as [H4 H4g]. apply andb_prop in H4 as [H4c H4l].
  intros (Heq & _ & _ & Ht & Hu & Hf & Hp).
  unfold block_of in Heq. cbn [append] in Heq. inversion Heq as [Heq']. clear Heq.
  destruct (split_first ">" name _ a _ Hn Heq') as [[-> Hy]|(w & -> & Hx)].
  - symmetry in Hy.
    destruct (digits_cut "," g1 t _ _ eq_refl H1c Ht Hy) as [-> Hy1].
    symmetry in Hy1.
    destruct (digits_cut "," g2 u _ _ eq_refl H2c Hu Hy1) as [-> Hy2].
    symmetry in Hy2.
    destruct (digits_cut "," g3 f _ _ eq_refl H3c Hf Hy2) as [-> Hy3].
    symmetry in Hy3.
    destruct (digits_cut "<" g4 p _ _ eq_refl H4l Hp Hy3) as [-> _].
    auto.
  - exfalso.
    assert (Hfree : free_of ">" (g1 ++ "," ++ g2 ++ "," ++ g3 ++ "," ++ g4
                                ++ "</" ++ name') = true).
    { repeat (rewrite free_of_app; cbn [free_of all_chars Ascii.eqb Bool.eqb negb andb]).
      fold (free_of ">" g1). fold (free_of ">" g2). fold (free_of ">" g3).
      fold (free_of ">" g4). fold (free_of ">" name').
      now rewrite H1g, H2g, H3g, H4g, Hn'. }
    assert (Hx' : (g1 ++ "," ++ g2 ++ "," ++ g3 ++ "," ++ g4 ++ "</" ++ name')
                  ++ String ">" ""
                  = w ++ String ">" (t ++ "," ++ u ++ "," ++ f ++ "," ++ p
                                     ++ "</" ++ b ++ ">" ++ rest)).
    { cbn [append]. rewrite <- Hx.
      repeat (rewrite ?append_assoc; cbn [append]). reflexivity. }
    destruct (split_first ">" _ _ _ _ Hfree Hx') as [[_ Hy]|(w' & _ & Hy)].
    + destruct t; discriminate Hy.
    + destruct w'; discriminate Hy.
Qed.



(* ===================================================================== *)
(** ** Malformed blocks, on *)








(* ===================================================================== *)
(** ** The values that reach the resource processor *)










(* ===================================================================== *)
(** ** Concurrent callers *)

Lemma nth_error_set_nth {A} (l : list A) (i j : nat) (x : A) :
  nth_error (set_nth l i x) j =
  if Nat.eqb i j
  then match nth_error l i with Some _ => Some x | None => None end
  else nth_error l j.
Proof.
  revert i j. induction l as [|y l IH]; intros i j.
  - simpl. destruct (Nat.eqb i j); destruct i, j; reflexivity.
  - destruct i as [|i], j as [|j]; simpl; try reflexivity. apply IH.
Qed.

Lemma failures_set_nth (l : list pc) (i : nat) (x y : pc) :
  nth_error l i = Some y ->
  (failures (set_nth l i x) + (if failed y then 1 else 0)
   = failures l + (if failed x then 1 else 0))%nat.
Proof.
  revert i. induction l as [|z l IH]; intros i; [destruct i; discriminate|].
  destruct i as [|i]; simpl.
  - intros H. inversion H; subst. lia.
  - intros H. specialize (IH i H). lia.
Qed.

Lemma nth_error_repeat {A} (x y : A) (n i : nat) :
  nth_error (repeat x n) i = Some y -> y = x.
Proof.
  revert i. induction n as [|n IH]; intros i; destruct i; simpl; try discriminate.
  - intros H. now inversion H.
  - apply IH.
Qed.

Lemma step_exclusive (callers : list env) (s s' : system) :
  step callers s s' -> exclusive s -> exclusive s'.
Proof.
  intros Hstep [Huniq Hfree].
  destruct Hstep as [s i Hi|s i Hi Hlock|s i w r g' tr Hi Hw Hcall];
    unfold exclusive; cbn [sys_pcs sys_lock].
  - assert (Hold : forall j, nth_error (set_nth (sys_pcs s) i Waiting) j = Some Holding ->
                             nth_error (sys_pcs s) j = Some Holding).
    { intros j. rewrite nth_error_set_nth, Hi.
      destruct (Nat.eqb i j); [discriminate | auto]. }
    split.
    + intros j k Hj Hk. apply Huniq; auto.
    + intros Hl j Hj. exact (Hfree Hl j (Hold j Hj)).
  - split; [|discriminate].
    assert (Hnew : forall j, nth_error (set_nth (sys_pcs s) i Holding) j = Some Holding ->
                             j = i).
    { intros j. rewrite nth_error_set_nth.
      destruct (Nat.eqb_spec i j) as [->|_]; [auto|].
      intros Hj. now destruct (Hfree Hlock j). }
    intros j k Hj Hk. now rewrite (Hnew j Hj), (Hnew k Hk).
  - assert (Hnone : forall j, nth_error (set_nth (sys_pcs s) i (Done r)) j <> Some Holding).
    { intros j. rewrite nth_error_set_nth, Hi.
      destruct (Nat.eqb_spec i j) as [->|Hij]; [discriminate|].
      intros Hj. apply Hij. now apply Huniq. }
    split.
    + intros j k Hj. now destruct (Hnone j).
    + intros _. exact Hnone.
Qed.

Lemma fetch_trace_length (w : env) : (List.length (snd (fetch w)) <= 1)%nat.
Proof.
  rewrite fetch_trace. destruct (env_config w); simpl; lia.
Qed.

Lemma step_cache_inv (ws : list env) (g0 : globals) (s s' : system) :
  (forall w, In w ws -> cache_fresh g0 (env_time w) = false) ->
  (forall w w', In w ws -> In w' ws ->
     PrimFloat.ltb (PrimFloat.sub (env_time w) (env_time w')) 60 = true) ->
  step ws s s' -> cache_inv ws g0 s -> cache_inv ws g0 s'.
Proof.
  intros Hstale Hclose Hstep Hinv.
  destruct Hstep as [s i Hi|s i Hi Hlock|s i w r g' tr Hi Hw Hcall].
  - (* reading the clock *)
    assert (Hsame : forall j v,
              nth_error (set_nth (sys_pcs s) i Waiting) j = Some (Done (Ok v)) ->
              nth_error (sys_pcs s) j = Some (Done (Ok v))).
    { intros j v. rewrite nth_error_set_nth, Hi.
      destruct (Nat.eqb i j); [discriminate | auto]. }
    pose proof (failures_set_nth _ _ Waiting _ Hi) as Hf. cbn [failed] in Hf.
    destruct Hinv as [(Hg & Hnone & Hlen)|(w0 & out & tr & Hin & Hf0 & Hg & Hval & Hlen)];
      [left | right; exists w0, out, tr]; cbn [sys_globals sys_pcs sys_trace];
      repeat split; auto; try lia.
    + intros j v Hj. exact (Hnone j v (Hsame j v Hj)).
    + intros j v Hj. exact (Hval j v (Hsame j v Hj)).
  - (* taking the lock *)
    assert (Hsame : forall j v,
              nth_error (set_nth (sys_pcs s) i Holding) j = Some (Done (Ok v)) ->
              nth_error (sys_pcs s) j = Some (Done (Ok v))).
    { intros j v. rewrite nth_error_set_nth, Hi.
      destruct (Nat.eqb i j); [discriminate | auto]. }
    pose proof (failures_set_nth _ _ Holding _ Hi) as Hf. cbn [failed] in Hf.
    destruct Hinv as [(Hg & Hnone & Hlen)|(w0 & out & tr & Hin & Hf0 & Hg & Hval & Hlen)];
      [left | right; exists w0, out, tr]; cbn [sys_globals sys_pcs sys_trace];
      repeat split; auto; try lia.
    + intros j v Hj. exact (Hnone j v (Hsame j v Hj)).
    + intros j v Hj. exact (Hval j v (Hsame j v Hj)).
  - (* the body *)
    pose proof (nth_error_In _ _ Hw) as Hwin.
    pose proof (failures_set_nth _ _ (Done r) _ Hi) as Hf. cbn [failed] in Hf.
    destruct Hinv as [(Hg & Hnone & Hlen)|(w0 & out & tr0 & Hin & Hf0 & Hg & Hval & Hlen)].
    + rewrite Hg in Hcall.
      rewrite (get_vps_data_stale _ _ (Hstale w Hwin)) in Hcall.
      unfold refresh in Hcall.
      pose proof (fetch_trace_length w) as Htr.
      destruct (fetch w) as [[out|e] tr'] eqn:Hfetch; cbn in Hcall;
        inversion Hcall; subst; clear Hcall.
      * right. exists w, out, tr. cbn [sys_globals sys_pcs sys_trace].
        apply fetch_ok in Hfetch as Hfo.
        destruct Hfo as (c & text & response & _ & _ & _ & _ & Htr1).
        repeat split; auto.
        -- intros j v. rewrite nth_error_set_nth, Hi.
           destruct (Nat.eqb_spec i j) as [->|_].
           ++ intros H. now inversion H.
           ++ intros H. now destruct (Hnone j v).
        -- rewrite length_app, Htr1. simpl. lia.
        -- rewrite length_app, Htr1. simpl. lia.
      * left. cbn [sys_globals sys_pcs sys_trace]. repeat split; auto.
        -- intros j v. rewrite nth_error_set_nth, Hi.
           destruct (Nat.eqb_spec i j) as [->|_]; [discriminate | apply Hnone].
        -- rewrite length_app. cbn [snd] in Htr. lia.
    + destruct (fetch_snapshot _ _ _ Hf0) as (h & ip & now & a & b & m & Hout).
      assert (Hhit : get_vps_data w (sys_globals s) = (Ok out, sys_globals s, [])).
      { apply get_vps_data_fresh; [rewrite Hg; reflexivity|].
        unfold cache_fresh, within_window. rewrite Hg. cbn [cached_data last_update].
        rewrite float_of_Z_60, (Hclose w w0 Hwin Hin), Hout. reflexivity. }
      rewrite Hhit in Hcall. inversion Hcall; subst r g' tr; clear Hcall.
      right. exists w0, out, tr0. cbn [sys_globals sys_pcs sys_trace].
      repeat split; auto.
      * intros j v. rewrite nth_error_set_nth, Hi.
        destruct (Nat.eqb_spec i j) as [->|_]; [|apply Hval].
        intros H. now inversion H.
      * rewrite app_nil_r. lia.
      * rewrite app_nil_r. lia.
Qed.

Lemma steps_exclusive (callers : list env) (s s' : system) :
  steps callers s s' -> exclusive s -> exclusive s'.
Proof.
  induction 1 as [s|s1 s2 s3 _ IH Hstep]; [auto|].
  intros H. exact (step_exclusive callers s2 s3 Hstep (IH H)).
Qed.

Lemma init_exclusive (n : nat) (g : globals) : exclusive (init_system n g).
Proof.
  split; cbn [init_system sys_pcs].
  - intros i j Hi. apply nth_error_repeat in Hi. discriminate Hi.
  - intros _ i Hi. apply nth_error_repeat in Hi. discriminate Hi.
Qed.

Lemma init_cache_inv (ws : list env) (n : nat) (g0 : globals) :
  cache_inv ws g0 (init_system n g0).
Proof.
  left. cbn [init_system sys_globals sys_pcs sys_trace]. repeat split.
  - intros i v Hi. apply nth_error_repeat in Hi. discriminate Hi.
  - simpl. lia.
Qed.

Lemma failures_positive (pcs : list pc) (i : nat) (e : exn) :
  nth_error pcs i = Some (Done (Raise e)) -> (1 <= failures pcs)%nat.
Proof.
  revert i. induction pcs as [|p pcs IH]; intros i; [destruct i; discriminate|].
  destruct i as [|i]; simpl.
  - intros H. inversion H; subst. simpl. lia.
  - intros H. specialize (IH i H). lia.
Qed.

(** C9 (amended). Let any number of callers run [get_vps_data]
    concurrently, each finding the initial cache empty or stale at the time
    it read, the times they read being less than 60 seconds from one
    another.  In every state every schedule reaches: at most one caller is
    inside the body, and none when the lock is free; the globals are the
    initial ones or the snapshot one caller fetched together with the time
    that caller read; all callers that returned hold the same snapshot,
    the one in the cache; and the upstream requests made are at most one
    more than the callers that raised: a caller whose refresh fails makes
    at most one request of its own and raises its own error, the failure is
    not shared.  When no caller raised and one returned, exactly one
    request was made. *)
Theorem concurrent_callers (ws : list env) (g0 : globals) (s : system) :
  (forall w, In w ws -> cache_fresh g0 (env_time w) = false) ->
  (forall w w', In w ws -> In w' ws ->
     PrimFloat.ltb (PrimFloat.sub (env_time w) (env_time w')) 60 = true) ->
  steps ws (init_system (List.length ws) g0) s ->
  (forall i j, nth_error (sys_pcs s) i = Some Holding ->
               nth_error (sys_pcs s) j = Some Holding -> i = j)
  /\ (sys_lock s = false -> forall i, nth_error (sys_pcs s) i <> Some Holding)
  /\ (sys_globals s = g0
      \/ exists w0 out tr, In w0 ws /\ fetch w0 = (Ok out, tr)
           /\ sys_globals s = mkGlobals (Some out) (env_time w0))
  /\ (forall i v, nth_error (sys_pcs s) i = Some (Done (Ok v)) ->
        cached_data (sys_globals s) = Some v)
  /\ (forall i j v v', nth_error (sys_pcs s) i = Some (Done (Ok v)) ->
        nth_error (sys_pcs s) j = Some (Done (Ok v')) -> v = v')
  /\ (List.length (sys_trace s) <= failures (sys_pcs s) + 1)%nat
  /\ (failures (sys_pcs s) = 0%nat ->
      (exists i r, nth_error (sys_pcs s) i = Some (Done r)) ->
      List.length (sys_trace s) = 1%nat).
Proof.
  intros Hstale Hclose Hsteps.
  assert (Hinv : cache_inv ws g0 s).
  { remember (init_system (List.length ws) g0) as s0 eqn:Hs0.
    induction Hsteps as [s|s1 s2 s3 _ IH Hstep].
    - subst s. apply init_cache_inv.
    - exact (step_cache_inv ws g0 s2 s3 Hstale Hclose Hstep (IH Hs0)). }
  pose proof (steps_exclusive ws _ _ Hsteps (init_exclusive _ _)) as [Huniq Hfree].
  split; [exact Huniq|]. split; [exact Hfree|].
  destruct Hinv as [(Hg & Hnone & Hlen)|(w0 & out & tr & Hin & Hf0 & Hg & Hval & Hlen)].
  - split; [now left|]. split; [intros i v Hi; now destruct (Hnone i v)|].
    split; [intros i j v v' Hi; now destruct (Hnone i v)|].
    split; [lia|].
    intros Hzero (i & r & Hi). destruct r as [v|e].
    + now destruct (Hnone i v).
    + apply failures_positive in Hi. lia.
  - split; [right; now exists w0, out, tr|].
    split; [intros i v Hi; rewrite Hg, (Hval i v Hi); reflexivity|].
    split; [intros i j v v' Hi Hj; now rewrite (Hval i v Hi), (Hval j v' Hj)|].
    split; [lia|].
    intros Hzero _. lia.
Qed.

Lemma set_nth_twice {A} (l : list A) (i : nat) (x y : A) :
  set_nth (set_nth l i x) i y = set_nth l i y.
Proof.
  revert i. induction l as [|z l IH]; intros i; destruct i; simpl; try reflexivity.
  now rewrite IH.
Qed.

(** One caller running alone from the clock to the end of the body. *)
Lemma caller_runs (callers : list env) (pcs : list pc) (g g' : globals)
    (trace tr : list request) (i : nat) (w : env) (r : outcome pyval) :
  nth_error pcs i = Some Idle ->
  nth_error callers i = Some w ->
  get_vps_data w g = (r, g', tr) ->
  forall s0, steps callers s0 (mkSystem pcs g false trace) ->
  steps callers s0 (mkSystem (set_nth pcs i (Done r)) g' false (trace ++ tr)).
Proof.
  intros Hi Hw Hcall s0 H0.
  assert (Hset : forall p q, nth_error pcs i = Some p ->
                             nth_error (set_nth pcs i q) i = Some q).
  { intros p q Hp. rewrite nth_error_set_nth, Nat.eqb_refl, Hp. reflexivity. }
  pose proof (step_clock callers (mkSystem pcs g false trace) i Hi) as S1.
  cbn [sys_pcs sys_globals sys_lock sys_trace] in S1.
  pose proof (step_acquire callers
                (mkSystem (set_nth pcs i Waiting) g false trace) i
                (Hset _ Waiting Hi) eq_refl) as S2.
  cbn [sys_pcs sys_globals sys_lock sys_trace] in S2.
  rewrite set_nth_twice in S2.
  pose proof (step_body callers
                (mkSystem (set_nth pcs i Holding) g true trace) i w r g' tr
                (Hset _ Holding Hi) Hw Hcall) as S3.
  cbn [sys_pcs sys_globals sys_lock sys_trace] in S3.
  rewrite set_nth_twice in S3.
  eapply steps_step; [|exact S3].
  eapply steps_step; [|exact S2].
  eapply steps_step; [exact H0|exact S1].
Qed.

(** C9, as stated, fails when the upstream does: the failure of the first
    caller is not cached, the second caller makes a request of its own, and
    the two observe different errors. *)
Lemma failed_refresh_is_not_shared :
  exists s,
    steps failing_callers
      (init_system (List.length failing_callers) initial_globals) s
    /\ sys_pcs s
       = [Done (Raise (mkExn RuntimeError
            "Failed to fetch VPS data: API request failed: timed out"));
          Done (Raise (mkExn RuntimeError
            "Failed to fetch VPS data: API request failed: connection refused"))]
    /\ List.length (sys_trace s) = 2%nat.
Proof.
  set (e0 := mkExn RuntimeError
               "Failed to fetch VPS data: API request failed: timed out").
  set (e1 := mkExn RuntimeError
               "Failed to fetch VPS data: API request failed: connection refused").
  set (rq := (API_URL, post_flags_of config1)).
  exists (mkSystem [Done (Raise e0); Done (Raise e1)] initial_globals false
            (([] ++ [rq]) ++ [rq])).
  split; [|split; reflexivity].
  apply (caller_runs failing_callers [Done (Raise e0); Idle] initial_globals
           initial_globals _ _ 1
           (mkEnv 1001%float (Ok config1)
              (fun _ _ => Raise (mkExn RequestException "connection refused"))
              1001%float)
           (Raise e1) eq_refl eq_refl eq_refl).
  apply (caller_runs failing_callers [Idle; Idle] initial_globals
           initial_globals _ _ 0
           (mkEnv 1000%float (Ok config1)
              (fun _ _ => Raise (mkExn RequestException "timed out")) 1000%float)
           (Raise e0) eq_refl eq_refl eq_refl).
  apply steps_refl.
Qed.

Lemma concurrent_callers_witness :
  exists s,
    steps sample_callers
      (init_system (List.length sample_callers) initial_globals) s
    /\ (exists v, sys_pcs s = [Done (Ok v); Done (Ok v)])
    /\ List.length (sys_trace s) = 1%nat.
Proof.
  destruct (get_vps_data (env1 1000%float body1) initial_globals)
    as [[r0 g1] tr0] eqn:H0.
  assert (E0 : exists v, r0 = Ok v /\ g1 = mkGlobals (Some v) 1000%float)
    by (revert H0; vm_compute; intros H; inversion H; eauto).
  destruct E0 as (v & -> & ->).
  assert (H1 : get_vps_data (env1 1001%float body1) (mkGlobals (Some v) 1000%float)
               = (Ok v, mkGlobals (Some v) 1000%float, [])).
  { destruct (refresh_success (env1 1000%float body1) initial_globals _ _ _
                eq_refl H0) as [Hf _].
    destruct (fetch_snapshot _ _ _ Hf) as (h & ip & now & a & b & m & ->).
    apply get_vps_data_fresh; reflexivity. }
  assert (Hsteps : steps sample_callers
            (init_system (List.length sample_callers) initial_globals)
            (mkSystem [Done (Ok v); Done (Ok v)] (mkGlobals (Some v) 1000%float)
               false (([] ++ tr0) ++ []))).
  { apply (caller_runs sample_callers [Done (Ok v); Idle] _ _ _ _ 1 _ _
             eq_refl eq_refl H1).
    apply (caller_runs sample_callers [Idle; Idle] _ _ _ _ 0 _ _
             eq_refl eq_refl H0).
    apply steps_refl. }
  exists (mkSystem [Done (Ok v); Done (Ok v)] (mkGlobals (Some v) 1000%float)
            false (([] ++ tr0) ++ [])).
  split; [exact Hsteps|]. split; [now exists v|].
  assert (Hstale : forall w, In w sample_callers ->
                     cache_fresh initial_globals (env_time w) = false)
    by (intros w [<-|[<-|[]]]; reflexivity).
  assert (Hclose : forall w w', In w sample_callers -> In w' sample_callers ->
            PrimFloat.ltb (PrimFloat.sub (env_time w) (env_time w')) 60 = true)
    by (intros w w' [<-|[<-|[]]] [<-|[<-|[]]]; reflexivity).
  destruct (concurrent_callers sample_callers initial_globals _ Hstale Hclose Hsteps)
    as (_ & _ & _ & _ & _ & _ & Hone).
  apply Hone; [reflexivity|]. exists 0%nat, (Ok v). reflexivity.
Defined.

(* ===================================================================== *)
(** ** Exact scaling by powers of two *)

Lemma SFcompare_antisym (x y : spec_float) :
  SFcompare y x = option_map CompOpp (SFcompare x y).
Proof.
  destruct x as [sx|sx| |sx mx ex], y as [sy|sy| |sy my ey]; simpl;
    try reflexivity; try (destruct sx; reflexivity); try (destruct sy; reflexivity);
    try (destruct sx, sy; reflexivity).
  pose proof (Pos.compare_cont_antisym mx my Eq) as H. simpl in H.
  destruct sx, sy; simpl; try reflexivity;
    rewrite (Z.compare_antisym ex ey);
    destruct (Z.compare ex ey); simpl; try reflexivity;
    rewrite <- H; try reflexivity.
Qed.

Lemma SFleb_negb_SFltb (x y : spec_float) :
  not_nan x -> not_nan y -> SFleb x y = negb (SFltb y x).
Proof.
  intros Hx Hy. unfold SFleb, SFltb. rewrite (SFcompare_antisym x y).
  destruct (SFcompare x y) as [[]|] eqn:Hc; simpl; try reflexivity.
  exfalso. destruct x, y; simpl in Hc; try discriminate Hc;
    try (now apply Hx); try (now apply Hy).
Qed.

(* ===================================================================== *)
(** ** Division by a power of two keeps a float a number *)

Lemma signed_not_nan (s : bool) (x : spec_float) : signed s x -> not_nan x.
Proof. intros H ->. exact H. Qed.

Lemma SFdiv_core_binary_nonneg (m1 m2 : positive) (e1 e2 : Z) :
  (0 <= fst (fst (SFdiv_core_binary prec emax (Zpos m1) e1 (Zpos m2) e2)))%Z.
Proof.
  unfold SFdiv_core_binary.
  set (s := (e1 - e2 - _)%Z).
  set (m' := match s with Zpos _ => Z.shiftl (Zpos m1) s | Z0 => Zpos m1 | Zneg _ => 0%Z end).
  assert (Hm : (0 <= m')%Z).
  { unfold m'. destruct s; try lia. apply Z.shiftl_nonneg. lia. }
  pose proof (Z_div_mod m' (Zpos m2) eq_refl) as Hd.
  destruct (Z.div_eucl m' (Zpos m2)) as [q r]. cbn [fst].
  destruct Hd as [Heq Hr]. nia.
Qed.

Lemma SFdiv_finite_not_nan (x : spec_float) (my : positive) (ey : Z) :
  not_nan x -> not_nan (SFdiv prec emax x (S754_finite false my ey)).
Proof.
  intros Hx. destruct x as [sx|sx| |sx mx ex]; simpl; try discriminate.
  - now destruct Hx.
  - pose proof (SFdiv_core_binary_nonneg mx my ex ey) as Hq.
    destruct (SFdiv_core_binary prec emax (Zpos mx) ex (Zpos my) ey) as [[mz ez] lz].
    cbn [fst] in Hq.
    exact (signed_not_nan _ _ (binary_round_aux_signed _ mz ez lz Hq)).
Qed.

Lemma leb_0_not_nan (v : float) :
  PrimFloat.leb 0 v = true -> not_nan (Prim2SF v).
Proof.
  rewrite leb_spec. intros H Hn. rewrite Hn in H.
  replace (Prim2SF 0) with (S754_zero false) in H by reflexivity.
  discriminate H.
Qed.

Lemma Prim2SF_BYTES_TO_GB :
  Prim2SF (float_of_Z BYTES_TO_GB) = S754_finite false 4503599627370496 (-22).
Proof. vm_compute. reflexivity. Qed.

(** For a byte count that is not negative, the unit is GB exactly when the
    value in GB is below 1000. *)
Lemma convert_unit_GB_iff (v : float) :
  PrimFloat.leb 0 v = true ->
  (snd (convert_bytes_to_readable v) = "GB"%string
   <-> PrimFloat.ltb (PrimFloat.div v (float_of_Z BYTES_TO_GB)) 1000 = true).
Proof.
  intros Hv. unfold convert_bytes_to_readable.
  set (gb := PrimFloat.div v (float_of_Z BYTES_TO_GB)).
  assert (Hgb : not_nan (Prim2SF gb)).
  { unfold gb. rewrite div_spec, Prim2SF_BYTES_TO_GB.
    apply SFdiv_finite_not_nan. now apply leb_0_not_nan. }
  assert (Hle : PrimFloat.leb 1000 gb = negb (PrimFloat.ltb gb 1000)).
  { rewrite leb_spec, ltb_spec. apply SFleb_negb_SFltb; [|exact Hgb].
    intros H. vm_compute in H. discriminate H. }
  rewrite Hle. destruct (PrimFloat.ltb gb 1000); simpl; split; intros H;
    try reflexivity; discriminate H.
Qed.

Lemma bounded_canonical (m : positive) (e : Z) :
  bounded prec emax m e = true ->
  fexp prec emax (Zpos (digits2_pos m) + e) = e /\ (e <=? emax - prec)%Z = true.
Proof.
  unfold bounded, canonical_mantissa. intros H.
  apply andb_prop in H as [H1 H2]. apply Z.eqb_eq in H1. auto.
Qed.

(** Rounding a mantissa that carries [k] more zero bits than a canonical
    one, at an exponent [k] lower, gives back the canonical float. *)
Lemma binary_round_aux_exact (s : bool) (m m' : positive) (e : Z) (k : positive) :
  bounded prec emax m e = true ->
  Zpos (digits2_pos m') = (Zpos (digits2_pos m) + Zpos k)%Z ->
  iter_pos shr_1 k (Build_shr_record (Zpos m') false false)
  = Build_shr_record (Zpos m) false false ->
  binary_round_aux prec emax s (Zpos m') (e - Zpos k) loc_Exact = S754_finite s m e.
Proof.
  intros Hb Hdig Hiter. destruct (bounded_canonical m e Hb) as [Hcan Hmax].
  unfold binary_round_aux.
  assert (H1 : shr_fexp prec emax (Zpos m') (e - Zpos k) loc_Exact
               = (Build_shr_record (Zpos m) false false, e)).
  { unfold shr_fexp. cbn [Zdigits2 shr_record_of_loc]. rewrite Hdig.
    replace (Zpos (digits2_pos m) + Zpos k + (e - Zpos k))%Z
      with (Zpos (digits2_pos m) + e)%Z by lia.
    rewrite Hcan. replace (e - (e - Zpos k))%Z with (Zpos k) by lia.
    unfold shr. rewrite Hiter. f_equal. lia. }
  rewrite H1. cbn [shr_m loc_of_shr_record round_nearest_even].
  assert (H2 : shr_fexp prec emax (Zpos m) e loc_Exact
               = (Build_shr_record (Zpos m) false false, e)).
  { unfold shr_fexp. cbn [Zdigits2 shr_record_of_loc]. rewrite Hcan.
    rewrite Z.sub_diag. reflexivity. }
  rewrite H2. cbn [shr_m]. rewrite Hmax. reflexivity.
Qed.

Lemma digits2_pos_iter_xO (m : positive) (n : nat) :
  Zpos (digits2_pos (Nat.iter n xO m)) = (Zpos (digits2_pos m) + Z.of_nat n)%Z.
Proof.
  induction n as [|n IH]; [simpl; lia|].
  change (Nat.iter (S n) xO m) with (xO (Nat.iter n xO m)).
  cbn [digits2_pos]. lia.
Qed.

Lemma Prim2SF_1 : Prim2SF 1 = S754_finite false 4503599627370496 (-52).
Proof. vm_compute. reflexivity. Qed.

Lemma Prim2SF_1024 : Prim2SF 1024 = S754_finite false 4503599627370496 (-42).
Proof. vm_compute. reflexivity. Qed.

Lemma mul_2_52 (m : positive) :
  (m * 4503599627370496)%positive = Nat.iter 52 xO m.
Proof. rewrite Pos.mul_comm. reflexivity. Qed.

(** Multiplying a valid finite float by [2^52 * 2^d] adds [d + 52] to its
    exponent, when the result stays in range. *)
Lemma SFmul_pow2 (s : bool) (m : positive) (e d : Z) :
  bounded prec emax m (e + d + 52) = true ->
  SFmul prec emax (S754_finite s m e) (S754_finite false 4503599627370496 d)
  = S754_finite s m (e + d + 52).
Proof.
  intros Hb. cbn [SFmul]. rewrite xorb_false_r, mul_2_52.
  remember (e + d + 52)%Z as E eqn:HE.
  replace (e + d)%Z with (E - 52)%Z by lia.
  apply binary_round_aux_exact; [exact Hb| |reflexivity].
  rewrite (digits2_pos_iter_xO m 52). reflexivity.
Qed.

(** A valid float that is at least 1000 is positive, with a full mantissa
    and an exponent of at least -43, or is the positive infinity. *)
Lemma SFleb_1000 (x : spec_float) :
  valid_binary x = true ->
  SFleb (S754_finite false 8796093022208000 (-43)) x = true ->
  x = S754_infinity false
  \/ exists m e, x = S754_finite false m e /\ (-43 <= e)%Z
                 /\ Zpos (digits2_pos m) = 53%Z.
Proof.
  generalize 8796093022208000%positive. intros m0 Hv.
  unfold SFleb, SFcompare.
  destruct x as [s|s| |s m e]; try (destruct s; simpl; intros H; try discriminate H; auto; fail).
  - discriminate.
  - destruct s; [discriminate|]. intros H. right. exists m, e.
    assert (He : (-43 <= e)%Z).
    { destruct (Z.compare_spec (-43) e); try lia; discriminate H. }
    split; [reflexivity|]. split; [exact He|].
    simpl in Hv. apply bounded_canonical in Hv as [Hcan _].
    unfold fexp, SpecFloat.emin in Hcan. unfold prec, emax in Hcan. lia.
Qed.

Lemma SFdiv_core_1024 (m : positive) (e : Z) :
  Zpos (digits2_pos m) = 53%Z -> (-43 <= e)%Z ->
  SFdiv_core_binary prec emax (Zpos m) e 4503599627370496 (-42)
  = (Zpos (xO m), (e - 11)%Z, loc_Exact).
Proof.
  intros Hd He. unfold SFdiv_core_binary.
  cbn [Zdigits2]. rewrite Hd.
  replace (Zpos (digits2_pos 4503599627370496)) with 53%Z by reflexivity.
  assert (He' : Z.min (fexp prec emax (53 + e - (53 + -42))) (e - -42) = (e - 11)%Z).
  { unfold fexp, SpecFloat.emin, prec, emax. lia. }
  rewrite He'. replace (e - -42 - (e - 11))%Z with 53%Z by lia.
  rewrite Z.shiftl_mul_pow2 by lia.
  pose proof (Z_div_mod (Zpos m * 2 ^ 53) 4503599627370496 eq_refl) as Hdm.
  destruct (Z.div_eucl (Zpos m * 2 ^ 53) 4503599627370496) as [q r].
  destruct Hdm as [Heq Hr].
  change (2 ^ 53)%Z with 9007199254740992%Z in Heq.
  assert (Hq : q = Zpos (xO m)) by lia.
  assert (Hr0 : r = 0%Z) by lia.
  subst q r. reflexivity.
Qed.

Lemma SFdiv_1024 (m : positive) (e : Z) :
  bounded prec emax m e = true ->
  Zpos (digits2_pos m) = 53%Z -> (-43 <= e)%Z ->
  SFdiv prec emax (S754_finite false m e) (S754_finite false 4503599627370496 (-42))
  = S754_finite false m (e - 10).
Proof.
  intros Hb Hd He. cbn [SFdiv]. rewrite (SFdiv_core_1024 m e Hd He).
  cbn [xorb]. replace (e - 11)%Z with (e - 10 - 1)%Z by lia.
  apply binary_round_aux_exact.
  - apply bounded_canonical in Hb as [Hcan Hmax].
    unfold bounded, canonical_mantissa. rewrite Hd in *.
    apply andb_true_intro. split.
    + apply Z.eqb_eq. unfold fexp, SpecFloat.emin, prec, emax in *. lia.
    + apply Z.leb_le. apply Z.leb_le in Hmax. lia.
  - cbn [digits2_pos]. lia.
  - reflexivity.
Qed.

(** Dividing a float that is at least 1000 by 1024 and multiplying the
    quotient by 1024 gives the float back. *)
Lemma div_mul_1024 (x : float) :
  PrimFloat.leb 1000 x = true ->
  PrimFloat.mul (PrimFloat.div x 1024) 1024 = x.
Proof.
  intros Hx. apply Prim2SF_inj.
  rewrite mul_spec, div_spec, Prim2SF_1024.
  rewrite leb_spec in Hx.
  replace (Prim2SF 1000) with (S754_finite false 8796093022208000 (-43)) in Hx
    by (vm_compute; reflexivity).
  pose proof (Prim2SF_valid x) as Hv.
  destruct (SFleb_1000 (Prim2SF x) Hv Hx) as [->|(m & e & Heq & He & Hd)];
    [reflexivity|].
  rewrite Heq in *. cbn [SpecFloat.valid_binary] in Hv.
  unfold SF64div, SF64mul. rewrite (SFdiv_1024 m e Hv Hd He).
  rewrite SFmul_pow2; [f_equal; lia|].
  replace (e - 10 + -42 + 52)%Z with e by lia. exact Hv.
Qed.

(** Multiplying by one changes no float. *)
Lemma mul_1 (x : float) : PrimFloat.mul x 1 = x.
Proof.
  apply Prim2SF_inj. rewrite mul_spec, Prim2SF_1.
  pose proof (Prim2SF_valid x) as Hv. unfold SF64mul.
  destruct (Prim2SF x) as [s|s| |s m e]; try (cbn; rewrite ?xorb_false_r; reflexivity).
  cbn [SpecFloat.valid_binary] in Hv.
  rewrite SFmul_pow2; [f_equal; lia|].
  replace (e + -52 + 52)%Z with e by lia. exact Hv.
Qed.

Lemma float_of_Z_1024 : float_of_Z 1024 = 1024%float.
Proof. vm_compute. reflexivity. Qed.

Lemma float_of_Z_1 : float_of_Z 1 = 1%float.
Proof. vm_compute. reflexivity. Qed.

(** Folding what [convert_bytes_to_readable] returns for a value with the
    unit it returns for that value gives the value in GB back, exactly:
    the entry [total] of the output is [total / 2^30]. *)
Lemma to_gb_own_unit (v : float) :
  to_gb (snd (convert_bytes_to_readable v)) (fst (convert_bytes_to_readable v))
  = PrimFloat.div v (float_of_Z BYTES_TO_GB).
Proof.
  unfold convert_bytes_to_readable, to_gb.
  set (gb := PrimFloat.div v (float_of_Z BYTES_TO_GB)).
  destruct (PrimFloat.leb 1000 gb) eqn:Hge; cbn [fst snd String.eqb Ascii.eqb Bool.eqb].
  - unfold GB_TO_TB. rewrite float_of_Z_1024. now apply div_mul_1024.
  - rewrite float_of_Z_1. apply mul_1.
Qed.

(* ===================================================================== *)
(** ** Folding back to GB *)

(** [used] and [free] are folded with the unit of [total], not their own:
    the entry holds [used / 2^30] when the two units agree. *)
Lemma to_gb_same_unit (total v : float) :
  snd (convert_bytes_to_readable v) = snd (convert_bytes_to_readable total) ->
  to_gb (snd (convert_bytes_to_readable total)) (fst (convert_bytes_to_readable v))
  = PrimFloat.div v (float_of_Z BYTES_TO_GB).
Proof. intros <-. apply to_gb_own_unit. Qed.

(** The entry of the output for a resource holds [total / 2^30] as its
    total. *)
Lemma output_record_total (total used free per : float) :
  getitem (output_record total used free per) "total"
  = Ok (PFloat (PrimFloat.div total (float_of_Z BYTES_TO_GB))).
Proof.
  unfold output_record. cbn [getitem dict_get String.eqb Ascii.eqb Bool.eqb].
  now rewrite to_gb_own_unit.
Qed.

(** C6 (what the code does). The sample body reports a bandwidth of
    2 TiB in all, of which 1 GiB is used.  [convert_bytes_to_readable]
    gives the total as 2 TB and the used amount as 1 GB, as the claim has
    it; but [get_vps_data] multiplies the used amount by 1024 because the
    total is in TB, and the snapshot holds 1024 GB used where
    [used / 2^30] is 1. *)
Theorem used_folded_with_unit_of_total :
  convert_bytes_to_readable 2199023255552 = (2%float, "TB")
  /\ convert_bytes_to_readable 1073741824 = (1%float, "GB")
  /\ PrimFloat.div 1073741824 (float_of_Z BYTES_TO_GB) = 1%float
  /\ exists out g tr bandwidth,
       get_vps_data (env1 1000.5%float body1) initial_globals = (Ok out, g, tr)
       /\ getitem out "bandwidth" = Ok bandwidth
       /\ getitem bandwidth "total" = Ok (PFloat 2048)
       /\ getitem bandwidth "used" = Ok (PFloat 1024).
Proof.
  split; [vm_compute; reflexivity|].
  split; [vm_compute; reflexivity|].
  split; [vm_compute; reflexivity|].
  destruct (get_vps_data (env1 1000.5%float body1) initial_globals)
    as [[r g] tr] eqn:H.
  assert (Hr : exists out bandwidth, r = Ok out
                 /\ getitem out "bandwidth" = Ok bandwidth
                 /\ getitem bandwidth "total" = Ok (PFloat 2048)
                 /\ getitem bandwidth "used" = Ok (PFloat 1024)).
  { revert H. vm_compute. intros H. inversion H. eauto 10. }
  destruct Hr as (out & bandwidth & -> & H1 & H2 & H3).
  exists out, g, tr, bandwidth. auto.
Qed.

(* ===================================================================== *)
(** ** The percentage *)

Lemma eqb_refl_not_nan (v : float) :
  PrimFloat.eqb v v = true -> not_nan (Prim2SF v).
Proof.
  rewrite eqb_spec. intros H Hn. rewrite Hn in H. discriminate H.
Qed.

Lemma SFcompare_refl (x : spec_float) : not_nan x -> SFcompare x x = Some Eq.
Proof.
  destruct x as [s|s| |s m e]; intros H; simpl.
  - reflexivity.
  - now destruct s.
  - now elim H.
  - rewrite Z.compare_refl, Pos.compare_cont_refl. now destruct s.
Qed.

Lemma not_nan_eqb_refl (v : float) :
  not_nan (Prim2SF v) -> PrimFloat.eqb v v = true.
Proof.
  intros H. rewrite eqb_spec. unfold SFeqb. now rewrite SFcompare_refl.
Qed.

Lemma SFmul_finite_not_nan (x : spec_float) (s : bool) (m : positive) (e : Z) :
  not_nan x -> not_nan (SFmul prec emax x (S754_finite s m e)).
Proof.
  destruct x as [sx|sx| |sx mx ex]; intros H; simpl; try discriminate.
  - now elim H.
  - apply (signed_not_nan (xorb sx s)). apply binary_round_aux_signed. lia.
Qed.

Lemma ltb_0_positive (x : float) :
  PrimFloat.ltb 0 x = true ->
  Prim2SF x = S754_infinity false
  \/ exists m e, Prim2SF x = S754_finite false m e.
Proof.
  rewrite ltb_spec. replace (Prim2SF 0) with (S754_zero false) by reflexivity.
  destruct (Prim2SF x) as [s|s| |s m e]; try destruct s; simpl;
    intros H; try discriminate H; eauto.
Qed.

(** A number divided by a total above zero is a number, unless both are
    infinite. *)
Lemma div_positive_not_nan (used total : float) :
  PrimFloat.ltb 0 total = true ->
  PrimFloat.eqb used used = true ->
  finite_float total || finite_float used = true ->
  not_nan (Prim2SF (PrimFloat.div used total)).
Proof.
  intros Hpos Hu Hfin. apply eqb_refl_not_nan in Hu. rewrite div_spec.
  destruct (ltb_0_positive total Hpos) as [Hinf|(m & e & Hfinite)].
  - unfold finite_float in Hfin. rewrite Hinf in *. cbn [orb] in Hfin.
    destruct (Prim2SF used) as [s|s| |s mu eu]; try discriminate Hfin;
      simpl; discriminate.
  - rewrite Hfinite. now apply SFdiv_finite_not_nan.
Qed.

(** C5 (amended). Let the three fields of a resource parse, to [total],
    [used] and [free].  When [total] is above zero, [process_resource_data]
    returns a record whose percentage is the binary64 value of
    [used / total * 100]; that value is a number (it equals itself)
    whenever [used] is a number and [total] and [used] are not both
    infinite.  When [total] and [used] are both zero, it returns a record
    whose percentage is [0.0].  (When [total] and [used] both overflow to
    infinity the percentage is NaN.) *)
Theorem usage_percent_spec (data : pyval) (total used free : float) :
  field data "total" = Ok total ->
  field data "used" = Ok used ->
  field data "free" = Ok free ->
  (PrimFloat.ltb 0 total = true ->
   exists r, process_resource_data data = Ok r
             /\ getitem r "per"
                = Ok (PFloat (PrimFloat.mul (PrimFloat.div used total) 100))
             /\ (PrimFloat.eqb used used = true ->
                 finite_float total || finite_float used = true ->
                 PrimFloat.eqb (PrimFloat.mul (PrimFloat.div used total) 100)
                   (PrimFloat.mul (PrimFloat.div used total) 100) = true))
  /\ (PrimFloat.eqb total 0 = true -> PrimFloat.eqb used 0 = true ->
      exists r, process_resource_data data = Ok r
                /\ getitem r "per" = Ok (PFloat 0)).
Proof.
  intros Ht Hu Hf. rewrite process_resource_data_eq, Hu, Ht, Hf.
  cbn [bind]. unfold usage_of, py_div. split.
  - intros Hpos. rewrite (ltb_0_not_eqb_0 total Hpos).
    rewrite orb_true_r. cbn [bind negb].
    eexists. split; [reflexivity|]. split; [reflexivity|].
    intros Hnum Hfin. apply not_nan_eqb_refl. rewrite mul_spec.
    replace (Prim2SF 100) with (S754_finite false 7036874417766400 (-46))
      by (vm_compute; reflexivity).
    apply SFmul_finite_not_nan. now apply div_positive_not_nan.
  - intros Ht0 Hu0. rewrite Ht0, Hu0. cbn [bind negb orb].
    eexists. split; reflexivity.
Qed.

Lemma usage_percent_spec_witness :
  exists r,
    process_resource_data
      (PDict [("total", PStr "1073741824"); ("used", PStr "536870912");
              ("free", PStr "536870912"); ("per", PStr "50")]) = Ok r
    /\ getitem r "per" = Ok (PFloat 50)
    /\ PrimFloat.eqb 50 50 = true.
Proof.
  destruct (proj1 (usage_percent_spec
    (PDict [("total", PStr "1073741824"); ("used", PStr "536870912");
            ("free", PStr "536870912"); ("per", PStr "50")])
    1073741824%float 536870912%float 536870912%float
    eq_refl eq_refl eq_refl) eq_refl) as (r & Hr & Hper & Hnum).
  exists r. split; [exact Hr|]. split; [exact Hper|].
  exact (Hnum eq_refl eq_refl).
Defined.

(** C5, as stated, fails for a total above zero that overflows together
    with the used amount: two runs of 400 digits parse to infinity, the
    total is above zero, and the percentage of the record is NaN, which
    equals no number within any tolerance. *)
Lemma usage_of_two_overflows_is_nan :
  exists total used r p,
    field overflowing_data "total" = Ok total
    /\ field overflowing_data "used" = Ok used
    /\ PrimFloat.ltb 0 total = true
    /\ process_resource_data overflowing_data = Ok r
    /\ getitem r "per" = Ok (PFloat p)
    /\ PrimFloat.eqb p p = false.
Proof.
  exists infinity, infinity.
  destruct (process_resource_data overflowing_data) as [r|e] eqn:Hr.
  - exists r. vm_compute in Hr. inversion Hr. exists nan.
    repeat split; vm_compute; reflexivity.
  - vm_compute in Hr. discriminate Hr.
Qed.

(* ===================================================================== *)
(** * Further properties *)

(* ===================================================================== *)
(** ** Loading the configuration *)

Lemma getenv_or_set (os : os_env) (name v : string) (alt : outcome string) :
  os_getenv os name = Some v -> v <> "" -> getenv_or os name alt = Ok v.
Proof.
  intros Hv Hne. unfold getenv_or. rewrite Hv.
  destruct (String.eqb_spec v ""); [contradiction | reflexivity].
Qed.

Lemma getenv_or_unset (os : os_env) (name : string) (alt : outcome string) :
  os_getenv os name = None \/ os_getenv os name = Some "" ->
  getenv_or os name alt = alt.
Proof. unfold getenv_or. intros [-> | ->]; reflexivity. Qed.

Lemma list_get_some (lines : list string) (i : nat) (l : string) :
  nth_error lines i = Some l -> list_get lines i = Ok l.
Proof. unfold list_get. intros ->. reflexivity. Qed.

Lemma list_get_short (lines : list string) (i : nat) :
  (List.length lines <= i)%nat ->
  list_get lines i = Raise (mkExn IndexError "list index out of range").
Proof.
  intros H. unfold list_get.
  apply nth_error_None in H. rewrite H. reflexivity.
Qed.

Lemma load_config_in_eq (os : os_env) :
  load_config_in os
  = match read_config os with
    | Ok c => Ok c
    | Raise e => Raise (config_error e)
    end.
Proof.
  unfold load_config_in, load_config, try_except. simpl.
  destruct (read_config os); reflexivity.
Qed.

(** X1. With [RACKNERD_KEY] and [RACKNERD_HASH] both set to non-empty
    values, the configuration takes the two credentials from the variables
    as they are, and [tokens.txt] is not read: whatever reading it would
    give, the result is the same.  [settings.txt] gives the two other
    fields: the flag is true exactly when the first line, stripped, is the
    text [True], and the interval is the integer of the second line. *)
Theorem config_from_variables (os : os_env) (k h text l0 l1 : string) (n : Z) :
  os_getenv os "RACKNERD_KEY" = Some k -> k <> "" ->
  os_getenv os "RACKNERD_HASH" = Some h -> h <> "" ->
  os_read_text os "settings.txt" = Ok text ->
  nth_error (splitlines text) 0 = Some l0 ->
  nth_error (splitlines text) 1 = Some l1 ->
  (String.length (strip l1) <= int_max_str_digits)%nat ->
  int_of_str (strip l1) = Ok n ->
  load_config_in os = Ok (mkServerConfig k h (String.eqb (strip l0) "True") n).
Proof.
  intros Hk Hkne Hh Hhne Htext Hl0 Hl1 _ Hn.
  rewrite load_config_in_eq. unfold read_config.
  rewrite (getenv_or_set _ _ _ _ Hk Hkne), (getenv_or_set _ _ _ _ Hh Hhne).
  cbn [bind]. rewrite Htext. cbn [bind].
  rewrite (list_get_some _ _ _ Hl0), (list_get_some _ _ _ Hl1). cbn [bind].
  rewrite Hn. reflexivity.
Qed.

Lemma config_from_variables_witness :
  load_config_in
    (sample_os (Some "k1") (Some "h1") (Raise undecodable)
       (Ok ("true" ++ newline ++ " 15 " ++ newline)))
  = Ok (mkServerConfig "k1" "h1" false 15).
Proof.
  apply (config_from_variables _ "k1" "h1" ("true" ++ newline ++ " 15 " ++ newline)
           "true" " 15 " 15); try reflexivity; try discriminate.
  vm_compute. lia.
Defined.

Lemma getenv_or_credential (os : os_env) (name : string) (i : nat) (v : string) :
  credential os name i v -> getenv_or os name (token_line os i) = Ok v.
Proof.
  intros [[Hset Hne] | [Hunset (tokens & l & Htok & Hl & ->)]].
  - now apply getenv_or_set.
  - rewrite (getenv_or_unset _ _ _ Hunset). unfold token_line.
    rewrite Htok. cbn [bind]. now rewrite (list_get_some _ _ _ Hl).
Qed.

(** X2. Each credential is looked up on its own: a variable that is set
    and not empty gives its value, and a variable that is unset or empty
    falls back to [tokens.txt], the key to its first line and the hash to
    its second, stripped of the blanks around it; whether the other
    variable is set makes no difference. *)
Theorem config_from_tokens_file (os : os_env) (k h text l0 l1 : string) (n : Z) :
  credential os "RACKNERD_KEY" 0 k ->
  credential os "RACKNERD_HASH" 1 h ->
  os_read_text os "settings.txt" = Ok text ->
  nth_error (splitlines text) 0 = Some l0 ->
  nth_error (splitlines text) 1 = Some l1 ->
  (String.length (strip l1) <= int_max_str_digits)%nat ->
  int_of_str (strip l1) = Ok n ->
  load_config_in os = Ok (mkServerConfig k h (String.eqb (strip l0) "True") n).
Proof.
  intros Hk Hh Htext Hl0 Hl1 _ Hn.
  rewrite load_config_in_eq. unfold read_config.
  rewrite (getenv_or_credential _ _ _ _ Hk), (getenv_or_credential _ _ _ _ Hh).
  cbn [bind]. rewrite Htext. cbn [bind].
  rewrite (list_get_some _ _ _ Hl0), (list_get_some _ _ _ Hl1). cbn [bind].
  rewrite Hn. reflexivity.
Qed.

Lemma config_from_tokens_file_witness :
  load_config_in
    (sample_os (Some "k1") (Some "") (Ok (" key9 " ++ newline ++ " hash9" ++ newline))
       (Ok ("True" ++ newline ++ "5")))
  = Ok (mkServerConfig "k1" "hash9" true 5)
  /\ load_config_in
       (sample_os None (Some "h1") (Ok (" key9 " ++ newline ++ " hash9" ++ newline))
          (Ok ("True" ++ newline ++ "5")))
     = Ok (mkServerConfig "key9" "h1" true 5)
  /\ load_config_in
       (sample_os None None (Ok (" key9 " ++ newline ++ " hash9" ++ newline))
          (Ok ("True" ++ newline ++ "5")))
     = Ok (mkServerConfig "key9" "hash9" true 5).
Proof.
  split; [|split].
  - apply (config_from_tokens_file _ "k1" "hash9" ("True" ++ newline ++ "5")
             "True" "5" 5); try reflexivity.
    + left. split; [reflexivity | discriminate].
    + right. split; [right; reflexivity|].
      exists (" key9 " ++ newline ++ " hash9" ++ newline), " hash9".
      repeat split; reflexivity.
    + vm_compute. lia.
  - apply (config_from_tokens_file _ "key9" "h1" ("True" ++ newline ++ "5")
             "True" "5" 5); try reflexivity.
    + right. split; [left; reflexivity|].
      exists (" key9 " ++ newline ++ " hash9" ++ newline), " key9 ".
      repeat split; reflexivity.
    + left. split; [reflexivity | discriminate].
    + vm_compute. lia.
  - apply (config_from_tokens_file _ "key9" "hash9" ("True" ++ newline ++ "5")
             "True" "5" 5); try reflexivity.
    + right. split; [left; reflexivity|].
      exists (" key9 " ++ newline ++ " hash9" ++ newline), " key9 ".
      repeat split; reflexivity.
    + right. split; [left; reflexivity|].
      exists (" key9 " ++ newline ++ " hash9" ++ newline), " hash9".
      repeat split; reflexivity.
    + vm_compute. lia.
Defined.

(** X3. When [RACKNERD_HASH] is unset or empty and [tokens.txt] has fewer
    than two lines, [load_config] raises a [RuntimeError] that reports the
    index error, whether or not the key is set. *)
Theorem short_tokens_file (os : os_env) (tokens : string) :
  os_getenv os "RACKNERD_HASH" = None \/ os_getenv os "RACKNERD_HASH" = Some "" ->
  os_read_text os "tokens.txt" = Ok tokens ->
  (List.length (splitlines tokens) < 2)%nat ->
  load_config_in os
  = Raise (mkExn RuntimeError "Failed to load configuration: list index out of range").
Proof.
  intros Hh Htok Hlen.
  rewrite load_config_in_eq. unfold read_config.
  rewrite (getenv_or_unset _ "RACKNERD_HASH" _ Hh).
  assert (H1 : token_line os 1 = Raise (mkExn IndexError "list index out of range")).
  { unfold token_line. rewrite Htok. cbn [bind].
    rewrite list_get_short by lia. reflexivity. }
  rewrite H1.
  destruct (getenv_or os "RACKNERD_KEY" (token_line os 0)) as [k|e] eqn:Hk.
  - reflexivity.
  - cbn [bind]. unfold getenv_or in Hk.
    assert (H0 : token_line os 0 = Raise e).
    { destruct (os_getenv os "RACKNERD_KEY") as [v|]; [|exact Hk].
      destruct (String.eqb v ""); [exact Hk | discriminate]. }
    unfold token_line in H0. rewrite Htok in H0. cbn [bind] in H0.
    unfold list_get in H0.
    destruct (nth_error (splitlines tokens) 0); cbn [bind] in H0; [discriminate|].
    injection H0 as <-. reflexivity.
Qed.

Lemma short_tokens_file_witness :
  load_config_in
    (sample_os (Some "k1") None (Ok ("key9" ++ newline))
       (Ok ("True" ++ newline ++ "5")))
  = Raise (mkExn RuntimeError "Failed to load configuration: list index out of range").
Proof.
  apply (short_tokens_file _ ("key9" ++ newline)); [left; reflexivity | reflexivity | ].
  vm_compute. lia.
Defined.

(** X4. [settings.txt] is needed by every refresh, although no value of it
    is used by the fetch: when it cannot be read, [load_config] raises,
    and a call of [get_vps_data] that has to refresh raises the wrapped
    error without any upstream request and leaves the globals as they
    were.  With both credentials at hand the error reported is that of the
    file. *)
Theorem settings_always_needed (os : os_env) (e : exn) (t t' : float)
    (post : string -> dict -> outcome string) (g : globals) :
  os_read_text os "settings.txt" = Raise e ->
  cache_fresh g t = false ->
  exists e',
    load_config_in os = Raise (config_error e')
    /\ get_vps_data (env_of os t post t') g
       = (Raise (fetch_error (config_error e')), g, [])
    /\ (forall k h, getenv_or os "RACKNERD_KEY" (token_line os 0) = Ok k ->
          getenv_or os "RACKNERD_HASH" (token_line os 1) = Ok h -> e' = e).
Proof.
  intros Hs Hstale.
  assert (Hread : exists e', read_config os = Raise e'
            /\ (forall k h, getenv_or os "RACKNERD_KEY" (token_line os 0) = Ok k ->
                  getenv_or os "RACKNERD_HASH" (token_line os 1) = Ok h -> e' = e)).
  { unfold read_config. rewrite Hs.
    destruct (getenv_or os "RACKNERD_KEY" _) as [k|e1]; cbn [bind].
    - destruct (getenv_or os "RACKNERD_HASH" _) as [h|e2]; cbn [bind].
      + exists e. auto.
      + exists e2. split; [reflexivity | discriminate].
    - exists e1. split; [reflexivity | discriminate]. }
  destruct Hread as (e' & Hread & Hsame). exists e'. repeat split.
  - rewrite load_config_in_eq, Hread. reflexivity.
  - apply failed_refresh_keeps_cache_aux; [exact Hstale|].
    now apply fetch_config_raise.
  - exact Hsame.
Qed.

Lemma settings_always_needed_witness :
  exists e',
    load_config_in (sample_os (Some "k1") (Some "h1") (Ok "") (Raise undecodable))
    = Raise (config_error e')
    /\ get_vps_data
         (env_of (sample_os (Some "k1") (Some "h1") (Ok "") (Raise undecodable))
            1000.5%float (fun _ _ => Ok body1) 1000.5%float)
         initial_globals
       = (Raise (fetch_error (config_error e')), initial_globals, [])
    /\ (forall k h,
          getenv_or (sample_os (Some "k1") (Some "h1") (Ok "") (Raise undecodable))
            "RACKNERD_KEY"
            (token_line (sample_os (Some "k1") (Some "h1") (Ok "") (Raise undecodable)) 0)
          = Ok k ->
          getenv_or (sample_os (Some "k1") (Some "h1") (Ok "") (Raise undecodable))
            "RACKNERD_HASH"
            (token_line (sample_os (Some "k1") (Some "h1") (Ok "") (Raise undecodable)) 1)
          = Ok h ->
          e' = undecodable).
Proof.
  apply (settings_always_needed
           (sample_os (Some "k1") (Some "h1") (Ok "") (Raise undecodable))
           undecodable 1000.5%float 1000.5%float (fun _ _ => Ok body1) initial_globals);
    reflexivity.
Defined.

(** X5. [settings.txt] has to hold two lines, the second an integer: with
    fewer lines [load_config] reports the index error, and with a second
    line of ASCII text that [int] refuses it reports the error of [int],
    which quotes the line as [repr] prints it; in both cases no
    configuration is returned, though the credentials are at hand. *)
Theorem settings_need_an_interval (os : os_env) (k h text : string) :
  getenv_or os "RACKNERD_KEY" (token_line os 0) = Ok k ->
  getenv_or os "RACKNERD_HASH" (token_line os 1) = Ok h ->
  os_read_text os "settings.txt" = Ok text ->
  ((List.length (splitlines text) < 2)%nat ->
   load_config_in os
   = Raise (mkExn RuntimeError "Failed to load configuration: list index out of range"))
  /\ (forall l1 e, nth_error (splitlines text) 1 = Some l1 ->
        ascii_text (strip l1) = true ->
        (String.length (strip l1) <= int_max_str_digits)%nat ->
        int_of_str (strip l1) = Raise e ->
        load_config_in os = Raise (config_error e)).
Proof.
  intros Hk Hh Htext. rewrite load_config_in_eq. unfold read_config.
  rewrite Hk, Hh, Htext. cbn [bind]. split.
  - intros Hlen. unfold list_get.
    destruct (nth_error (splitlines text) 0) as [l0|] eqn:H0; cbn [bind];
      [|reflexivity].
    assert (H1 : nth_error (splitlines text) 1 = None)
      by (apply nth_error_None; lia).
    rewrite H1. reflexivity.
  - intros l1 e Hl1 _ _ He. unfold list_get. rewrite Hl1.
    destruct (nth_error (splitlines text) 0) as [l0|] eqn:H0; cbn [bind].
    + rewrite He. reflexivity.
    + apply nth_error_None in H0.
      assert (Hsome : nth_error (splitlines text) 1 <> None) by congruence.
      apply nth_error_Some in Hsome. lia.
Qed.

Lemma settings_need_an_interval_witness :
  load_config_in
    (sample_os (Some "k1") (Some "h1") (Ok "")
       (Ok ("True" ++ newline ++ "5'm\" ++ newline)))
  = Raise (mkExn RuntimeError
             ("Failed to load configuration: invalid literal for int() with base 10: "
              ++ String "034" ("5'm\\" ++ String "034" EmptyString))).
Proof.
  apply (proj2 (settings_need_an_interval
                  (sample_os (Some "k1") (Some "h1") (Ok "")
                     (Ok ("True" ++ newline ++ "5'm\" ++ newline)))
                  "k1" "h1" ("True" ++ newline ++ "5'm\" ++ newline)
                  eq_refl eq_refl eq_refl) "5'm\"
           (mkExn ValueError
              ("invalid literal for int() with base 10: "
               ++ String "034" ("5'm\\" ++ String "034" EmptyString))));
    try reflexivity.
  vm_compute. lia.
Defined.

(** X6. The flag and the interval of the configuration have no effect on
    [get_vps_data]: two configurations with the same key and hash give the
    same result, the same globals and the same request. *)
Theorem fetch_ignores_loop_settings (t t' : float)
    (post : string -> dict -> outcome string) (c c' : ServerConfig) (g : globals) :
  key c = key c' -> hash_value c = hash_value c' ->
  get_vps_data (mkEnv t (Ok c) post t') g = get_vps_data (mkEnv t (Ok c') post t') g.
Proof.
  intros Hk Hh.
  assert (Hflags : post_flags_of c = post_flags_of c')
    by (unfold post_flags_of; now rewrite Hk, Hh).
  unfold get_vps_data, refresh, fetch, load_config, api_response, assemble.
  cbn [env_time env_config env_post env_time_assembly try_except].
  rewrite Hflags. reflexivity.
Qed.

Lemma fetch_ignores_loop_settings_witness :
  get_vps_data (env1 1000.5%float body1) initial_globals
  = get_vps_data
      (mkEnv 1000.5%float (Ok (mkServerConfig "k" "h" true 90))
         (fun _ _ => Ok body1) 1000.5%float)
      initial_globals.
Proof.
  apply (fetch_ignores_loop_settings 1000.5%float 1000.5%float (fun _ _ => Ok body1)
           config1 (mkServerConfig "k" "h" true 90) initial_globals); reflexivity.
Defined.

(* ===================================================================== *)
(** ** Units *)

(** X7. For every byte count that is a number (negative and infinite
    ones included), [convert_bytes_to_readable] returns the value in GB
    with the unit GB when that value is below 1000, and otherwise the
    value in GB divided by 1024 with the unit TB. *)
Theorem unit_threshold (v : float) :
  PrimFloat.eqb v v = true ->
  let gb := PrimFloat.div v (float_of_Z BYTES_TO_GB) in
  (PrimFloat.ltb gb 1000 = true /\ convert_bytes_to_readable v = (gb, "GB"))
  \/ (PrimFloat.leb 1000 gb = true
      /\ convert_bytes_to_readable v = (PrimFloat.div gb 1024, "TB")).
Proof.
  intros Hv gb. unfold convert_bytes_to_readable. fold gb.
  assert (Hgb : not_nan (Prim2SF gb)).
  { unfold gb. rewrite div_spec, Prim2SF_BYTES_TO_GB.
    apply SFdiv_finite_not_nan. now apply eqb_refl_not_nan. }
  assert (Hle : PrimFloat.leb 1000 gb = negb (PrimFloat.ltb gb 1000)).
  { rewrite leb_spec, ltb_spec. apply SFleb_negb_SFltb; [|exact Hgb].
    intros H. vm_compute in H. discriminate H. }
  destruct (PrimFloat.leb 1000 gb) eqn:Hge.
  - right. split; [reflexivity|]. unfold GB_TO_TB. now rewrite float_of_Z_1024.
  - left. split; [|reflexivity]. now destruct (PrimFloat.ltb gb 1000).
Qed.

Lemma unit_threshold_witness :
  (PrimFloat.ltb (PrimFloat.div 1073741824000 (float_of_Z BYTES_TO_GB)) 1000 = true
   /\ convert_bytes_to_readable 1073741824000
      = (PrimFloat.div 1073741824000 (float_of_Z BYTES_TO_GB), "GB"))
  \/ (PrimFloat.leb 1000 (PrimFloat.div 1073741824000 (float_of_Z BYTES_TO_GB)) = true
      /\ convert_bytes_to_readable 1073741824000
         = (PrimFloat.div (PrimFloat.div 1073741824000 (float_of_Z BYTES_TO_GB)) 1024,
            "TB")).
Proof. apply (unit_threshold 1073741824000). reflexivity. Defined.

(** X8. Folding a display value back with its own unit loses nothing: for
    every float [v], the value [convert_bytes_to_readable] returns, times
    1024 when its unit is TB and times 1 otherwise, is exactly
    [v / 2^30]. *)
Theorem display_times_unit_is_exact (v : float) :
  PrimFloat.mul (fst (convert_bytes_to_readable v))
    (float_of_Z (if String.eqb (snd (convert_bytes_to_readable v)) "TB"
                 then 1024 else 1))
  = PrimFloat.div v (float_of_Z BYTES_TO_GB).
Proof. apply to_gb_own_unit. Qed.

(** X9. When the total of a resource is shown in TB and the amount used in
    GB, the entry of the output holds the amount used in GB times 1024. *)
Theorem mixed_units_scale_by_1024 (total used free per : float) :
  snd (convert_bytes_to_readable total) = "TB" ->
  snd (convert_bytes_to_readable used) = "GB" ->
  getitem (output_record total used free per) "used"
  = Ok (PFloat (PrimFloat.mul (PrimFloat.div used (float_of_Z BYTES_TO_GB)) 1024)).
Proof.
  intros Ht Hu. unfold output_record, to_gb. rewrite Ht.
  cbn [getitem dict_get String.eqb Ascii.eqb Bool.eqb].
  rewrite float_of_Z_1024. do 3 f_equal.
  revert Hu. unfold convert_bytes_to_readable.
  destruct (PrimFloat.leb 1000 (PrimFloat.div used (float_of_Z BYTES_TO_GB)));
    [discriminate | reflexivity].
Qed.

Lemma mixed_units_scale_by_1024_witness :
  getitem (output_record 2199023255552 1073741824 2197949513728 0) "used"
  = Ok (PFloat (PrimFloat.mul (PrimFloat.div 1073741824 (float_of_Z BYTES_TO_GB)) 1024)).
Proof.
  apply (mixed_units_scale_by_1024 2199023255552 1073741824 2197949513728 0);
    vm_compute; reflexivity.
Defined.

(* ===================================================================== *)
(** ** The resource processor, on *)

(** X10. A total of zero with a used amount that is not zero makes
    [process_resource_data] raise a [ZeroDivisionError]: no record is
    returned. *)
Theorem zero_total_raises (data : pyval) (total used : float) :
  field data "used" = Ok used ->
  field data "total" = Ok total ->
  PrimFloat.eqb total 0 = true ->
  PrimFloat.eqb used 0 = false ->
  exists e, process_resource_data data = Raise e
            /\ exn_type e = ZeroDivisionError.
Proof.
  intros Hu Ht Hz Hnz. rewrite process_resource_data_eq, Hu, Ht. cbn [bind].
  unfold usage_of, py_div. rewrite Hz, Hnz. cbn [negb orb bind]. eauto.
Qed.

Lemma zero_total_raises_witness :
  exists e,
    process_resource_data
      (PDict [("total", PStr "0"); ("used", PStr "5"); ("free", PStr "0");
              ("per", PStr "0")]) = Raise e
    /\ exn_type e = ZeroDivisionError.
Proof.
  apply (zero_total_raises _ 0 5); vm_compute; reflexivity.
Defined.

Lemma field_set_other (d : dict) (k k' : string) (v : pyval) :
  String.eqb k' k = false ->
  field (PDict (dict_set d k v)) k' = field (PDict d) k'.
Proof.
  intros H. unfold field, getitem. now rewrite dict_get_set, H.
Qed.

(** X11. The percentage the upstream reports is never read: whatever is
    stored under [per] in the data, [process_resource_data] returns or
    raises the same. *)
Theorem upstream_percentage_is_ignored (d : dict) (v : pyval) :
  process_resource_data (PDict (dict_set d "per" v)) = process_resource_data (PDict d).
Proof.
  rewrite !process_resource_data_eq.
  now rewrite !field_set_other by reflexivity.
Qed.

(* ===================================================================== *)
(** ** The blocks of a response *)

Lemma finditer_from_found (p : pattern) (s : string) (skip : nat) (m : match_obj) :
  In m (finditer_from p s skip) ->
  exists pre s', s = pre ++ s' /\ re_match p s' = Some m.
Proof.
  revert skip. induction s as [|c s IH]; intros skip; simpl; [tauto|].
  assert (Hnext : forall n, In m (finditer_from p s n) ->
            exists pre s', String c s = pre ++ s' /\ re_match p s' = Some m).
  { intros n Hin. destruct (IH n Hin) as (pre & s' & -> & Hm).
    exists (String c pre), s'. auto. }
  destruct skip as [|n]; [|apply Hnext].
  destruct (re_match p (String c s)) as [m'|] eqn:Hm; [|apply Hnext].
  intros [<-|Hin]; [|now apply Hnext in Hin].
  exists "", (String c s). auto.
Qed.

Lemma OUTER_PATTERN_match (s : string) (m : match_obj) :
  re_match OUTER_PATTERN s = Some m ->
  exists w c w' rest,
    s = group m ++ rest
    /\ group m = info_block w c w'
    /\ all_chars is_word w = true /\ all_chars is_dot c = true
    /\ all_chars is_word w' = true
    /\ type_of m = w /\ m_pattern m = OUTER_PATTERN.
Proof.
  intros H. apply re_match_sound in H as (rest & Hs & Hp & Hd).
  unfold OUTER_PATTERN in Hd. cbn [pat_re den] in Hd.
  destruct Hd as (c0 & Hd & Hc).
  destruct Hd as (u1 & v1 & c1 & E1 & [-> ->] & Hd).
  destruct Hd as (w & v2 & c2 & -> & (c2' & [Hw ->] & ->) & Hd).
  destruct Hd as (u3 & v3 & c3 & -> & [-> ->] & Hd).
  destruct Hd as (c & v4 & c4 & -> & [Hcc ->] & Hd).
  destruct Hd as (u5 & v5 & c5 & -> & [-> ->] & Hd).
  destruct Hd as (u6 & v6 & c6 & -> & [-> ->] & Hd).
  destruct Hd as (w' & v7 & c7 & -> & [Hw' ->] & [-> ->]).
  exists w, c, w', rest. split; [exact Hs|]. split.
  { rewrite E1. reflexivity. }
  repeat split; auto.
  unfold type_of. rewrite Hc. reflexivity.
Qed.

Lemma SIMPLE_PATTERN_match (block : string) (m : match_obj) :
  re_match SIMPLE_PATTERN block = Some m ->
  exists a s b rest,
    block = "<" ++ a ++ ">" ++ s ++ "</" ++ b ++ ">" ++ rest
    /\ all_chars is_dot a = true /\ all_chars is_dot s = true
    /\ all_chars is_dot b = true
    /\ groups m = [s].
Proof.
  intros H. apply re_match_sound in H as (rest & Hs & Hp & Hd).
  unfold SIMPLE_PATTERN in Hd. cbn [pat_re den] in Hd.
  destruct Hd as (u1 & v1 & c1 & E1 & [-> ->] & Hd).
  destruct Hd as (a & v2 & c2 & -> & [Ha ->] & Hd).
  destruct Hd as (u3 & v3 & c3 & -> & [-> ->] & Hd).
  destruct Hd as (s & v4 & c4 & -> & (c4' & [Hss ->] & ->) & Hd).
  destruct Hd as (u5 & v5 & c5 & -> & [-> ->] & Hd).
  destruct Hd as (u6 & v6 & c6 & -> & [-> ->] & Hd).
  destruct Hd as (b & v7 & c7 & -> & [Hb ->] & [-> Hc]).
  exists a, s, b, rest. repeat split; auto.
  - rewrite Hs, E1. cbn [append]. f_equal.
    repeat (rewrite ?append_assoc; cbn [append]). reflexivity.
  - unfold groups. rewrite Hp, Hc. reflexivity.
Qed.

Lemma info_block_den (a s b : string) :
  all_chars is_dot a = true -> all_chars is_dot s = true ->
  all_chars is_dot b = true ->
  den (pat_re SIMPLE_PATTERN) (info_block a s b) [] [(1%nat, s)].
Proof.
  intros Ha Hs Hb. unfold SIMPLE_PATTERN, info_block. cbn [pat_re den].
  exists "<", (a ++ ">" ++ s ++ "</" ++ b ++ ">"), []. repeat split.
  exists a, (">" ++ s ++ "</" ++ b ++ ">"), []. repeat split; [exact Ha|].
  exists ">", (s ++ "</" ++ b ++ ">"), []. repeat split.
  exists s, ("</" ++ b ++ ">"), [(1%nat, s)]. repeat split; [eexists; eauto|].
  exists "<", ("/" ++ b ++ ">"), [(1%nat, s)]. repeat split.
  exists "/", (b ++ ">"), [(1%nat, s)]. repeat split.
  exists b, ">", [(1%nat, s)]. repeat split. exact Hb.
Qed.

Lemma info_block_matches (a s b : string) :
  all_chars is_dot a = true -> all_chars is_dot s = true ->
  all_chars is_dot b = true ->
  exists sm, re_match SIMPLE_PATTERN (info_block a s b) = Some sm.
Proof.
  intros Ha Hs Hb.
  destruct (re_match SIMPLE_PATTERN (info_block a s b)) as [sm|] eqn:Hm; [eauto|].
  exfalso.
  refine (re_match_none _ _ (info_block a s b) "" _ Hm _ (info_block_den a s b Ha Hs Hb)).
  now rewrite append_nil_r.
Qed.

Lemma found_block (text : string) (m : match_obj) :
  In m (finditer OUTER_PATTERN text) ->
  exists pre post c w',
    text = pre ++ group m ++ post
    /\ group m = info_block (type_of m) c w'
    /\ all_chars is_word (type_of m) = true /\ all_chars is_dot c = true
    /\ all_chars is_word w' = true
    /\ m_pattern m = OUTER_PATTERN.
Proof.
  intros Hin. apply finditer_from_found in Hin as (pre & s' & -> & Hm).
  apply OUTER_PATTERN_match in Hm as (w & c & w' & rest & -> & Hg & Hw & Hc & Hw' & <- & Hp).
  exists pre, rest, c, w'. auto 10.
Qed.

(** X12. Every block [api_response] takes from the text is a piece of the
    text, of the form of an opening tag, a content and a closing tag: the
    type it is filed under is the name in the opening tag, made of word
    characters; the content holds no line feed; the closing tag holds any
    word, with no relation to the opening one.  This is stated for a text
    that is ASCII. *)
Theorem blocks_found_in_text (text : string) (m : match_obj) :
  ascii_text text = true ->
  In m (finditer OUTER_PATTERN text) ->
  exists pre post content closing,
    text = pre ++ group m ++ post
    /\ group m = "<" ++ type_of m ++ ">" ++ content ++ "</" ++ closing ++ ">"
    /\ tuple_get (groups m) 1 = Ok (type_of m)
    /\ all_chars is_word (type_of m) = true
    /\ all_chars is_dot content = true
    /\ all_chars is_word closing = true.
Proof.
  intros _ Hin.
  destruct (found_block text m Hin) as (pre & post & c & w' & Ht & Hg & Hw & Hc & Hw' & Hp).
  exists pre, post, c, w'. repeat split; auto.
  now apply groups_OUTER_PATTERN.
Qed.

Lemma finditer_body_two_hosts :
  finditer OUTER_PATTERN body_two_hosts
  = [old_host_match; address_match; new_host_match].
Proof. vm_compute. reflexivity. Qed.

Lemma blocks_found_in_text_witness :
  exists pre post content closing,
    body_two_hosts = pre ++ group address_match ++ post
    /\ group address_match
       = "<" ++ type_of address_match ++ ">" ++ content ++ "</" ++ closing ++ ">"
    /\ tuple_get (groups address_match) 1 = Ok (type_of address_match)
    /\ all_chars is_word (type_of address_match) = true
    /\ all_chars is_dot content = true
    /\ all_chars is_word closing = true.
Proof.
  apply (blocks_found_in_text body_two_hosts address_match).
  - reflexivity.
  - rewrite finditer_body_two_hosts. right. left. reflexivity.
Defined.

(** X13. A block tagged [hostname] or [ipaddress] never makes the loop
    of [api_response] raise: [SIMPLE_PATTERN] matches every block
    [OUTER_PATTERN] finds, and a string is stored under the tag. *)
Theorem info_block_never_fails (text : string) (m : match_obj) (d : dict) :
  In m (finditer OUTER_PATTERN text) ->
  str_in (type_of m) INFO_TYPES = true ->
  exists s, api_response_block m d = Ok (dict_set d (type_of m) (PStr s)).
Proof.
  intros Hin Hinfo.
  destruct (found_block text m Hin) as (pre & post & c & w' & _ & Hg & Hw & Hc & Hw' & Hp).
  unfold api_response_block. rewrite (groups_OUTER_PATTERN m Hp). cbn [bind].
  assert (Hres : str_in (type_of m) RESOURCE_TYPES = false).
  { apply str_in_INFO_TYPES in Hinfo as [-> | ->]; reflexivity. }
  rewrite Hres, Hinfo, Hg.
  destruct (info_block_matches (type_of m) c w') as (sm & Hsm); auto.
  { revert Hw. apply all_chars_weaken, is_word_is_dot. }
  { revert Hw'. apply all_chars_weaken, is_word_is_dot. }
  rewrite Hsm. cbn [on_match bind].
  apply SIMPLE_PATTERN_match in Hsm as (a & s & b & rest & _ & _ & _ & _ & ->).
  exists s. reflexivity.
Qed.

Lemma info_block_never_fails_witness :
  exists s,
    api_response_block address_match []
    = Ok (dict_set [] (type_of address_match) (PStr s)).
Proof.
  apply (info_block_never_fails body_two_hosts address_match []).
  - rewrite finditer_body_two_hosts. right. left. reflexivity.
  - reflexivity.
Defined.

Lemma not_free_of_app (c : ascii) (u w v : string) :
  free_of c u = true -> u <> w ++ String c v.
Proof.
  intros Hu ->. rewrite free_of_app in Hu. cbn in Hu.
  rewrite Ascii.eqb_refl in Hu. cbn in Hu. rewrite andb_false_r in Hu. discriminate Hu.
Qed.

Lemma info_block_shape (name v name' a s b rest : string) :
  free_of ">" name = true ->
  free_of "<" v = true -> free_of ">" v = true ->
  free_of "<" name' = true -> free_of ">" name' = true ->
  info_block name v name' = "<" ++ a ++ ">" ++ s ++ "</" ++ b ++ ">" ++ rest ->
  s = v.
Proof.
  intros Hn Hvl Hvg Hnl' Hng' Heq.
  unfold info_block in Heq. cbn [append] in Heq. inversion Heq as [Heq']. clear Heq.
  destruct (split_first ">" name _ a _ Hn Heq') as [[-> Hy]|(w & -> & Hx)].
  - assert (Hy' : v ++ String "<" ("/" ++ name' ++ ">")
                  = s ++ String "<" ("/" ++ b ++ ">" ++ rest))
      by (symmetry; exact Hy).
    destruct (split_first "<" v _ s _ Hvl Hy') as [[-> _]|(w & -> & Hz)];
      [reflexivity|].
    exfalso.
    cbn [append] in Hz. 
    destruct w as [|x w]; cbn [append] in Hz; inversion Hz as [[Hx Hz']].
    subst x.
    assert (Hfree : free_of "<" (name' ++ ">") = true).
    { rewrite free_of_app, Hnl'. reflexivity. }
    exact (not_free_of_app "<" _ w _ Hfree Hz').
  - exfalso.
    assert (Hfree : free_of ">" (v ++ "</" ++ name') = true).
    { rewrite free_of_app, Hvg. cbn [append free_of all_chars Ascii.eqb Bool.eqb negb andb].
      exact Hng'. }
    assert (Hx' : (v ++ "</" ++ name') ++ String ">" ""
                  = w ++ String ">" (s ++ "</" ++ b ++ ">" ++ rest)).
    { cbn [append] in Hx |- *. rewrite <- Hx.
      repeat (rewrite ?append_assoc; cbn [append]). reflexivity. }
    destruct (split_first ">" _ _ _ _ Hfree Hx') as [[_ Hy]|(w' & _ & Hy)].
    + destruct s; discriminate Hy.
    + destruct w'; discriminate Hy.
Qed.


Lemma info_block_dots (name v name' : string) :
  all_chars is_dot (info_block name v name') = true -> all_chars is_dot v = true.
Proof.
  unfold info_block. cbn [append all_chars]. rewrite !all_chars_app.
  intros H. apply andb_prop in H as [_ H]. apply andb_prop in H as [_ H].
  cbn [all_chars] in H. apply andb_prop in H as [_ H].
  rewrite all_chars_app in H. now apply andb_prop in H as [H _].
Qed.

(** X14. The value of a [hostname] or [ipaddress] block is stored as it
    stands between the two tags, blanks included, when it holds no angle
    bracket. *)
Theorem info_value_verbatim (text : string) (m : match_obj) (d : dict)
    (v closing : string) :
  In m (finditer OUTER_PATTERN text) ->
  str_in (type_of m) INFO_TYPES = true ->
  group m = "<" ++ type_of m ++ ">" ++ v ++ "</" ++ closing ++ ">" ->
  all_chars is_word closing = true ->
  free_of "<" v = true -> free_of ">" v = true ->
  api_response_block m d = Ok (dict_set d (type_of m) (PStr v)).
Proof.
  intros Hin Hinfo Hg Hcl Hvl Hvg.
  destruct (found_block text m Hin) as (pre & post & c & w' & _ & Hg' & Hw & Hc & Hw' & Hp).
  assert (Hdots : all_chars is_dot (group m) = true).
  { rewrite Hg'. unfold info_block. cbn [append]. cbn [all_chars].
    rewrite all_chars_app, (all_chars_weaken _ _ _ is_word_is_dot Hw).
    cbn [all_chars]. rewrite all_chars_app, Hc. cbn [all_chars].
    rewrite all_chars_app, (all_chars_weaken _ _ _ is_word_is_dot Hw').
    reflexivity. }
  fold (info_block (type_of m) v closing) in Hg. rewrite Hg in Hdots.
  apply info_block_dots in Hdots.
  unfold api_response_block. rewrite (groups_OUTER_PATTERN m Hp). cbn [bind].
  assert (Hres : str_in (type_of m) RESOURCE_TYPES = false).
  { apply str_in_INFO_TYPES in Hinfo as [-> | ->]; reflexivity. }
  rewrite Hres, Hinfo, Hg.
  destruct (info_block_matches (type_of m) v closing) as (sm & Hsm); auto.
  { revert Hw. apply all_chars_weaken, is_word_is_dot. }
  { revert Hcl. apply all_chars_weaken, is_word_is_dot. }
  rewrite Hsm. cbn [on_match bind].
  apply SIMPLE_PATTERN_match in Hsm as (a & s & b & rest & Heq & _ & _ & _ & ->).
  apply info_block_shape in Heq as ->; auto.
  - apply is_word_free_of; [reflexivity | exact Hw].
  - apply is_word_free_of; [reflexivity | exact Hcl].
  - apply is_word_free_of; [reflexivity | exact Hcl].
Qed.

Lemma info_value_verbatim_witness :
  api_response_block address_match []
  = Ok (dict_set [] (type_of address_match) (PStr "1.2.3.4")).
Proof.
  apply (info_value_verbatim body_two_hosts address_match [] "1.2.3.4" "ipaddress");
    try reflexivity.
  rewrite finditer_body_two_hosts. right. left. reflexivity.
Defined.


Lemma float_of_str_digits (s : string) :
  s <> "" -> all_chars is_digit s = true ->
  float_of_str s = Ok (float_of_group s).
Proof.
  intros Hne Hd. unfold float_of_str. destruct s as [|c s]; [contradiction|].
  now rewrite Hd.
Qed.

Lemma process_groupdict (g1 g2 g3 g4 : string) :
  g1 <> "" -> g2 <> "" -> g3 <> "" ->
  all_chars is_digit g1 = true -> all_chars is_digit g2 = true ->
  all_chars is_digit g3 = true ->
  process_resource_data
    (PDict [("total", PStr g1); ("used", PStr g2); ("free", PStr g3); ("per", PStr g4)])
  = (per <- usage_of (float_of_group g2) (float_of_group g1) ;;
     Ok (resource_record (float_of_group g1) (float_of_group g2)
           (float_of_group g3) per)).
Proof.
  intros N1 N2 N3 D1 D2 D3. rewrite process_resource_data_eq.
  unfold field. cbn [getitem dict_get String.eqb Ascii.eqb Bool.eqb bind py_float].
  rewrite (float_of_str_digits g2 N2 D2). cbn [bind].
  rewrite (float_of_str_digits g1 N1 D1). cbn [bind].
  destruct (usage_of (float_of_group g2) (float_of_group g1)) as [per|e];
    [|reflexivity].
  cbn [bind]. now rewrite (float_of_str_digits g3 N3 D3).
Qed.

Lemma digits_plain_group (g : string) :
  all_chars is_digit g = true -> plain_group g = true.
Proof.
  intros H. unfold plain_group.
  now rewrite !digits_free_of by (reflexivity || exact H).
Qed.

(** X15. A resource block whose content is four runs of digits between
    commas, the first three not empty, is read as three byte counts: the
    record stored under the tag holds the float of each of the first three
    runs as total, used and free, in that order, with the percentage
    computed from them; the fourth run and the name in the closing tag
    play no part.  The block raises only when the percentage does. *)
Theorem resource_block_parsed (text : string) (m : match_obj) (d : dict)
    (g1 g2 g3 g4 closing : string) :
  In m (finditer OUTER_PATTERN text) ->
  str_in (type_of m) RESOURCE_TYPES = true ->
  group m = block_of (type_of m) g1 g2 g3 g4 closing ->
  all_chars is_word closing = true ->
  g1 <> "" -> g2 <> "" -> g3 <> "" ->
  all_chars is_digit g1 = true -> all_chars is_digit g2 = true ->
  all_chars is_digit g3 = true -> all_chars is_digit g4 = true ->
  api_response_block m d
  = (per <- usage_of (float_of_group g2) (float_of_group g1) ;;
     Ok (dict_set d (type_of m)
           (resource_record (float_of_group g1) (float_of_group g2)
              (float_of_group g3) per))).
Proof.
  intros Hin Hres Hg Hcl N1 N2 N3 D1 D2 D3 D4.
  pose proof (finditer_pattern _ _ _ Hin) as Hp.
  assert (Hname : all_chars is_dot (type_of m) = true
                  /\ free_of ">" (type_of m) = true).
  { apply str_in_RESOURCE_TYPES in Hres as [-> | [-> | ->]]; split; reflexivity. }
  destruct Hname as [Hnd Hnf].
  assert (Hcd : all_chars is_dot closing = true)
    by (revert Hcl; apply all_chars_weaken, is_word_is_dot).
  assert (Hcf : free_of ">" closing = true)
    by (apply is_word_free_of; [reflexivity | exact Hcl]).
  assert (Hshape : inner_shape (group m) (type_of m) g1 g2 g3 g4 closing "").
  { unfold inner_shape. rewrite Hg. repeat split; auto. }
  assert (Hex : exists im, re_match INNER_PATTERN (group m) = Some im)
    by (apply INNER_PATTERN_matches_iff; eauto 10).
  destruct Hex as (im & Him).
  unfold api_response_block. rewrite (groups_OUTER_PATTERN m Hp). cbn [bind].
  rewrite Hres, Him. cbn [on_match bind].
  apply INNER_PATTERN_match in Him
    as (a & t & u & f & p & b & rest & Hshape' & ->).
  rewrite Hg in Hshape'.
  destruct (block_of_inner_shape _ _ _ _ _ _ _ _ _ _ _ _ _ Hnf Hcf
              (digits_plain_group _ D1) (digits_plain_group _ D2)
              (digits_plain_group _ D3) (digits_plain_group _ D4) Hshape')
    as (-> & -> & -> & ->).
  rewrite (process_groupdict g1 g2 g3 g4 N1 N2 N3 D1 D2 D3).
  destruct (usage_of (float_of_group g2) (float_of_group g1)); reflexivity.
Qed.



Lemma finditer_mismatched_block :
  finditer OUTER_PATTERN mismatched_block = [mismatched_match].
Proof. vm_compute. reflexivity. Qed.

Lemma resource_block_parsed_witness :
  api_response_block mismatched_match []
  = (per <- usage_of (float_of_group "1024") (float_of_group "2048") ;;
     Ok (dict_set [] "hdd"
           (resource_record (float_of_group "2048") (float_of_group "1024")
              (float_of_group "1024") per))).
Proof.
  apply (resource_block_parsed mismatched_block mismatched_match []
           "2048" "1024" "1024" "50" "bw");
    try reflexivity; try discriminate.
  rewrite finditer_mismatched_block. left. reflexivity.
Defined.

Lemma block_sets (m : match_obj) (d d' : dict) :
  m_pattern m = OUTER_PATTERN ->
  api_response_block m d = Ok d' ->
  (d' = d /\ str_in (type_of m) RESOURCE_TYPES = false
   /\ str_in (type_of m) INFO_TYPES = false)
  \/ (exists v, (str_in (type_of m) RESOURCE_TYPES = true
                 \/ str_in (type_of m) INFO_TYPES = true)
                /\ forall d0, api_response_block m d0 = Ok (dict_set d0 (type_of m) v)).
Proof.
  intros Hp. unfold api_response_block.
  rewrite (groups_OUTER_PATTERN m Hp). cbn [bind].
  destruct (str_in (type_of m) RESOURCE_TYPES) eqn:Hres.
  - intros H. right.
    apply bind_ok in H as (data & Hdata & H).
    apply bind_ok in H as (pd & Hpd & H).
    exists pd. split; [auto|]. intros d0. now rewrite Hdata; cbn [bind]; rewrite Hpd.
  - destruct (str_in (type_of m) INFO_TYPES) eqn:Hinfo.
    + intros H. right.
      apply bind_ok in H as (gs & Hgs & H).
      apply bind_ok in H as (s & Hs & H).
      exists (PStr s). split; [auto|]. intros d0.
      now rewrite Hgs; cbn [bind]; rewrite Hs.
    + intros H. inversion H. auto.
Qed.

Lemma block_keeps_other_keys (m : match_obj) (d d' : dict) (k : string) :
  m_pattern m = OUTER_PATTERN ->
  type_of m <> k ->
  api_response_block m d = Ok d' ->
  dict_get d' k = dict_get d k.
Proof.
  intros Hp Hk H.
  destruct (block_sets m d d' Hp H) as [(-> & _)|(v & _ & Hv)]; [reflexivity|].
  rewrite Hv in H. inversion H; subst. rewrite dict_get_set.
  destruct (String.eqb_spec k (type_of m)); [congruence | reflexivity].
Qed.

Lemma blocks_keep_other_keys (ms : list match_obj) (k : string) :
  (forall m, In m ms -> m_pattern m = OUTER_PATTERN /\ type_of m <> k) ->
  forall d d', for_in ms d api_response_block = Ok d' ->
  dict_get d' k = dict_get d k.
Proof.
  induction ms as [|m ms IH]; intros Hms d d' H; cbn [for_in] in H.
  - now inversion H.
  - apply bind_ok in H as (d1 & H1 & H).
    rewrite (IH (fun m' Hin => Hms m' (or_intror Hin)) _ _ H).
    destruct (Hms m (or_introl eq_refl)) as [Hp Hk].
    exact (block_keeps_other_keys m d d1 k Hp Hk H1).
Qed.

(** X16. When the text holds several blocks under one tag, the last one
    counts: the value the parsed response holds under the tag of a block
    that no later block repeats is the value that block gives on its own,
    whatever came before it. *)
Theorem last_block_wins (text : string) (ms1 ms2 : list match_obj) (m : match_obj)
    (d : dict) :
  finditer OUTER_PATTERN text = (ms1 ++ m :: ms2)%list ->
  str_in (type_of m) RESOURCE_TYPES = true \/ str_in (type_of m) INFO_TYPES = true ->
  (forall m', In m' ms2 -> type_of m' <> type_of m) ->
  parse_response text = Ok d ->
  exists v, dict_get d (type_of m) = Some v
            /\ forall d0, api_response_block m d0 = Ok (dict_set d0 (type_of m) v).
Proof.
  intros Hfind Hknown Hlater Hparse.
  assert (Hpat : forall m', In m' (ms1 ++ m :: ms2)%list -> m_pattern m' = OUTER_PATTERN).
  { intros m' Hin. rewrite <- Hfind in Hin. exact (finditer_pattern _ _ _ Hin). }
  unfold parse_response in Hparse. rewrite Hfind, for_in_app in Hparse.
  apply bind_ok in Hparse as (d1 & _ & Hparse). cbn [for_in] in Hparse.
  apply bind_ok in Hparse as (d2 & Hm & Hrest).
  assert (Hp : m_pattern m = OUTER_PATTERN)
    by (apply Hpat, in_or_app; right; left; reflexivity).
  destruct (block_sets m d1 d2 Hp Hm) as [(_ & Hr & Hi)|(v & _ & Hv)].
  - destruct Hknown; congruence.
  - exists v. split; [|exact Hv].
    rewrite (blocks_keep_other_keys ms2 (type_of m)) with (d := d2) (d' := d).
    + rewrite Hv in Hm. inversion Hm; subst. rewrite dict_get_set.
      now rewrite String.eqb_refl.
    + intros m' Hin. split; [|now apply Hlater].
      apply Hpat, in_or_app. right. right. exact Hin.
    + exact Hrest.
Qed.



Lemma parse_body_two_hosts :
  parse_response body_two_hosts
  = Ok [("hostname", PStr "new"); ("ipaddress", PStr "1.2.3.4")].
Proof. vm_compute. reflexivity. Qed.

Lemma last_block_wins_witness :
  exists v,
    dict_get [("hostname", PStr "new"); ("ipaddress", PStr "1.2.3.4")]
      (type_of new_host_match) = Some v
    /\ forall d0, api_response_block new_host_match d0
                  = Ok (dict_set d0 (type_of new_host_match) v).
Proof.
  apply (last_block_wins body_two_hosts [old_host_match; address_match] []
           new_host_match _ finditer_body_two_hosts).
  - right. reflexivity.
  - intros m' [].
  - exact parse_body_two_hosts.
Defined.

Lemma unknown_blocks_parse (ms : list match_obj) (d : dict) :
  (forall m, In m ms ->
     m_pattern m = OUTER_PATTERN
     /\ str_in (type_of m) RESOURCE_TYPES = false
     /\ str_in (type_of m) INFO_TYPES = false) ->
  for_in ms d api_response_block = Ok d.
Proof.
  induction ms as [|m ms IH]; intros Hms; cbn [for_in]; [reflexivity|].
  destruct (Hms m (or_introl eq_refl)) as (Hp & Hr & Hi).
  unfold api_response_block at 1. rewrite (groups_OUTER_PATTERN m Hp). cbn [bind].
  rewrite Hr, Hi. apply IH. intros m' Hin. apply Hms. now right.
Qed.

(** X17. A response of ASCII text in which no block carries one of the
    five tags (an empty body, a page of markup) makes a refreshing call raise
    [Failed to fetch VPS data: Empty response from the server], after its
    one request and with the globals untouched. *)
Theorem no_known_block_is_an_empty_response (w : env) (g : globals)
    (c : ServerConfig) (text : string) :
  cache_fresh g (env_time w) = false ->
  env_config w = Ok c ->
  env_post w API_URL (post_flags_of c) = Ok text ->
  ascii_text text = true ->
  (forall m, In m (finditer OUTER_PATTERN text) ->
     str_in (type_of m) RESOURCE_TYPES = false
     /\ str_in (type_of m) INFO_TYPES = false) ->
  get_vps_data w g
  = (Raise (mkExn RuntimeError
       "Failed to fetch VPS data: Empty response from the server"),
     g, [(API_URL, post_flags_of c)]).
Proof.
  intros Hstale Hc Hpost _ Hunknown.
  assert (Hparse : parse_response text = Ok []).
  { apply unknown_blocks_parse. intros m Hin.
    split; [exact (finditer_pattern _ _ _ Hin) | now apply Hunknown]. }
  rewrite (failed_refresh_keeps_cache_aux w g
             (mkExn RuntimeError "Empty response from the server")
             [(API_URL, post_flags_of c)] Hstale); [reflexivity|].
  now apply (fetch_assemble_raise w c text []).
Qed.


Lemma finditer_body_error_page :
  finditer OUTER_PATTERN body_error_page
  = [mkMatch OUTER_PATTERN "<html><b>Service unavailable</b>"
       [(1%nat, "<html><b>Service unavailable</b>"); (2%nat, "html")]].
Proof. vm_compute. reflexivity. Qed.

Lemma no_known_block_is_an_empty_response_witness :
  get_vps_data (env1 1000.5%float body_error_page) initial_globals
  = (Raise (mkExn RuntimeError
       "Failed to fetch VPS data: Empty response from the server"),
     initial_globals, [(API_URL, post_flags_of config1)]).
Proof.
  apply (no_known_block_is_an_empty_response (env1 1000.5%float body_error_page)
           initial_globals config1 body_error_page); try reflexivity.
  rewrite finditer_body_error_page. intros m [<- | []]. split; reflexivity.
Defined.



Lemma wf_info (d : dict) (k : string) (v : pyval) :
  response_wf d -> str_in k INFO_TYPES = true -> dict_get d k = Some v ->
  exists s, v = PStr s.
Proof. intros Hwf Hk Hv. destruct (Hwf _ _ Hv) as [_ H]. auto. Qed.

Lemma assemble_missing (w : env) (c : ServerConfig) (response : dict) (k : string) :
  response_wf response ->
  response <> [] ->
  is_ok (py_int (env_time_assembly w)) = true ->
  first_missing response = Some k ->
  assemble w (post_flags_of c) response = Raise (mkExn KeyError (key_repr k)).
Proof.
  intros Hwf Hne Hclock. unfold first_missing, required_keys, assemble.
  assert (Ht : negb (truthy (PDict response)) = false)
    by (destruct response; [contradiction | reflexivity]).
  rewrite Ht. cbn [find getitem].
  destruct (dict_get response "hostname") as [hv|] eqn:Hh;
    [|intros H; inversion H; reflexivity].
  destruct (dict_get response "ipaddress") as [iv|] eqn:Hi;
    [|intros H; inversion H; reflexivity].
  cbn [bind].
  destruct (py_int (env_time_assembly w)) as [now|e]; [|discriminate Hclock].
  cbn [bind]. unfold RESOURCE_TYPES. cbn [for_in].
  destruct (dict_get response "hdd") as [vh|] eqn:Hhdd.
  2:{ intros H; inversion H.
      now rewrite (add_resource_missing c response _ "hdd" eq_refl Hhdd). }
  destruct (wf_resource response "hdd" vh Hwf eq_refl Hhdd) as (sh & ->).
  rewrite (add_resource_record c response _ "hdd" _ _ _ _ eq_refl Hhdd). cbn [bind].
  destruct (dict_get response "bw") as [vb|] eqn:Hbw.
  2:{ intros H; inversion H.
      now rewrite (add_resource_missing c response _ "bw" eq_refl Hbw). }
  destruct (wf_resource response "bw" vb Hwf eq_refl Hbw) as (sb & ->).
  rewrite (add_resource_record c response _ "bw" _ _ _ _ eq_refl Hbw). cbn [bind].
  destruct (dict_get response "mem") as [vm|] eqn:Hmem; [discriminate|].
  intros H; inversion H.
  now rewrite (add_resource_missing c response _ "mem" eq_refl Hmem).
Qed.

(** X18. A response of ASCII text that holds some of the five tags but
    not all makes a refreshing call raise the [KeyError] of the first key missing, in the
    order hostname, ipaddress, hdd, bw, mem: the message is
    [Failed to fetch VPS data: ] followed by the key between quotes.  One
    request was made and the globals are untouched. *)
Theorem missing_key_is_named (w : env) (g : globals) (c : ServerConfig)
    (text : string) (response : dict) (k : string) :
  cache_fresh g (env_time w) = false ->
  env_config w = Ok c ->
  env_post w API_URL (post_flags_of c) = Ok text ->
  ascii_text text = true ->
  parse_response text = Ok response ->
  response <> [] ->
  is_ok (py_int (env_time_assembly w)) = true ->
  first_missing response = Some k ->
  get_vps_data w g
  = (Raise (mkExn RuntimeError ("Failed to fetch VPS data: " ++ key_repr k)),
     g, [(API_URL, post_flags_of c)]).
Proof.
  intros Hstale Hc Hpost _ Hparse Hne Hclock Hk.
  rewrite (failed_refresh_keeps_cache_aux w g (mkExn KeyError (key_repr k))
             [(API_URL, post_flags_of c)] Hstale); [reflexivity|].
  apply (fetch_assemble_raise w c text response); auto.
  apply assemble_missing; auto. exact (parse_response_wf _ _ Hparse).
Qed.


Lemma parse_body_no_address :
  exists response,
    parse_response body_no_address = Ok response
    /\ response <> [] /\ first_missing response = Some "ipaddress".
Proof.
  destruct (parse_response body_no_address) as [response|e] eqn:H.
  - exists response. split; [reflexivity|].
    vm_compute in H. inversion H. split; [discriminate | reflexivity].
  - vm_compute in H. discriminate H.
Qed.

Lemma missing_key_is_named_witness :
  get_vps_data (env1 1000.5%float body_no_address) initial_globals
  = (Raise (mkExn RuntimeError "Failed to fetch VPS data: 'ipaddress'"),
     initial_globals, [(API_URL, post_flags_of config1)]).
Proof.
  destruct parse_body_no_address as (response & Hparse & Hne & Hk).
  apply (missing_key_is_named (env1 1000.5%float body_no_address) initial_globals
           config1 body_no_address response "ipaddress");
    try reflexivity; assumption.
Defined.

(** X19. A response of ASCII text that parses and holds the five tags is
    served: with
    a clock that reads a finite time, a refreshing call returns the
    snapshot built from the five values, stores it in the cache with the
    time read on entry, and has made one request. *)
Theorem complete_response_is_served (w : env) (g : globals) (c : ServerConfig)
    (text : string) (response : dict) (now : Z) :
  cache_fresh g (env_time w) = false ->
  env_config w = Ok c ->
  env_post w API_URL (post_flags_of c) = Ok text ->
  ascii_text text = true ->
  parse_response text = Ok response ->
  first_missing response = None ->
  py_int (env_time_assembly w) = Ok now ->
  exists hostname ip hdd bw mem,
    dict_get response "hostname" = Some (PStr hostname)
    /\ dict_get response "ipaddress" = Some (PStr ip)
    /\ dict_get response "hdd" = Some (record_of hdd)
    /\ dict_get response "bw" = Some (record_of bw)
    /\ dict_get response "mem" = Some (record_of mem)
    /\ get_vps_data w g
       = (Ok (snapshot hostname ip now (entry_of hdd) (entry_of bw) (entry_of mem)),
          mkGlobals
            (Some (snapshot hostname ip now (entry_of hdd) (entry_of bw) (entry_of mem)))
            (env_time w),
          [(API_URL, post_flags_of c)]).
Proof.
  intros Hstale Hc Hpost _ Hparse Hall Hnow.
  pose proof (parse_response_wf _ _ Hparse) as Hwf.
  unfold first_missing, required_keys in Hall. cbn [find] in Hall.
  destruct (dict_get response "hostname") as [hv|] eqn:Hh; [|discriminate].
  destruct (dict_get response "ipaddress") as [iv|] eqn:Hi; [|discriminate].
  destruct (dict_get response "hdd") as [vh|] eqn:Hhdd; [|discriminate].
  destruct (dict_get response "bw") as [vb|] eqn:Hbw; [|discriminate].
  destruct (dict_get response "mem") as [vm|] eqn:Hmem; [|discriminate].
  destruct (wf_info response "hostname" hv Hwf eq_refl Hh) as (hostname & ->).
  destruct (wf_info response "ipaddress" iv Hwf eq_refl Hi) as (ip & ->).
  destruct (wf_resource response "hdd" vh Hwf eq_refl Hhdd) as (hdd & ->).
  destruct (wf_resource response "bw" vb Hwf eq_refl Hbw) as (bw & ->).
  destruct (wf_resource response "mem" vm Hwf eq_refl Hmem) as (mem & ->).
  exists hostname, ip, hdd, bw, mem. repeat split.
  assert (Ha : assemble w (post_flags_of c) response
               = Ok (snapshot hostname ip now (entry_of hdd) (entry_of bw)
                       (entry_of mem))).
  { unfold assemble.
    assert (Ht : negb (truthy (PDict response)) = false)
      by (destruct response; [discriminate Hh | reflexivity]).
    rewrite Ht. cbn [getitem]. rewrite Hh, Hi. cbn [bind]. rewrite Hnow. cbn [bind].
    unfold RESOURCE_TYPES. cbn [for_in].
    rewrite (add_resource_record c response _ "hdd" _ _ _ _ eq_refl Hhdd). cbn [bind].
    rewrite (add_resource_record c response _ "bw" _ _ _ _ eq_refl Hbw). cbn [bind].
    rewrite (add_resource_record c response _ "mem" _ _ _ _ eq_refl Hmem). cbn [bind].
    reflexivity. }
  assert (Hf : fetch w = (Ok (snapshot hostname ip now (entry_of hdd) (entry_of bw)
                                (entry_of mem)), [(API_URL, post_flags_of c)])).
  { unfold fetch, load_config, api_response.
    rewrite Hc. cbn [try_except]. rewrite Hpost. cbn [bind]. rewrite Hparse.
    cbn [try_except bind]. rewrite Ha. reflexivity. }
  rewrite (get_vps_data_stale w g Hstale). exact (refresh_ok _ _ _ _ _ Hf).
Qed.

Lemma complete_response_is_served_witness :
  exists response hostname ip hdd bw mem,
    parse_response body1 = Ok response
    /\ dict_get response "hostname" = Some (PStr hostname)
    /\ dict_get response "ipaddress" = Some (PStr ip)
    /\ dict_get response "hdd" = Some (record_of hdd)
    /\ dict_get response "bw" = Some (record_of bw)
    /\ dict_get response "mem" = Some (record_of mem)
    /\ get_vps_data (env1 1000.5%float body1) initial_globals
       = (Ok (snapshot hostname ip 1000 (entry_of hdd) (entry_of bw) (entry_of mem)),
          mkGlobals
            (Some (snapshot hostname ip 1000 (entry_of hdd) (entry_of bw) (entry_of mem)))
            1000.5%float,
          [(API_URL, post_flags_of config1)]).
Proof.
  destruct (parse_response body1) as [response|e] eqn:Hparse.
  - assert (Hall : first_missing response = None)
      by (vm_compute in Hparse; inversion Hparse; reflexivity).
    destruct (complete_response_is_served (env1 1000.5%float body1) initial_globals
                config1 body1 response 1000 eq_refl eq_refl eq_refl eq_refl Hparse Hall
                eq_refl)
      as (hostname & ip & hdd & bw & mem & H).
    exists response, hostname, ip, hdd, bw, mem. split; [reflexivity | exact H].
  - vm_compute in Hparse. discriminate Hparse.
Defined.

(* ===================================================================== *)
(** ** The values of a snapshot *)

Lemma getitem_snapshot_entry (h ip : string) (now : Z) (a b c : pyval) (rt : string) :
  In rt RESOURCE_TYPES ->
  getitem (snapshot h ip now a b c) (output_name rt)
  = Ok (if String.eqb rt "hdd" then a else if String.eqb rt "bw" then b else c).
Proof.
  intros [<- | [<- | [<- | []]]]; reflexivity.
Qed.

Lemma entry_values (s : sample) :
  getitem (entry_of s) "total"
  = Ok (PFloat (PrimFloat.div (s_total s) (float_of_Z BYTES_TO_GB)))
  /\ getitem (entry_of s) "usage" = Ok (PFloat (s_per s))
  /\ (snd (convert_bytes_to_readable (s_used s))
      = snd (convert_bytes_to_readable (s_total s)) ->
      getitem (entry_of s) "used"
      = Ok (PFloat (PrimFloat.div (s_used s) (float_of_Z BYTES_TO_GB))))
  /\ (snd (convert_bytes_to_readable (s_free s))
      = snd (convert_bytes_to_readable (s_total s)) ->
      getitem (entry_of s) "free"
      = Ok (PFloat (PrimFloat.div (s_free s) (float_of_Z BYTES_TO_GB)))).
Proof.
  split; [apply output_record_total|]. split; [reflexivity|].
  split; intros Hu; unfold entry_of, output_record;
    cbn [getitem dict_get String.eqb Ascii.eqb Bool.eqb];
    now rewrite (to_gb_same_unit _ _ Hu).
Qed.

(** X20. In the output of a successful fetch, the entry of each resource
    (under [storage] for hdd, [bandwidth] for bw, [memory] for mem) holds
    as [total] exactly the total of the parsed record divided by 2^30 and
    as [usage] the percentage of that record; it holds the used and the
    free amount divided by 2^30 whenever that amount is shown in the same
    unit as the total. *)
Theorem snapshot_entry_values (w : env) (out : pyval) (tr : list request) :
  fetch w = (Ok out, tr) ->
  exists c text response,
    env_config w = Ok c
    /\ env_post w API_URL (post_flags_of c) = Ok text
    /\ parse_response text = Ok response
    /\ forall rt, In rt RESOURCE_TYPES ->
         exists s entry,
           dict_get response rt = Some (record_of s)
           /\ getitem out (output_name rt) = Ok entry
           /\ getitem entry "total"
              = Ok (PFloat (PrimFloat.div (s_total s) (float_of_Z BYTES_TO_GB)))
           /\ getitem entry "usage" = Ok (PFloat (s_per s))
           /\ (snd (convert_bytes_to_readable (s_used s))
               = snd (convert_bytes_to_readable (s_total s)) ->
               getitem entry "used"
               = Ok (PFloat (PrimFloat.div (s_used s) (float_of_Z BYTES_TO_GB))))
           /\ (snd (convert_bytes_to_readable (s_free s))
               = snd (convert_bytes_to_readable (s_total s)) ->
               getitem entry "free"
               = Ok (PFloat (PrimFloat.div (s_free s) (float_of_Z BYTES_TO_GB)))).
Proof.
  intros Hf.
  destruct (fetch_ok _ _ _ Hf) as (c & text & response & Hc & Hp & Hparse & Ha & _).
  exists c, text, response. repeat split; try assumption.
  destruct (assemble_ok _ _ _ _ (parse_response_wf _ _ Hparse) Ha)
    as (h & ip & now & hdd & bw & mem & _ & _ & _ & Hhdd & Hbw & Hmem & ->).
  intros rt Hrt.
  rewrite (getitem_snapshot_entry _ _ _ _ _ _ _ Hrt).
  destruct Hrt as [<- | [<- | [<- | []]]]; cbn [String.eqb Ascii.eqb Bool.eqb].
  - exists hdd, (entry_of hdd). split; [exact Hhdd|]. split; [reflexivity|].
    apply entry_values.
  - exists bw, (entry_of bw). split; [exact Hbw|]. split; [reflexivity|].
    apply entry_values.
  - exists mem, (entry_of mem). split; [exact Hmem|]. split; [reflexivity|].
    apply entry_values.
Qed.

Lemma fetch_body1 :
  exists out, fetch (env1 1000.5%float body1)
              = (Ok out, [(API_URL, post_flags_of config1)]).
Proof.
  destruct (fetch (env1 1000.5%float body1)) as [[out|e] tr] eqn:Hf.
  - exists out. vm_compute in Hf. inversion Hf. reflexivity.
  - vm_compute in Hf. discriminate Hf.
Qed.

Lemma snapshot_entry_values_witness :
  exists out c text response,
    fetch (env1 1000.5%float body1) = (Ok out, [(API_URL, post_flags_of config1)])
    /\ env_config (env1 1000.5%float body1) = Ok c
    /\ env_post (env1 1000.5%float body1) API_URL (post_flags_of c) = Ok text
    /\ parse_response text = Ok response
    /\ forall rt, In rt RESOURCE_TYPES ->
         exists s entry,
           dict_get response rt = Some (record_of s)
           /\ getitem out (output_name rt) = Ok entry
           /\ getitem entry "total"
              = Ok (PFloat (PrimFloat.div (s_total s) (float_of_Z BYTES_TO_GB)))
           /\ getitem entry "usage" = Ok (PFloat (s_per s))
           /\ (snd (convert_bytes_to_readable (s_used s))
               = snd (convert_bytes_to_readable (s_total s)) ->
               getitem entry "used"
               = Ok (PFloat (PrimFloat.div (s_used s) (float_of_Z BYTES_TO_GB))))
           /\ (snd (convert_bytes_to_readable (s_free s))
               = snd (convert_bytes_to_readable (s_total s)) ->
               getitem entry "free"
               = Ok (PFloat (PrimFloat.div (s_free s) (float_of_Z BYTES_TO_GB)))).
Proof.
  destruct fetch_body1 as (out & Hf).
  destruct (snapshot_entry_values _ _ _ Hf) as (c & text & response & H).
  exists out, c, text, response. split; [exact Hf | exact H].
Defined.

(** X21. The output of a successful fetch holds the host name and the
    address as the parsed response has them, the address under [ip] and
    not under [ipaddress], and as [last_update] the clock read when the
    output is assembled, cut to an integer. *)
Theorem snapshot_identity_fields (w : env) (out : pyval) (tr : list request) :
  fetch w = (Ok out, tr) ->
  exists c text response hostname ip now,
    env_config w = Ok c
    /\ env_post w API_URL (post_flags_of c) = Ok text
    /\ parse_response text = Ok response
    /\ dict_get response "hostname" = Some (PStr hostname)
    /\ dict_get response "ipaddress" = Some (PStr ip)
    /\ py_int (env_time_assembly w) = Ok now
    /\ getitem out "hostname" = Ok (PStr hostname)
    /\ getitem out "ip" = Ok (PStr ip)
    /\ getitem out "last_update" = Ok (PInt now)
    /\ getitem out "ipaddress" = Raise (mkExn KeyError "'ipaddress'").
Proof.
  intros Hf.
  destruct (fetch_ok _ _ _ Hf) as (c & text & response & Hc & Hp & Hparse & Ha & _).
  destruct (assemble_ok _ _ _ _ (parse_response_wf _ _ Hparse) Ha)
    as (h & ip & now & hdd & bw & mem & Hh & Hip & Hnow & _ & _ & _ & ->).
  exists c, text, response, h, ip, now. repeat split; assumption || reflexivity.
Qed.

Lemma snapshot_identity_fields_witness :
  exists out c text response hostname ip now,
    fetch (env1 1000.5%float body1) = (Ok out, [(API_URL, post_flags_of config1)])
    /\ env_config (env1 1000.5%float body1) = Ok c
    /\ env_post (env1 1000.5%float body1) API_URL (post_flags_of c) = Ok text
    /\ parse_response text = Ok response
    /\ dict_get response "hostname" = Some (PStr hostname)
    /\ dict_get response "ipaddress" = Some (PStr ip)
    /\ py_int (env_time_assembly (env1 1000.5%float body1)) = Ok now
    /\ getitem out "hostname" = Ok (PStr hostname)
    /\ getitem out "ip" = Ok (PStr ip)
    /\ getitem out "last_update" = Ok (PInt now)
    /\ getitem out "ipaddress" = Raise (mkExn KeyError "'ipaddress'").
Proof.
  destruct fetch_body1 as (out & Hf).
  destruct (snapshot_identity_fields _ _ _ Hf)
    as (c & text & response & hostname & ip & now & H).
  exists out, c, text, response, hostname, ip, now. split; [exact Hf | exact H].
Defined.

(* ===================================================================== *)
(** ** Calls and the cache *)

(** X22. A call of [get_vps_data] makes no upstream request, or exactly
    one: the one request goes to [API_URL] with the key and hash of the
    configuration just loaded, the action [info] and the three flags, and
    is made only when the cache is empty or stale. *)
Theorem requests_of_a_call (w : env) (g : globals) :
  snd (get_vps_data w g) = []
  \/ exists c, env_config w = Ok c /\ cache_fresh g (env_time w) = false
               /\ snd (get_vps_data w g)
                  = [(API_URL,
                      [("key", PStr (key c)); ("hash", PStr (hash_value c));
                       ("action", PStr "info"); ("bw", PStr "true");
                       ("hdd", PStr "true"); ("mem", PStr "true")])].
Proof.
  destruct (cache_fresh g (env_time w)) eqn:Hfresh.
  - left. unfold cache_fresh in Hfresh.
    destruct (cached_data g) as [c|] eqn:Hc; [|discriminate].
    rewrite (get_vps_data_fresh w g c Hc); [reflexivity|].
    unfold cache_fresh. now rewrite Hc.
  - rewrite (get_vps_data_stale w g Hfresh), refresh_trace, fetch_trace.
    destruct (env_config w) as [c|e]; [right; eauto | now left].
Qed.

Lemma refresh_cache_of_fetch (w : env) (g : globals) (t : float) :
  t = env_time w -> cache_of_fetch g -> cache_of_fetch (snd (fst (refresh w g t))).
Proof.
  intros -> Hg. unfold refresh.
  destruct (fetch w) as [[out|e] tr] eqn:Hf; cbn; [|exact Hg].
  right. eauto.
Qed.

(** X23. A call of [get_vps_data] leaves the globals exactly as they were,
    or it returns the output of a successful fetch and stores that output
    with the time read on entry.  So a call that raises changes nothing, a
    cache that holds a snapshot holds one after every call (a failure
    never empties it), and, whatever calls were made since the module was
    loaded, the globals are the initial ones or hold the output of a fetch
    that succeeded. *)
Theorem cache_is_last_successful_fetch (w : env) (g : globals) :
  reachable g ->
  cache_of_fetch g
  /\ (snd (fst (get_vps_data w g)) = g
      \/ exists out,
           fst (fst (get_vps_data w g)) = Ok out
           /\ fetch w = (Ok out, snd (get_vps_data w g))
           /\ snd (fst (get_vps_data w g)) = mkGlobals (Some out) (env_time w))
  /\ (forall e, fst (fst (get_vps_data w g)) = Raise e ->
        snd (fst (get_vps_data w g)) = g)
  /\ (forall c, cached_data g = Some c ->
        exists c', cached_data (snd (fst (get_vps_data w g))) = Some c').
Proof.
  intros Hreach.
  assert (Hinv : cache_of_fetch g).
  { clear w. induction Hreach as [|w g _ IH]; [now left|].
    unfold get_vps_data. destruct (cached_data g) as [c|].
    - destruct (truthy c && within_window g (env_time w)); [exact IH|].
      now apply refresh_cache_of_fetch.
    - now apply refresh_cache_of_fetch. }
  assert (Hstep : snd (fst (get_vps_data w g)) = g
      \/ exists out,
           fst (fst (get_vps_data w g)) = Ok out
           /\ fetch w = (Ok out, snd (get_vps_data w g))
           /\ snd (fst (get_vps_data w g)) = mkGlobals (Some out) (env_time w)).
  { destruct (cache_fresh g (env_time w)) eqn:Hfresh.
    - left. unfold cache_fresh in Hfresh.
      destruct (cached_data g) as [c|] eqn:Hc; [|discriminate].
      rewrite (get_vps_data_fresh w g c Hc); [reflexivity|].
      unfold cache_fresh. now rewrite Hc.
    - rewrite (get_vps_data_stale w g Hfresh).
      destruct (fetch w) as [[out|e] tr] eqn:Hf.
      + right. exists out. rewrite (refresh_ok _ _ _ _ _ Hf). auto.
      + left. now rewrite (refresh_raise _ _ _ _ _ Hf). }
  split; [exact Hinv|]. split; [exact Hstep|]. split.
  - intros e He. destruct Hstep as [H|(out & Hout & _)]; [exact H|].
    rewrite Hout in He. discriminate He.
  - intros c Hc. destruct Hstep as [Hsame|(out & _ & _ & Hnew)].
    + rewrite Hsame. eauto.
    + rewrite Hnew. now exists out.
Qed.

Lemma cache_is_last_successful_fetch_witness :
  cache_of_fetch cached_globals
  /\ (snd (fst (get_vps_data timeout_env cached_globals)) = cached_globals
      \/ exists out,
           fst (fst (get_vps_data timeout_env cached_globals)) = Ok out
           /\ fetch timeout_env = (Ok out, snd (get_vps_data timeout_env cached_globals))
           /\ snd (fst (get_vps_data timeout_env cached_globals))
              = mkGlobals (Some out) (env_time timeout_env))
  /\ (forall e, fst (fst (get_vps_data timeout_env cached_globals)) = Raise e ->
        snd (fst (get_vps_data timeout_env cached_globals)) = cached_globals)
  /\ (forall c, cached_data cached_globals = Some c ->
        exists c',
          cached_data (snd (fst (get_vps_data timeout_env cached_globals))) = Some c').
Proof.
  apply (cache_is_last_successful_fetch timeout_env cached_globals).
  unfold cached_globals. apply reachable_call. apply reachable_initial.
Defined.

Lemma leb_60_not_ltb_60 (d : float) :
  PrimFloat.leb 60 d = true -> PrimFloat.ltb d 60 = false.
Proof.
  intros H.
  assert (Hd : not_nan (Prim2SF d)).
  { intros Hn. rewrite leb_spec, Hn in H. vm_compute in H. discriminate H. }
  rewrite leb_spec in H. rewrite ltb_spec.
  rewrite SFleb_negb_SFltb in H; [|intros Hn; vm_compute in Hn; discriminate Hn|exact Hd].
  now destruct (SFltb (Prim2SF d) (Prim2SF 60)).
Qed.

(** X24. The window is half open: a call whose entry time is 60 seconds or
    more after [last_update] refreshes, whatever the cache holds, and
    makes its request when the configuration loads. *)
Theorem stale_from_sixty_seconds (w : env) (g : globals) :
  PrimFloat.leb 60 (PrimFloat.sub (env_time w) (last_update g)) = true ->
  get_vps_data w g = refresh w g (env_time w)
  /\ forall c, env_config w = Ok c ->
       snd (get_vps_data w g) = [(API_URL, post_flags_of c)].
Proof.
  intros H.
  assert (Hstale : cache_fresh g (env_time w) = false).
  { unfold cache_fresh, within_window. rewrite float_of_Z_60.
    rewrite (leb_60_not_ltb_60 _ H). destruct (cached_data g) as [c|]; [|reflexivity].
    apply andb_false_r. }
  split; [now apply get_vps_data_stale|].
  intros c Hc. rewrite (get_vps_data_stale w g Hstale), refresh_trace, fetch_trace.
  now rewrite Hc.
Qed.

Lemma stale_from_sixty_seconds_witness :
  snd (get_vps_data (env1 1060%float body1)
         (snd (fst (get_vps_data (env1 1000%float body1) initial_globals))))
  = [(API_URL, post_flags_of config1)].
Proof.
  apply (stale_from_sixty_seconds (env1 1060%float body1)
           (snd (fst (get_vps_data (env1 1000%float body1) initial_globals)))).
  - vm_compute. reflexivity.
  - reflexivity.
Defined.

(* ===================================================================== *)
(** ** The endpoints, on *)

(** X25. [status] adds nothing to the call of [get_vps_data] it makes: the
    globals and the requests are those of the call.  It answers 200 with
    the snapshot the call returned, or 500 with a body whose only key is
    [error] and whose message starts with [Failed to fetch VPS data: ]; in
    the second case the globals are as they were. *)
Theorem status_answers (w : env) (g : globals) :
  reachable g ->
  snd (fst (status w g)) = snd (fst (get_vps_data w g))
  /\ snd (status w g) = snd (get_vps_data w g)
  /\ ((exists out,
         fst (fst (get_vps_data w g)) = Ok out /\ flat_snapshot out
         /\ fst (fst (status w g)) = (Json out, 200%Z))
      \/ (exists e,
            fst (fetch w) = Raise e
            /\ snd (fst (status w g)) = g
            /\ fst (fst (status w g))
               = (Json (PDict [("error",
                    PStr ("Failed to fetch VPS data: " ++ exn_str e))]), 500%Z))).
Proof.
  intros Hg.
  assert (Hsame : snd (fst (status w g)) = snd (fst (get_vps_data w g))
                  /\ snd (status w g) = snd (get_vps_data w g)).
  { unfold status. destruct (get_vps_data w g) as [[[out|e] g'] tr]; auto. }
  destruct Hsame as [Hglob Htr]. split; [exact Hglob|]. split; [exact Htr|].
  destruct (get_vps_data w g) as [[r g'] tr] eqn:Hcall.
  destruct r as [out|e].
  - left. exists out. split; [reflexivity|]. split.
    + destruct (proj2 (get_vps_data_cache w g (reachable_cache g Hg)) out)
        as (h & ip & now & a & b & m & ->); [now rewrite Hcall|].
      apply snapshot_flat.
    + unfold status. rewrite Hcall. reflexivity.
  - right.
    destruct (cache_fresh g (env_time w)) eqn:Hfresh.
    + unfold cache_fresh in Hfresh.
      destruct (cached_data g) as [c|] eqn:Hc; [|discriminate].
      rewrite (get_vps_data_fresh w g c Hc) in Hcall
        by (unfold cache_fresh; now rewrite Hc).
      discriminate Hcall.
    + rewrite (get_vps_data_stale w g Hfresh) in Hcall.
      destruct (fetch w) as [[out|e0] tr0] eqn:Hf.
      * rewrite (refresh_ok _ _ _ _ _ Hf) in Hcall. discriminate Hcall.
      * rewrite (refresh_raise _ _ _ _ _ Hf) in Hcall.
        injection Hcall as <- <- <-.
        exists e0. unfold status.
        rewrite (get_vps_data_stale w g Hfresh), (refresh_raise _ _ _ _ _ Hf).
        cbn. auto.
Qed.

Lemma status_answers_witness :
  snd (fst (status (env1 1000.5%float "") initial_globals))
  = snd (fst (get_vps_data (env1 1000.5%float "") initial_globals))
  /\ snd (status (env1 1000.5%float "") initial_globals)
     = snd (get_vps_data (env1 1000.5%float "") initial_globals)
  /\ ((exists out,
         fst (fst (get_vps_data (env1 1000.5%float "") initial_globals)) = Ok out
         /\ flat_snapshot out
         /\ fst (fst (status (env1 1000.5%float "") initial_globals))
            = (Json out, 200%Z))
      \/ (exists e,
            fst (fetch (env1 1000.5%float "")) = Raise e
            /\ snd (fst (status (env1 1000.5%float "") initial_globals))
               = initial_globals
            /\ fst (fst (status (env1 1000.5%float "") initial_globals))
               = (Json (PDict [("error",
                    PStr ("Failed to fetch VPS data: " ++ exn_str e))]), 500%Z))).
Proof.
  apply (status_answers (env1 1000.5%float "") initial_globals).
  apply reachable_initial.
Defined.

Lemma metrics_resource_nested (format : pyval -> string) (row : gauge_row)
    (lines : list string) :
  metrics_resource format (nested_item row) lines
  = Ok (lines ++ gauge_lines format row)%list.
Proof.
  destruct row as [name [[t u] p]]. unfold metrics_resource, nested_item, nested_resource.
  cbn [getitem dict_get String.eqb Ascii.eqb Bool.eqb bind].
  rewrite <- !app_assoc. cbn [List.app gauge_lines].
  repeat (rewrite ?append_assoc; cbn [append]). reflexivity.
Qed.

Lemma metrics_loop_nested (format : pyval -> string) (rows : list gauge_row) :
  forall lines,
    for_in (map nested_item rows) lines (metrics_resource format)
    = Ok (lines ++ flat_map (gauge_lines format) rows)%list.
Proof.
  induction rows as [|row rows IH]; intros lines; cbn [map for_in flat_map].
  - now rewrite app_nil_r.
  - rewrite metrics_resource_nested. cbn [bind]. rewrite IH. now rewrite <- app_assoc.
Qed.

(** X26. Given data that holds, under [resources], a mapping from names to
    resources with a [value] under [total] and under [used] and a
    [percentage_used], the body of [metrics] yields nine lines for each
    resource, in the order of the mapping: for each of the three gauges a
    HELP line, a TYPE line and the sample. *)
Theorem metrics_lines_of_nested_data (format : pyval -> string) (data : pyval)
    (rows : list gauge_row) :
  getitem data "resources" = Ok (PDict (map nested_item rows)) ->
  metrics_lines format data = Ok (flat_map (gauge_lines format) rows)
  /\ List.length (flat_map (gauge_lines format) rows) = (9 * List.length rows)%nat.
Proof.
  intros Hres. split.
  - unfold metrics_lines. rewrite Hres. cbn [bind items].
    now rewrite metrics_loop_nested.
  - clear Hres. induction rows as [|[name [[t u] p]] rows IH]; [reflexivity|].
    cbn [flat_map]. rewrite length_app, IH. cbn [gauge_lines List.length]. lia.
Qed.

Lemma metrics_lines_of_nested_data_witness :
  metrics_lines (fun _ => "1")
    (PDict [("resources", PDict (map nested_item [("storage", (PInt 1, PInt 1, PInt 1))]))])
  = Ok (flat_map (gauge_lines (fun _ => "1")) [("storage", (PInt 1, PInt 1, PInt 1))])
  /\ List.length (flat_map (gauge_lines (fun _ => "1"))
                    [("storage", (PInt 1, PInt 1, PInt 1))]) = (9 * 1)%nat.
Proof.
  apply (metrics_lines_of_nested_data (fun _ => "1")
           (PDict [("resources",
                    PDict (map nested_item [("storage", (PInt 1, PInt 1, PInt 1))]))])
           [("storage", (PInt 1, PInt 1, PInt 1))]).
  reflexivity.
Defined.

(** X27. A request to [metrics] that finds the cache empty or stale fills
    it although it answers 500: when the fetch succeeds, the globals hold
    the snapshot, and a request to [status] that enters less than 60
    seconds later is answered 200 with that snapshot and no upstream
    request. *)
Theorem metrics_call_fills_the_cache (format : pyval -> string) (w w2 : env)
    (g g' : globals) (out : pyval) (tr : list request) :
  cache_fresh g (env_time w) = false ->
  get_vps_data w g = (Ok out, g', tr) ->
  PrimFloat.ltb (PrimFloat.sub (env_time w2) (env_time w)) 60 = true ->
  metrics format w g = ((Text "# ERROR: 'resources'", 500%Z), g', tr)
  /\ status w2 g' = ((Json out, 200%Z), g', []).
Proof.
  intros Hstale Hcall Hnear.
  destruct (refresh_success w g g' out tr Hstale Hcall) as [Hf ->].
  destruct (fetch_snapshot _ _ _ Hf) as (h & ip & now & a & b & m & ->).
  split.
  - unfold metrics. rewrite Hcall. cbn [bind].
    now rewrite (metrics_lines_flat format _ (snapshot_flat h ip now a b m)).
  - unfold status.
    rewrite (get_vps_data_fresh w2
               (mkGlobals
                  (Some (snapshot h ip now (entry_of a) (entry_of b) (entry_of m)))
                  (env_time w))
               (snapshot h ip now (entry_of a) (entry_of b) (entry_of m)) eq_refl);
      [reflexivity|].
    unfold cache_fresh, within_window. cbn [cached_data last_update].
    now rewrite snapshot_truthy, float_of_Z_60, Hnear.
Qed.

Lemma metrics_call_fills_the_cache_witness :
  exists out g',
    metrics (fun _ => "") (env1 1000%float body1) initial_globals
    = ((Text "# ERROR: 'resources'", 500%Z), g', [(API_URL, post_flags_of config1)])
    /\ status (env1 1030%float "") g' = ((Json out, 200%Z), g', []).
Proof.
  destruct (get_vps_data (env1 1000%float body1) initial_globals)
    as [[[out|e] g'] tr] eqn:Hcall.
  - exists out, g'.
    assert (Htr : tr = [(API_URL, post_flags_of config1)])
      by (vm_compute in Hcall; now inversion Hcall).
    rewrite <- Htr.
    apply (metrics_call_fills_the_cache (fun _ => "") (env1 1000%float body1)
             (env1 1030%float "") initial_globals g' out tr eq_refl Hcall).
    vm_compute. reflexivity.
  - vm_compute in Hcall. discriminate Hcall.
Defined.
